(** * rimono: dual-chain wallet bridge

A shallow embedding of [src/lib/blockchain.ts] (configuration, token
operations, network checks) and of the connection effect of the
[WalletConnectButton] component, with the properties of the
specification stated and settled over it.

Layout: the JavaScript runtime pieces the code relies on ([Js]), then the
library ([Blockchain]), then the component ([WalletConnectButton]), then
the theorems. *)

From Stdlib Require Import ZArith String Ascii List Bool Lia.
From Stdlib Require Import SpecFloat PrimFloat FloatOps.
From stdpp Require Import gmap strings.
Import ListNotations.

Local Open Scope string_scope.
Local Open Scope Z_scope.

(* ===================================================================== *)
(** * The JavaScript runtime, as far as the code uses it                  *)
(* ===================================================================== *)

Module Js.

(** ** Thrown values and completion records *)

(** An [Error]-like object: the fields the catch blocks read.
    [json] is what [JSON.stringify] yields for the object. *)
Record ErrorObj := mkErrorObj {
  code : option Z;
  shortMessage : option string;
  message : option string;
  json : string
}.

(** JavaScript throws any value. A thrown value that has properties is a
    string (TronWeb) or an object; a number or a boolean reads like an
    object without fields. *)
Inductive Thrown :=
| ThrownString (s : string)
| ThrownObject (e : ErrorObj).

(** [null] and [undefined] can be thrown as well, and a promise can be
    rejected with either. They have no properties: reading one throws a
    [TypeError]. *)
Inductive Nullish := Null | Undefined.

(** [new Error(msg)], [new TypeError(msg)], [new RangeError(msg)], ... *)
Definition new_Error (msg : string) : Thrown :=
  ThrownObject {| code := None; shortMessage := None;
                  message := Some msg; json := "{}" |}.

(** How a call completes: with a value, or by throwing. For an awaited
    promise: fulfilled, or rejected. *)
Inductive Outcome (A : Type) :=
  | Return (a : A)
  | Throw (t : Thrown)
  | ThrowNullish (n : Nullish).
Arguments Return {A} a.
Arguments Throw {A} t.
Arguments ThrowNullish {A} n.

(** What a [catch] clause binds. *)
Inductive Caught :=
| CaughtValue (t : Thrown)
| CaughtNullish (n : Nullish).

(** ** A writer-and-exception monad for the async functions

A computation yields the events it caused, in order, and either a
value or a thrown value (a rejected promise, for an [async] function).
[E] is the type of events. *)

Definition M (E A : Type) : Type := list E * Outcome A.

Section Monad.
Context {E : Type}.

Definition ret {A} (a : A) : M E A := ([], Return a).
Definition throw {A} (t : Thrown) : M E A := ([], Throw t).
Definition emit (e : E) : M E unit := ([e], Return tt).
Definition lift {A} (o : Outcome A) : M E A := ([], o).

Definition bind {A B} (m : M E A) (k : A -> M E B) : M E B :=
  match m with
  | (tr, Return a) => let '(tr', r) := k a in ((tr ++ tr')%list, r)
  | (tr, Throw t) => (tr, Throw t)
  | (tr, ThrowNullish n) => (tr, ThrowNullish n)
  end.

(** [try { body } catch (e) { handler e }] *)
Definition try_catch {A} (body : M E A) (handler : Caught -> M E A) : M E A :=
  match body with
  | (tr, Return a) => (tr, Return a)
  | (tr, Throw t) => let '(tr', r) := handler (CaughtValue t) in ((tr ++ tr')%list, r)
  | (tr, ThrowNullish n) =>
      let '(tr', r) := handler (CaughtNullish n) in ((tr ++ tr')%list, r)
  end.

(** [throw e] for a caught [e]. *)
Definition rethrow {A} (e : Caught) : M E A :=
  match e with
  | CaughtValue t => ([], Throw t)
  | CaughtNullish n => ([], ThrowNullish n)
  end.

(** [try { body } finally { cleanup }], for a [cleanup] that completes
    normally. *)
Definition try_finally {A} (body : M E A) (cleanup : list E) : M E A :=
  let '(tr, r) := body in ((tr ++ cleanup)%list, r).

Definition trace {A} (m : M E A) : list E := fst m.
Definition outcome {A} (m : M E A) : Outcome A := snd m.
End Monad.

(** The monad operations, registered with stdpp's [mret]/[mbind] so that
    the functions below read [x ← call; rest]. *)
#[global] Instance M_ret {E} : MRet (M E) := @ret E.
#[global] Instance M_bind {E} : MBind (M E) := fun A B k m => bind m k.

(** Optional chaining, [o?.f]. *)
Definition chain {A B} (o : option A) (f : A -> option B) : option B :=
  match o with Some a => f a | None => None end.

(** Fields of a thrown value; a string has none of them. *)
Definition thrown_code (t : Thrown) : option Z :=
  match t with ThrownObject e => code e | ThrownString _ => None end.
Definition thrown_shortMessage (t : Thrown) : option string :=
  match t with ThrownObject e => shortMessage e | ThrownString _ => None end.
Definition thrown_message (t : Thrown) : option string :=
  match t with ThrownObject e => message e | ThrownString _ => None end.

Definition nullish_name (n : Nullish) : string :=
  match n with Null => "null" | Undefined => "undefined" end.

(** The [TypeError] of [e.property] for a [null] or [undefined] [e]. *)
Definition cannot_read (n : Nullish) (property : string) : Thrown :=
  new_Error ("Cannot read properties of " ++ nullish_name n
             ++ " (reading '" ++ property ++ "')").

(** An expression over a caught [error] whose first property access is
    [error.property]: [of_value] on a value that has properties, the
    [TypeError] of the access on [null] and [undefined]. *)
Definition read {X} (error : Caught) (property : string) (of_value : Thrown -> X)
  : Outcome X :=
  match error with
  | CaughtValue t => Return (of_value t)
  | CaughtNullish n => Throw (cannot_read n property)
  end.

(** ** Truthiness of optional strings: [undefined] and the empty string are falsy *)

Definition truthy_str (s : string) : bool := negb (String.eqb s EmptyString).

Definition truthy_ostr (o : option string) : bool :=
  match o with Some s => truthy_str s | None => false end.

(** [a || b] where [b] is a string: the first operand when truthy. *)
Definition or_default (a : option string) (b : string) : string :=
  match a with
  | Some s => if truthy_str s then s else b
  | None => b
  end.

(** ** Strings

A string is held as the bytes of its UTF-8 encoding: a character of the
ASCII range is one byte below 128, and every byte of any other character
is 128 or more. Bytes are written by their decimal code. *)

Definition lower_ascii (c : ascii) : ascii :=
  let n := nat_of_ascii c in
  if (Nat.leb 65 n && Nat.leb n 90)%bool then ascii_of_nat (n + 32) else c.

(** [String.prototype.toLowerCase]. The letters A-Z go to a-z. Two
    characters outside ASCII have an ASCII letter in their lower case:
    U+212A KELVIN SIGN (bytes 226 132 170) goes to [k], and U+0130 LATIN
    CAPITAL LETTER I WITH DOT ABOVE (bytes 196 176) goes to [i] followed by
    U+0307 (bytes 204 135). The lower case of every other character outside
    ASCII is outside ASCII again; such a character is kept as it is, so
    the result is the one of the code up to characters outside ASCII that
    stand where characters outside ASCII stand
    ([includes_up_to_non_ascii]). *)
Fixpoint toLowerCase (s : string) : string :=
  match s with
  | String "226" (String "132" (String "170" r)) => String "k" (toLowerCase r)
  | String "196" (String "176" r) =>
      String "i" (String "204" (String "135" (toLowerCase r)))
  | String c r => String (lower_ascii c) (toLowerCase r)
  | EmptyString => EmptyString
  end.

(** [hay.includes(needle)] *)
Fixpoint includes (hay needle : string) : bool :=
  String.prefix needle hay
  || match hay with
     | EmptyString => false
     | String _ r => includes r needle
     end.

(** [arr.some(pred)] *)
Definition some {A} (pred : A -> bool) (arr : list A) : bool := existsb pred arr.

Fixpoint repeat_char (c : ascii) (n : nat) : string :=
  match n with O => EmptyString | S k => String c (repeat_char c k) end.

(** [s.padStart(n, c)] for a one-character filler. *)
Definition padStart (s : string) (n : nat) (c : ascii) : string :=
  repeat_char c (n - String.length s) ++ s.

(** [s.replace(/0+$/, '')]: drop the trailing run of zeros. *)
Fixpoint strip_trailing_zeros (s : string) : string :=
  match s with
  | EmptyString => EmptyString
  | String c r =>
      match strip_trailing_zeros r with
      | EmptyString => if Ascii.eqb c "0" then EmptyString else String c EmptyString
      | r' => String c r'
      end
  end.

(** The character of a digit below 16. *)
Definition digit_char (d : Z) : ascii :=
  if d <? 10 then ascii_of_nat (Z.to_nat (48 + d)) else ascii_of_nat (Z.to_nat (87 + d)).

(** The digits of [n] in [radix], most significant first, in front of
    [acc]; [fuel] bounds the number of digits. *)
Fixpoint digits_acc (radix : Z) (fuel : nat) (n : Z) (acc : string) : string :=
  match fuel with
  | O => acc
  | S f =>
      let acc' := String (digit_char (n mod radix)) acc in
      if n / radix =? 0 then acc' else digits_acc radix f (n / radix) acc'
  end.

Definition natural_toString (radix n : Z) : string :=
  digits_acc radix (S (Z.to_nat (Z.log2 n))) n EmptyString.

(** [BigInt.prototype.toString(radix)]: a minus sign for a negative value,
    then the digits of the magnitude. *)
Definition Z_toString_radix (radix z : Z) : string :=
  if z <? 0 then String "-" (natural_toString radix (- z)) else natural_toString radix z.

(** [BigInt.prototype.toString()] and interpolation of an integral Number. *)
Definition Z_toString (z : Z) : string := Z_toString_radix 10 z.

(** [BigInt.prototype.toString(16)] *)
Definition Z_toString16 (z : Z) : string := Z_toString_radix 16 z.

(** ** Parsing helpers *)

Definition is_digit (c : ascii) : bool :=
  let n := nat_of_ascii c in (Nat.leb 48 n && Nat.leb n 57)%bool.

(** Value of a digit in radix up to 16; [None] when [c] is no digit. *)
Definition digit_value (c : ascii) : option Z :=
  let n := nat_of_ascii c in
  if (Nat.leb 48 n && Nat.leb n 57)%bool then Some (Z.of_nat n - 48)
  else if (Nat.leb 97 n && Nat.leb n 102)%bool then Some (Z.of_nat n - 87)
  else if (Nat.leb 65 n && Nat.leb n 70)%bool then Some (Z.of_nat n - 55)
  else None.

(** All of [s] read as digits in [radix], most significant first. *)
Fixpoint digits_value (radix acc : Z) (s : string) : option Z :=
  match s with
  | EmptyString => Some acc
  | String c r =>
      match digit_value c with
      | Some d => if d <? radix then digits_value radix (radix * acc + d) r else None
      | None => None
      end
  end.

(** The longest prefix of decimal digits, and what follows it. *)
Fixpoint take_digits (s : string) : string * string :=
  match s with
  | EmptyString => (EmptyString, EmptyString)
  | String c r =>
      if is_digit c then let '(d, rest) := take_digits r in (String c d, rest)
      else (EmptyString, s)
  end.

Definition decimal_value (s : string) : Z :=
  match digits_value 10 0 s with Some z => z | None => 0 end.

(** A byte of the ASCII range. *)
Definition is_ascii (c : ascii) : bool := Nat.ltb (nat_of_ascii c) 128.

(** White space and line terminators of the ASCII range: TAB, LF, VT, FF,
    CR and the space. *)
Definition is_white (c : ascii) : bool :=
  let n := nat_of_ascii c in
  ((Nat.leb 9 n && Nat.leb n 13) || Nat.eqb n 32)%bool.

(** The third byte of the white space that starts with the bytes 226 128:
    U+2000 to U+200A (128 to 138), the line and paragraph separators
    U+2028 and U+2029 (168, 169) and U+202F (175). *)
Definition is_general_punctuation_space (c : ascii) : bool :=
  let n := nat_of_ascii c in
  ((Nat.leb 128 n && Nat.leb n 138) || Nat.eqb n 168 || Nat.eqb n 169 || Nat.eqb n 175)%bool.

(** [s] without the white space and line terminators it starts with
    ([WhiteSpace] and [LineTerminator] of the language): those of ASCII,
    U+00A0 (bytes 194 160), U+1680 (225 154 128), the ones that start with
    226 128, U+205F (226 129 159), U+3000 (227 128 128) and U+FEFF
    (239 187 191). *)
Fixpoint trim_start (s : string) : string :=
  match s with
  | String "194" (String "160" r) => trim_start r
  | String "225" (String "154" (String "128" r)) => trim_start r
  | String "226" (String "128" (String c r)) =>
      if is_general_punctuation_space c then trim_start r else s
  | String "226" (String "129" (String "159" r)) => trim_start r
  | String "227" (String "128" (String "128" r)) => trim_start r
  | String "239" (String "187" (String "191" r)) => trim_start r
  | String c r => if is_white c then trim_start r else s
  | EmptyString => EmptyString
  end.

(** [s] without the white space it ends with: the longest suffix that is
    white space throughout is dropped. *)
Fixpoint trim_end (s : string) : string :=
  match s with
  | EmptyString => EmptyString
  | String c r =>
      if String.eqb (trim_start s) EmptyString then EmptyString
      else String c (trim_end r)
  end.

Definition trim (s : string) : string := trim_end (trim_start s).

(** An optional sign: whether it is [-], and the rest. *)
Definition take_sign (s : string) : bool * string :=
  match s with
  | String "-" r => (true, r)
  | String "+" r => (false, r)
  | _ => (false, s)
  end.

(** ** Numbers: IEEE 754 binary64 *)

Definition prec : Z := 53.
Definition emax : Z := 1024.
Definition Number : Type := spec_float.

(** The Number nearest to an integer (exact below 2^53). *)
Definition Number_of_Z (z : Z) : Number := binary_normalize prec emax z 0 false.

(** The Number nearest to [p / q] (ties to even), for [0 <= p], [0 < q]. *)
Definition Number_of_ratio (neg : bool) (p q : Z) : Number :=
  if p =? 0 then S754_zero neg
  else let '(m, e, l) := SFdiv_core_binary prec emax p 0 q 0 in
       binary_round_aux prec emax neg m e l.

(** [x * y] *)
Definition Number_mul (x y : Number) : Number := SFmul prec emax x y.

(** [10 ** n] for a small non-negative integer [n] (exact). *)
Definition pow10 (n : Z) : Number := Number_of_Z (10 ^ n).

Definition exponent_part (s : string) : Z :=
  match s with
  | String c r =>
      if (Ascii.eqb c "e" || Ascii.eqb c "E")%bool then
        let '(eneg, r1) := take_sign r in
        let '(ed, _) := take_digits r1 in
        if String.eqb ed EmptyString then 0
        else if eneg then - decimal_value ed else decimal_value ed
      else 0
  | EmptyString => 0
  end.

(** [parseFloat(input)]: the longest prefix of the trimmed input that is a
    decimal literal, rounded to the nearest Number; [NaN] when there is
    none. *)
Definition parseFloat (input : string) : Number :=
  let '(neg, s1) := take_sign (trim_start input) in
  if String.prefix "Infinity" s1 then S754_infinity neg
  else
    let '(ip, s2) := take_digits s1 in
    let '(fp, s3) := match s2 with
                     | String "." r => take_digits r
                     | _ => (EmptyString, s2)
                     end in
    if String.eqb (ip ++ fp) EmptyString then S754_nan
    else
      let m := decimal_value (ip ++ fp) in
      let k := exponent_part s3 - Z.of_nat (String.length fp) in
      if 0 <=? k then Number_of_ratio neg (m * 10 ^ k) 1
      else Number_of_ratio neg m (10 ^ (- k)).

(** [Math.round(x)]: the integer nearest to [x], ties towards +infinity. *)
Definition Math_round (x : Number) : Number :=
  match x with
  | S754_finite s m e =>
      if 0 <=? e then x
      else
        let k := - e in
        let twice := if s then - (2 * Z.pos m) else 2 * Z.pos m in
        let r := (twice + 2 ^ k) / 2 ^ (k + 1) in
        if r =? 0 then S754_zero s else Number_of_Z r
  | _ => x
  end.

Definition not_an_integer (shown : string) : Thrown :=
  new_Error ("The number " ++ shown ++
             " cannot be converted to a BigInt because it is not an integer").

(** [BigInt(x)] for a Number: its exact value when integral, a
    [RangeError] otherwise. The message shows the number; the digits of a
    finite fraction are left out of it. *)
Definition BigInt_of_Number (x : Number) : Outcome Z :=
  match x with
  | S754_zero _ => Return 0
  | S754_finite s m e =>
      let sgn := if s then -1 else 1 in
      if 0 <=? e then Return (sgn * (Z.pos m * 2 ^ e))
      else if Z.pos m mod 2 ^ (- e) =? 0 then Return (sgn * (Z.pos m / 2 ^ (- e)))
      else Throw (not_an_integer "(fraction)")
  | S754_infinity false => Throw (not_an_integer "Infinity")
  | S754_infinity true => Throw (not_an_integer "-Infinity")
  | S754_nan => Throw (not_an_integer "NaN")
  end.

Definition cannot_convert (s : string) : Thrown :=
  new_Error ("Cannot convert " ++ s ++ " to a BigInt").

(** [BigInt(s)] for a string: white space trimmed, empty is [0n], then a
    signed decimal or an unsigned 0x / 0o / 0b literal; a [SyntaxError]
    otherwise. *)
Definition BigInt_of_string (s : string) : Outcome Z :=
  let t := trim s in
  let radix_literal (radix : Z) (ds : string) :=
    if String.eqb ds EmptyString then Throw (cannot_convert s)
    else match digits_value radix 0 ds with
         | Some z => Return z
         | None => Throw (cannot_convert s)
         end in
  match t with
  | EmptyString => Return 0
  | String "0" (String c r) =>
      if (Ascii.eqb c "x" || Ascii.eqb c "X")%bool then radix_literal 16 r
      else if (Ascii.eqb c "o" || Ascii.eqb c "O")%bool then radix_literal 8 r
      else if (Ascii.eqb c "b" || Ascii.eqb c "B")%bool then radix_literal 2 r
      else radix_literal 10 t
  | _ =>
      let '(neg, ds) := take_sign t in
      match radix_literal 10 ds with
      | Return z => Return (if neg then - z else z)
      | Throw e => Throw e
      | ThrowNullish n => ThrowNullish n
      end
  end.

End Js.

(* ===================================================================== *)
(** * lib/constants: the names the two modules import                     *)
(* ===================================================================== *)

Module Constants.

(** [Chain]: the two supported logical chains, ['BSC'] and ['TRON']. *)
Inductive Chain := BSC | TRON.

Definition Chain_eqb (a b : Chain) : bool :=
  match a, b with
  | BSC, BSC | TRON, TRON => true
  | _, _ => false
  end.

(** A chain identifier as a wallet reports it and as the constants hold
    it: a number (integral) or a string. *)
Inductive ChainNetworkId :=
| IdNumber (n : Z)
| IdString (s : string).

(** [a === b] *)
Definition strict_eq (a b : ChainNetworkId) : bool :=
  match a, b with
  | IdNumber x, IdNumber y => x =? y
  | IdString x, IdString y => String.eqb x y
  | _, _ => false
  end.

(** Truthiness: [0] and the empty string are falsy. *)
Definition truthy_id (a : ChainNetworkId) : bool :=
  match a with
  | IdNumber n => negb (n =? 0)
  | IdString s => Js.truthy_str s
  end.

(** Interpolation into a template string. *)
Definition id_toString (a : ChainNetworkId) : string :=
  match a with
  | IdNumber n => Js.Z_toString n
  | IdString s => s
  end.

(** [BigInt(id)] *)
Definition BigInt_of_id (a : ChainNetworkId) : Js.Outcome Z :=
  match a with
  | IdNumber n => Js.Return n
  | IdString s => Js.BigInt_of_string s
  end.

End Constants.

(* ===================================================================== *)
(** * lib/blockchain.ts                                                   *)
(* ===================================================================== *)

Module Blockchain.
Import Js Constants.

Notation "o ?. f" := (chain o f) (at level 50, left associativity).

(** ** Observable events: console output and calls that leave the module *)

Inductive Level := LLog | LWarn | LError.

(** The parameter object of a wallet request. *)
Inductive RequestParams :=
| SwitchChain (chainId : string)
| AddChain (chainId chainName currencyName currencySymbol : string)
           (currencyDecimals : Z) (rpcUrls blockExplorerUrls : list string).

Inductive Event :=
  | Console (lvl : Level) (msg : string)
      (** [console.log/warn/error]; [msg] is the text of the first argument *)
  | ContractConstructed (standard : string) (address : string)
      (** [new Contract(...)] or [tronWeb.contract(...)] entered *)
  | ContractCall (standard : string) (method : string) (args : list string)
      (** a method of a contract handle invoked *)
  | WalletRequest (method : string) (params : RequestParams)
      (** [provider.send(method, [params])] *).

Definition is_contract_call (e : Event) : bool :=
  match e with ContractCall _ _ _ => true | _ => false end.

Definition is_wallet_request (e : Event) : bool :=
  match e with WalletRequest _ _ => true | _ => false end.

(** ** Configuration & validation (module initialization) *)

Record Config := mkConfig {
  NEXT_PUBLIC_BSC_RPC_URL : string;
  BEP20_ADDRESS : string;
  NEXT_PUBLIC_TRON_RPC_URL : string;
  TRC20_ADDRESS_BASE58 : string;
  NEXT_PUBLIC_TRONGRID_API_KEY : option string;
  TRC20_ADDRESS_HEX : string
}.

Definition missing (name : string) : Thrown :=
  new_Error ("Missing environment variable: " ++ name).

(** [if (!v) throw new Error("Missing environment variable: name")] *)
Definition require_env (name : string) (v : option string) : M Event string :=
  match v with
  | Some s => if truthy_str s then mret s else throw (missing name)
  | None => throw (missing name)
  end.

Section Initialization.

(** [new TronWeb({ fullHost }).address.toHex(base58)], which throws on
    an address it cannot decode. *)
Variable address_toHex : string -> Outcome string.

(** The top-level statements of the module, run once at import over
    [process.env]. *)
Definition initialize (env : gmap string string) : M Event Config :=
  let bsc_rpc := or_default (env !! "NEXT_PUBLIC_BSC_RPC_URL")
                            "bsc-testnet-rpc.publicnode.com" in
  let bep20 := env !! "NEXT_PUBLIC_BEP20_CONTRACT_ADDRESS" in
  let tron_rpc := env !! "NEXT_PUBLIC_TRON_RPC_URL" in
  let trc20 := env !! "NEXT_PUBLIC_TRC20_CONTRACT_ADDRESS" in
  let api_key := env !! "NEXT_PUBLIC_TRONGRID_API_KEY" in
  bsc_rpc' ← require_env "NEXT_PUBLIC_BSC_RPC_URL" (Some bsc_rpc);
  bep20' ← require_env "NEXT_PUBLIC_BEP20_CONTRACT_ADDRESS" bep20;
  tron_rpc' ← require_env "NEXT_PUBLIC_TRON_RPC_URL" tron_rpc;
  trc20' ← require_env "NEXT_PUBLIC_TRC20_CONTRACT_ADDRESS" trc20;
  hex ← try_catch (lift (address_toHex trc20'))
          (fun e =>
             emit (Console LError "Failed to convert TRC20 address to hex:");;
             throw (new_Error ("Invalid NEXT_PUBLIC_TRC20_CONTRACT_ADDRESS format: "
                               ++ trc20')));
  mret {| NEXT_PUBLIC_BSC_RPC_URL := bsc_rpc';
          BEP20_ADDRESS := bep20';
          NEXT_PUBLIC_TRON_RPC_URL := tron_rpc';
          TRC20_ADDRESS_BASE58 := trc20';
          NEXT_PUBLIC_TRONGRID_API_KEY := api_key;
          TRC20_ADDRESS_HEX := hex |}.
End Initialization.

(** ** Handles supplied by the wallets and the chain SDKs *)

(** A sent EVM transaction; the code reads [tx.hash]. *)
Record Tx := { hash : string }.

(** An ethers [Contract]: a method the ABI lacks is [undefined]. *)
Record EvmContract := {
  evm_mint : option (string -> Z -> Outcome Tx);
  evm_burnFrom : option (string -> Z -> Outcome Tx);
  evm_balanceOf : option (string -> Outcome Z)
}.

(** The options object of a TronWeb [send]. *)
Record SendOptions := {
  feeLimit : Z;
  callValue : Z;
  shouldPollResponse : bool
}.

(** What a TronWeb [send] resolves to: a string, or some other value of
    the given truthiness. *)
Inductive TxId :=
| TxIdString (s : string)
| TxIdOther (truthy : bool).

(** [contract.methods] of a TronWeb contract. [trc_balanceOf] gives the
    result of [.call()] as its [toString()] text, [None] standing for
    [null] or [undefined]. *)
Record TronMethods := {
  trc_mint : option (string -> string -> SendOptions -> Outcome TxId);
  trc_burn : option (string -> string -> SendOptions -> Outcome TxId);
  trc_balanceOf : option (string -> Outcome (option string))
}.

Record TronContract := { methods : option TronMethods }.

(** [base58] is absent (or [false]) while no account is selected. *)
Record TronWebAddress := {
  base58 : option string;
  hex : option string
}.

Record FullNode := { host : option string }.

Record TronWebInstance := {
  defaultAddress : option TronWebAddress;
  contract : option (string -> Outcome (option TronContract));
  fullNode : option FullNode
}.

(** An ethers [BrowserProvider], as far as network switching uses it. *)
Record BrowserProvider := {
  send : option (string -> RequestParams -> Outcome unit)
}.

(** Calling [obj.method(args)]: a [TypeError] when the method is absent,
    the call itself otherwise. *)
Definition invoke {A} (standard method : string) (args : list string)
    (f : option (Outcome A)) : M Event A :=
  match f with
  | None => throw (new_Error (method ++ " is not a function"))
  | Some o => emit (ContractCall standard method args);; lift o
  end.

Section Operations.

(** The configuration produced by [initialize] and the imported
    constants. *)
Variable cfg : Config.
Variable BSC_CHAIN_ID : ChainNetworkId.
Variable ACTIVE_TRON_CHAIN_ID : ChainNetworkId.

(** The ethers SDK: a runner is a [Signer] or a [Provider];
    [new_Contract address runner] is [new Contract(address, abi, runner)]. *)
Variable Runner : Type.
Variable new_Contract : string -> Runner -> Outcome EvmContract.
Variable parseEther : string -> Outcome Z.
Variable formatEther : Z -> string.

(** An [ethers.Provider] as [getBep20Balance] sees it: its [provider]
    property. *)
Record Provider := { provider : option Runner }.

(** *** Contract instances *)

Definition getBep20Contract (signerOrProvider : option Runner) : M Event EvmContract :=
  match signerOrProvider with
  | None => throw (new_Error "Signer or Provider is required to instantiate BEP20 contract.")
  | Some r =>
      emit (ContractConstructed "BEP20" (BEP20_ADDRESS cfg));;
      lift (new_Contract (BEP20_ADDRESS cfg) r)
  end.

Definition getTrc20Contract (tronWebInstance : option TronWebInstance)
  : M Event TronContract :=
  match tronWebInstance ?. contract with
  | None => throw (new_Error "TronWeb instance or its 'contract' method is not available.")
  | Some lookup =>
      try_catch
        (emit (ContractConstructed "TRC20" (TRC20_ADDRESS_HEX cfg));;
         c ← lift (lookup (TRC20_ADDRESS_HEX cfg));
         match c with
         | Some c' =>
             match methods c' with
             | Some _ => mret c'
             | None =>
                 throw (new_Error ("Failed to initialize TRC20 contract instance at "
                                   ++ TRC20_ADDRESS_BASE58 cfg
                                   ++ ". Check ABI and address."))
             end
         | None =>
             throw (new_Error ("Failed to initialize TRC20 contract instance at "
                               ++ TRC20_ADDRESS_BASE58 cfg
                               ++ ". Check ABI and address."))
         end)
        (fun error =>
           emit (Console LError "Error getting TRC20 contract instance:");;
           rethrow error)
  end.

(** [contract.methods], a [TypeError] if it were missing. *)
Definition methods_of (c : TronContract) : M Event TronMethods :=
  match methods c with
  | Some m => mret m
  | None => throw (new_Error "Cannot read properties of undefined")
  end.

(** [!tronWebInstance?.defaultAddress?.base58] *)
Definition has_address (tronWebInstance : option TronWebInstance) : bool :=
  truthy_ostr (tronWebInstance ?. defaultAddress ?. base58).

(** *** Amount conversion on the Tron paths *)

Definition tokenDecimals : Z := 6.

(** [BigInt(Math.round(parseFloat(amount) * (10 ** tokenDecimals))).toString()] *)
Definition toRawAmount (amount : string) : Outcome string :=
  match BigInt_of_Number
          (Math_round (Number_mul (parseFloat amount) (pow10 tokenDecimals))) with
  | Return z => Return (Z_toString z)
  | Throw t => Throw t
  | ThrowNullish n => ThrowNullish n
  end.

(** The sanity check on a TronWeb transaction id,
    [!txID || typeof txID !== 'string' || txID.length < 60]: the id when
    it passes. *)
Definition checked_txid (txID : TxId) : option string :=
  match txID with
  | TxIdString s =>
      if (negb (truthy_str s) || Nat.ltb (String.length s) 60)%bool then None
      else Some s
  | TxIdOther _ => None
  end.

Definition sendOptions : SendOptions :=
  {| feeLimit := 150000000; callValue := 0; shouldPollResponse := false |}.

(** [typeof error === 'string' ? error : (error.message || JSON.stringify(error))],
    then [errorMessage || fallback], for an [error] that has properties. *)
Definition tron_error_message (error : Thrown) (fallback : string) : string :=
  let errorMessage :=
    match error with
    | ThrownString s => s
    | ThrownObject e => or_default (message e) (json e)
    end in
  if truthy_str errorMessage then errorMessage else fallback.

(** [error.shortMessage || error.message || fallback], for an [error] that
    has properties. *)
Definition evm_error_message (error : Thrown) (fallback : string) : string :=
  or_default (thrown_shortMessage error) (or_default (thrown_message error) fallback).

(** *** Mint *)

Definition mintBep20Tokens (signer : option Runner) (recipient amount : string)
  : M Event string :=
  match signer with
  | None =>
      throw (new_Error "A connected Signer (wallet) is required for minting BEP-20 tokens.")
  | Some _ =>
      contract ← getBep20Contract signer;
      try_catch
        (amountWei ← lift (parseEther amount);
         emit (Console LLog ("Minting BEP20: To=" ++ recipient ++ ", Amount="
                             ++ Z_toString amountWei));;
         tx ← invoke "BEP20" "mint" [recipient; Z_toString amountWei]
                (option_map (fun f => f recipient amountWei) (evm_mint contract));
         emit (Console LLog "BEP20 Mint Tx Sent:");;
         mret (hash tx))
        (fun error =>
           emit (Console LError "BEP20 Minting Error:");;
           message ← lift (read error "shortMessage"
                             (fun e => evm_error_message e "BEP-20 minting failed"));
           throw (new_Error message))
  end.

Definition mintTrc20Tokens (tronWebInstance : option TronWebInstance)
    (recipient amount : string) : M Event string :=
  if negb (has_address tronWebInstance) then
    throw (new_Error
             "TronLink wallet instance with address is required for minting TRC-20 tokens.")
  else
    try_catch
      (contract ← getTrc20Contract tronWebInstance;
       rawAmount ← lift (toRawAmount amount);
       emit (Console LLog ("Minting TRC20: To=" ++ recipient ++ ", RawAmount="
                           ++ rawAmount ++ " (Decimals: "
                           ++ Z_toString tokenDecimals ++ ")"));;
       m ← methods_of contract;
       match trc_mint m with
       | None =>
           throw (new_Error
                    "Contract ABI doesn't seem to have a 'mint(address,uint256)' function.")
       | Some mint =>
           emit (ContractCall "TRC20" "mint" [recipient; rawAmount]);;
           txID ← lift (mint recipient rawAmount sendOptions);
           emit (Console LLog "TRC20 Mint Tx Sent:");;
           match checked_txid txID with
           | Some id => mret id
           | None =>
               throw (new_Error
                        "Invalid or missing transaction ID received from TronLink.")
           end
       end)
      (fun error =>
         emit (Console LError "TRC20 Minting Error:");;
         errorMessage ← lift (read error "message"
                                (fun e => tron_error_message e "TRC-20 minting failed"));
         throw (new_Error errorMessage)).

(** *** Burn *)

Definition burnBep20Tokens (signer : option Runner) (targetAddress amount : string)
  : M Event string :=
  match signer with
  | None =>
      throw (new_Error "A connected Signer (wallet) is required for burning BEP-20 tokens.")
  | Some _ =>
      contract ← getBep20Contract signer;
      try_catch
        (amountWei ← lift (parseEther amount);
         emit (Console LLog ("Burning BEP20: From=" ++ targetAddress ++ ", Amount="
                             ++ Z_toString amountWei));;
         match evm_burnFrom contract with
         | None =>
             throw (new_Error
                      "The 'burnFrom(address,uint256)' function is not available on this BEP20 contract instance. Check ABI/Contract.")
         | Some burnFrom =>
             emit (ContractCall "BEP20" "burnFrom" [targetAddress; Z_toString amountWei]);;
             tx ← lift (burnFrom targetAddress amountWei);
             emit (Console LLog "BEP20 Burn Tx Sent:");;
             mret (hash tx)
         end)
        (fun error =>
           emit (Console LError "BEP20 Burning Error:");;
           message ← lift (read error "shortMessage"
                             (fun e => evm_error_message e "BEP-20 burning failed"));
           throw (new_Error message))
  end.

Definition burnTrc20Tokens (tronWebInstance : option TronWebInstance)
    (targetAddress amount : string) : M Event string :=
  if negb (has_address tronWebInstance) then
    throw (new_Error
             "TronLink wallet instance with address is required for burning TRC-20 tokens.")
  else
    try_catch
      (contract ← getTrc20Contract tronWebInstance;
       rawAmount ← lift (toRawAmount amount);
       emit (Console LLog ("Burning TRC20: Target=" ++ targetAddress ++ ", RawAmount="
                           ++ rawAmount ++ " (Decimals: "
                           ++ Z_toString tokenDecimals ++ ")"));;
       m ← methods_of contract;
       match trc_burn m with
       | None =>
           throw (new_Error
                    "Contract ABI doesn't seem to have a 'burn(address,uint256)' function. Check ABI/Contract.")
       | Some burn =>
           emit (ContractCall "TRC20" "burn" [targetAddress; rawAmount]);;
           txID ← lift (burn targetAddress rawAmount sendOptions);
           emit (Console LLog "TRC20 Burn Tx Sent:");;
           match checked_txid txID with
           | Some id => mret id
           | None =>
               throw (new_Error
                        "Invalid or missing transaction ID received from TronLink.")
           end
       end)
      (fun error =>
         emit (Console LError "TRC20 Burning Error:");;
         errorMessage ← lift (read error "message"
                                (fun e => tron_error_message e "TRC-20 burning failed"));
         throw (new_Error errorMessage)).

(** *** Balance & network checks *)

Definition getBep20Balance (provider_ : option Provider) (address : string)
  : M Event string :=
  match provider_ with
  | None =>
      emit (Console LError "Provider required to fetch BEP20 balance.");;
      mret "Error"
  | Some p =>
      match provider p with
      | None =>
          emit (Console LError
                  "Valid read-only provider could not be obtained for balance check.");;
          mret "Error"
      | Some readProvider =>
          emit (ContractConstructed "BEP20" (BEP20_ADDRESS cfg));;
          contract ← lift (new_Contract (BEP20_ADDRESS cfg) readProvider);
          try_catch
            (balanceWei ← invoke "BEP20" "balanceOf" [address]
                            (option_map (fun f => f address) (evm_balanceOf contract));
             mret (formatEther balanceWei))
            (fun error =>
               detail ← lift (read error "message" thrown_message);
               emit (Console LError ("Error fetching BEP20 balance for " ++ address ++ ":"));;
               mret "Error")
      end
  end.

(** The display form of a base-unit balance: integer division and
    remainder by [divisor], the remainder padded to [tokenDecimals]
    digits and its trailing zeros removed. BigInt [/] and [%] truncate
    towards zero. *)
Definition formatBalance (balanceBigInt divisor : Z) : string :=
  let integerPart := Z_toString (Z.quot balanceBigInt divisor) in
  let fractionalPart :=
    padStart (Z_toString (Z.rem balanceBigInt divisor)) (Z.to_nat tokenDecimals) "0" in
  let trimmedFractional := strip_trailing_zeros fractionalPart in
  if truthy_str trimmedFractional then integerPart ++ "." ++ trimmedFractional
  else integerPart.

Definition getTrc20Balance (tronWebInstance : option TronWebInstance) (address : string)
  : M Event string :=
  match tronWebInstance with
  | None =>
      emit (Console LError "TronWeb instance required to fetch TRC20 balance.");;
      mret "Error"
  | Some _ =>
      try_catch
        (contract ← getTrc20Contract tronWebInstance;
         m ← methods_of contract;
         match trc_balanceOf m with
         | None =>
             emit (Console LError "TRC20 contract instance missing 'balanceOf' method.");;
             mret "Error"
         | Some balanceOf =>
             emit (ContractCall "TRC20" "balanceOf" [address]);;
             rawBalance ← lift (balanceOf address);
             text ← match rawBalance with
                    | Some t => mret t
                    | None => throw (new_Error "Cannot read properties of undefined (reading 'toString')")
                    end;
             balanceBigInt ← lift (BigInt_of_string text);
             divisor ← lift (BigInt_of_Number (pow10 tokenDecimals));
             mret (formatBalance balanceBigInt divisor)
         end)
        (fun error =>
           detail ← lift (read error "message" thrown_message);
           emit (Console LError ("Error fetching TRC20 balance for " ++ address ++ ":"));;
           mret "Error")
  end.

Definition mainnetHosts : list string := ["api.trongrid.io"; "api.tronstack.io"].
Definition shastaHosts : list string := ["api.shasta.trongrid.io"].

Definition checkTronNetwork (tronWebInstance : option TronWebInstance) : M Event bool :=
  match tronWebInstance ?. fullNode ?. host with
  | None => mret false
  | Some h =>
      if negb (truthy_str h) then mret false
      else
        let nodeHost := toLowerCase h in
        if strict_eq ACTIVE_TRON_CHAIN_ID (IdString "TRON_MAINNET") then
          mret (some (fun host => includes nodeHost host) mainnetHosts)
        else if strict_eq ACTIVE_TRON_CHAIN_ID (IdString "TRON_SHASTA") then
          mret (some (fun host => includes nodeHost host) shastaHosts)
        else
          emit (Console LWarn ("Unrecognized ACTIVE_TRON_CHAIN_ID: "
                               ++ id_toString ACTIVE_TRON_CHAIN_ID
                               ++ ". Cannot verify Tron network."));;
          mret false
  end.

(** *** Network switch *)

Definition bscChainParams (hexChainId : string) : RequestParams :=
  AddChain hexChainId "BNB Smart Chain" "BNB" "BNB" 18
           [NEXT_PUBLIC_BSC_RPC_URL cfg] ["https://bscscan.com"].

Definition is_4902 (c : option Z) : bool :=
  match c with Some n => n =? 4902 | None => false end.

Definition requestNetworkSwitch (provider_ : option BrowserProvider)
    (chainId : ChainNetworkId) : M Event unit :=
  match provider_ ?. send with
  | None =>
      throw (new_Error
               "Wallet provider is not available or does not support 'send' method for switching network.")
  | Some send_ =>
      n ← lift (BigInt_of_id chainId);
      let hexChainId := "0x" ++ Z_toString16 n in
      try_catch
        (emit (Console LLog ("Requesting network switch to chainId: " ++ hexChainId));;
         emit (WalletRequest "wallet_switchEthereumChain" (SwitchChain hexChainId));;
         lift (send_ "wallet_switchEthereumChain" (SwitchChain hexChainId));;
         emit (Console LLog "Successfully requested network switch."))
        (fun switchError =>
           emit (Console LError "Network switch error:");;
           code ← lift (read switchError "code" thrown_code);
           if is_4902 code then
             emit (Console LLog "Chain not found in wallet, attempting to add...");;
             try_catch
               (if strict_eq chainId BSC_CHAIN_ID then
                  emit (WalletRequest "wallet_addEthereumChain" (bscChainParams hexChainId));;
                  lift (send_ "wallet_addEthereumChain" (bscChainParams hexChainId));;
                  emit (Console LLog "BSC network add request sent.")
                else
                  throw (new_Error ("Configuration to add chainId "
                                    ++ id_toString chainId ++ " is missing.")))
               (fun addError =>
                  emit (Console LError "Failed to add network:");;
                  message ← lift (read addError "message" thrown_message);
                  throw (new_Error ("Failed to add network: "
                                    ++ or_default message "Unknown error")))
           else
             message ← lift (read switchError "message" thrown_message);
             throw (new_Error ("Failed to switch network: "
                               ++ or_default message "User rejected or unknown error")))
  end.
End Operations.

(** ** Provider/signer getters and the EVM network check *)

(** [window.tronLink]: the flag and the members [getTronLinkProvider]
    probes. *)
Record TronLinkProvider := {
  ready : bool;
  request : option (string -> Outcome unit);
  tronWeb : option TronWebInstance
}.

(** What [provider.getNetwork()] resolves to; the code reads [chainId], a
    BigInt. *)
Record Network := { network_chainId : Z }.

Section Getters.

(** The imported constant; an EIP-1193 provider object ([Source]); ethers'
    [BrowserProvider] instances ([Handle]) with their constructor; ethers'
    signers. *)
Variable BSC_CHAIN_ID : ChainNetworkId.
Variable Source : Type.
Variable Handle : Type.
Variable new_BrowserProvider : Source -> Outcome Handle.
Variable Signer : Type.

(** The browser's [window], as far as the getters read it. The getters
    take [None] for [typeof window === 'undefined']. *)
Record Window := {
  ethereum : option Source;
  tronLink : option TronLinkProvider
}.

(** A [BrowserProvider], as far as [getEthersSigner] and [checkBscNetwork]
    use it: what [getSigner()] and [getNetwork()] resolve to. *)
Record RpcProvider := {
  getSigner : Outcome Signer;
  getNetwork : Outcome Network
}.

Definition getEthersProvider (window : option Window) (externalProvider : option Source)
  : M Event (option Handle) :=
  match window with
  | None => mret None
  | Some w =>
      let providerSource :=
        match externalProvider with
        | Some e => Some e
        | None => ethereum w
        end in
      match providerSource with
      | Some src =>
          p ← lift (new_BrowserProvider src);
          mret (Some p)
      | None =>
          emit (Console LWarn "MetaMask (window.ethereum) or compatible provider not found.");;
          mret None
      end
  end.

Definition getEthersSigner (provider_ : option RpcProvider) : M Event (option Signer) :=
  match provider_ with
  | None =>
      emit (Console LError "Cannot get signer without a provider.");;
      mret None
  | Some p =>
      try_catch
        (signer ← lift (getSigner p);
         mret (Some signer))
        (fun error =>
           emit (Console LError "Error getting ethers signer:");;
           mret None)
  end.

Definition getTronLinkProvider (window : option Window) : M Event (option TronLinkProvider) :=
  match window with
  | None => mret None
  | Some w =>
      match tronLink w with
      | None =>
          emit (Console LWarn "TronLink (window.tronLink) not found.");;
          mret None
      | Some tl =>
          if negb (ready tl) then
            emit (Console LWarn
                    "TronLink is installed but not ready. User might need to log in or setup.");;
            mret None
          else
            match request tl with
            | None =>
                emit (Console LError
                        "TronLink found and ready, but 'request' method is missing.");;
                mret None
            | Some _ =>
                match tronWeb tl with
                | None =>
                    emit (Console LWarn
                            "TronLink found and ready, but 'tronWeb' instance is not yet injected. May need a short delay or re-check.");;
                    mret None
                | Some _ => mret (Some tl)
                end
            end
      end
  end.

Definition checkBscNetwork (provider_ : option RpcProvider) : M Event bool :=
  match provider_ with
  | None => mret false
  | Some p =>
      try_catch
        (network ← lift (getNetwork p);
         expected ← lift (BigInt_of_id BSC_CHAIN_ID);
         mret (network_chainId network =? expected))
        (fun error =>
           emit (Console LError "Error checking BSC network:");;
           mret false)
  end.
End Getters.

End Blockchain.

(* ===================================================================== *)
(** * components/WalletConnectButton                                      *)
(* ===================================================================== *)

Module WalletConnectButton.
Import Js Constants.

Section Component.

(** The imported constants, the opaque provider handles handed to the
    host page, and [truncateAddress] of [lib/utils]. *)
Variable BSC_CHAIN_ID : ChainNetworkId.
Variable ACTIVE_TRON_CHAIN_ID : ChainNetworkId.
Variable ProviderHandle : Type.
Variable truncateAddress : string -> string.

(** What the component does that the host page or the user can see. *)
Inductive UiEvent :=
| ConsoleWarn (msg : string) (chainId : ChainNetworkId)
| ConsoleError (msg : string)
| OnConnected (address : string) (provider : ProviderHandle)
              (chain : Chain) (wrongNetwork : bool)
| OnDisconnected
| SetConnectedAddress (address : option string)
| SetIsConnecting (b : bool)
| Toast (destructive : bool) (title description : string).

(** The values the component reads from [useBlockchain()]. *)
Record HookState := {
  isConnected : bool;
  account : option string;
  provider : option ProviderHandle;
  chainId : option ChainNetworkId;
  isLoading : bool
}.

(** Lines 47-56 of the effect: [connectedActualChain] and
    [wrongNetworkDetected] after the two comparisons. *)
Definition classify (chainId : ChainNetworkId) (selectedChain : Chain)
  : option Chain * bool :=
  if strict_eq chainId BSC_CHAIN_ID then
    (Some BSC, negb (Chain_eqb selectedChain BSC))
  else if strict_eq chainId ACTIVE_TRON_CHAIN_ID then
    (Some TRON, negb (Chain_eqb selectedChain TRON))
  else (None, false).

(** The body of the first branch of the effect: classify the reported
    id against the selection and notify the host page. *)
Definition reportConnection (account : string) (provider : ProviderHandle)
    (chainId : ChainNetworkId) (selectedChain : Chain) : M UiEvent unit :=
  let '(connectedActualChain, wrongNetworkDetected) := classify chainId selectedChain in
  match connectedActualChain with
  | Some chain => emit (OnConnected account provider chain wrongNetworkDetected)
  | None =>
      emit (ConsoleWarn "Connected to an unrecognized chain ID:" chainId);;
      emit (OnConnected account provider selectedChain true)
  end.

(** The effect that notifies the parent about connection state. *)
Definition connectionEffect (h : HookState) (selectedChain : Chain) : M UiEvent unit :=
  match isConnected h, account h, provider h, chainId h with
  | true, Some a, Some p, Some id =>
      if (truthy_str a && truthy_id id)%bool then reportConnection a p id selectedChain
      else mret tt
  | false, _, _, _ => if negb (isLoading h) then emit OnDisconnected else mret tt
  | _, _, _, _ => mret tt
  end.

(** [window.ethereum], when present: the handle and how
    [request({ method: 'eth_requestAccounts' })] settles. *)
Definition Ethereum : Type := ProviderHandle * Outcome (list string).

Definition handleConnect (connectedAddress : option string)
    (ethereum : option Ethereum) (selectedChain : Chain) : M UiEvent unit :=
  if truthy_ostr connectedAddress then
    emit (SetConnectedAddress None);;
    emit OnDisconnected
  else
    emit (SetIsConnecting true);;
    try_finally
      (try_catch
         (match ethereum with
          | None =>
              emit (Toast true "Wallet Not Found"
                      "Please install MetaMask or another compatible wallet.")
          | Some (handle, requestAccounts) =>
              accounts ← lift requestAccounts;
              match accounts with
              | [] => throw (new_Error "No accounts found")
              | address :: _ =>
                  emit (SetConnectedAddress (Some address));;
                  emit (OnConnected address handle selectedChain false);;
                  emit (Toast false "Wallet Connected"
                          ("Connected to " ++ truncateAddress address))
              end
          end)
         (fun error =>
            emit (ConsoleError "Error connecting wallet:");;
            message ← lift (read error "message" thrown_message);
            emit (Toast true "Connection Failed"
                    (or_default message "Failed to connect wallet"))))
      [SetIsConnecting false].
End Component.

Arguments ConsoleWarn {ProviderHandle}.
Arguments ConsoleError {ProviderHandle}.
Arguments OnConnected {ProviderHandle}.
Arguments OnDisconnected {ProviderHandle}.
Arguments SetConnectedAddress {ProviderHandle}.
Arguments SetIsConnecting {ProviderHandle}.
Arguments Toast {ProviderHandle}.

End WalletConnectButton.

(* ===================================================================== *)
(** * Sample inputs and derived notions used in the statements            *)
(* ===================================================================== *)

Import Js Constants Blockchain.

(** A hook state of a connected wallet on chain [id]. *)
Definition connected_on (id : ChainNetworkId) : WalletConnectButton.HookState nat :=
  {| WalletConnectButton.isConnected := true;
     WalletConnectButton.account := Some "0xAbC";
     WalletConnectButton.provider := Some 7%nat;
     WalletConnectButton.chainId := Some id;
     WalletConnectButton.isLoading := false |}.

(** A TronWeb instance pointed at full node [h]. *)
Definition instance_at (h : string) : TronWebInstance :=
  {| defaultAddress := None; contract := None; fullNode := Some {| host := Some h |} |}.

(** The result of the check as one boolean expression. *)
Definition host_matches (ACTIVE_TRON_CHAIN_ID : ChainNetworkId) (h : string) : bool :=
  if strict_eq ACTIVE_TRON_CHAIN_ID (IdString "TRON_MAINNET") then
    some (fun known => includes (toLowerCase h) known) mainnetHosts
  else if strict_eq ACTIVE_TRON_CHAIN_ID (IdString "TRON_SHASTA") then
    some (fun known => includes (toLowerCase h) known) shastaHosts
  else false.

(** The configuration inputs with no built-in default. *)
Definition required_names : list string :=
  ["NEXT_PUBLIC_BEP20_CONTRACT_ADDRESS"; "NEXT_PUBLIC_TRON_RPC_URL";
   "NEXT_PUBLIC_TRC20_CONTRACT_ADDRESS"].

(** An environment that sets everything but the EVM RPC URL. *)
Definition env_without_bsc_rpc : gmap string string :=
  {[ "NEXT_PUBLIC_BEP20_CONTRACT_ADDRESS" := "0x55d398326f99059fF775485246999027B3197955";
     "NEXT_PUBLIC_TRON_RPC_URL" := "https://api.shasta.trongrid.io";
     "NEXT_PUBLIC_TRC20_CONTRACT_ADDRESS" := "TR7NHqjeKQxGTCi8q8ZY4pL8otSzgjLj6t" ]}.

(** A [toHex] that decodes the address above. *)
Definition toHex_sample (base58 : string) : Outcome string :=
  if String.eqb base58 "TR7NHqjeKQxGTCi8q8ZY4pL8otSzgjLj6t"
  then Return "41a614f803b6fd780986a42c78ec9c7f77e6ded13c"
  else Throw (new_Error "Invalid address provided").

(** A configuration as [initialize] produces it. *)
Definition cfg0 : Config :=
  {| NEXT_PUBLIC_BSC_RPC_URL := "https://bsc-dataseed.binance.org";
     BEP20_ADDRESS := "0x55d398326f99059fF775485246999027B3197955";
     NEXT_PUBLIC_TRON_RPC_URL := "https://api.shasta.trongrid.io";
     TRC20_ADDRESS_BASE58 := "TR7NHqjeKQxGTCi8q8ZY4pL8otSzgjLj6t";
     NEXT_PUBLIC_TRONGRID_API_KEY := None;
     TRC20_ADDRESS_HEX := "41a614f803b6fd780986a42c78ec9c7f77e6ded13c" |}.

(** An unlocked TronLink instance whose contract lookup yields a contract
    with the methods [m]. *)
Definition tron_instance (m : TronMethods) : TronWebInstance :=
  {| defaultAddress :=
       Some {| base58 := Some "TJRabPrwbZy45sbavfcjinPJC18kjpRTv8";
               hex := Some "415cbdd86a2fa8dc4bddd8a8f69dba48572eec07fb" |};
     contract := Some (fun _ => Return (Some {| methods := Some m |}));
     fullNode := Some {| host := Some "https://api.shasta.trongrid.io" |} |}.

(** A TRC-20 contract whose ABI has none of the three methods. *)
Definition no_methods : TronMethods :=
  {| trc_mint := None; trc_burn := None; trc_balanceOf := None |}.

(** A BEP-20 contract whose ABI has none of the three methods. *)
Definition evm_no_methods : EvmContract :=
  {| evm_mint := None; evm_burnFrom := None; evm_balanceOf := None |}.

(** A stand-in for ethers' [parseEther], defined on one amount. *)
Definition parseEther_sample (amount : string) : Outcome Z :=
  if String.eqb amount "1.5" then Return 1500000000000000000
  else Throw (new_Error "invalid FixedNumber string value").

(** The contract-method calls among the events of a run. *)
Definition calls (tr : list Event) : list Event := List.filter is_contract_call tr.

(** The wallet requests among the events of a run. *)
Definition requests (tr : list Event) : list Event := List.filter is_wallet_request tr.

(** The configuration errors of the two burn paths. *)
Definition burnFrom_missing : Thrown :=
  new_Error "The 'burnFrom(address,uint256)' function is not available on this BEP20 contract instance. Check ABI/Contract.".

Definition burn_missing : Thrown :=
  new_Error "Contract ABI doesn't seem to have a 'burn(address,uint256)' function. Check ABI/Contract.".

(** The sentinel a balance query returns on failure. *)
Definition sentinel : string := "Error".

(** A world in which ethers' [Contract] constructor rejects its arguments. *)
Definition new_Contract_rejecting (address : string) (runner : unit) : Outcome EvmContract :=
  Throw (new_Error "contract runner does not support name resolution").

(** A stand-in for ethers' [formatEther]: the wei amount in decimal. *)
Definition formatEther_sample (wei : Z) : string := Z_toString wei.

(** A wallet that answers every request with an error object of code [c]. *)
Definition wallet_failing (c : option Z) (msg : option string) : BrowserProvider :=
  {| send := Some (fun _ _ =>
                     Throw (ThrownObject {| code := c; shortMessage := None;
                                            message := msg; json := "{}" |})) |}.

(** The error of a switch to a chain the wallet does not know and the
    module has no add-chain parameters for. *)
Definition add_configuration_missing (chainId : ChainNetworkId) : Thrown :=
  new_Error ("Failed to add network: Configuration to add chainId "
             ++ id_toString chainId ++ " is missing.").

(** The error of any other failed switch. *)
Definition switch_failed (switchError : Thrown) : Thrown :=
  new_Error ("Failed to switch network: "
             ++ or_default (thrown_message switchError) "User rejected or unknown error").

(** The one request of a switch to [hexChainId]. *)
Definition switch_request (hexChainId : string) : Event :=
  WalletRequest "wallet_switchEthereumChain" (SwitchChain hexChainId).

(** A TRC-20 contract that accepts mints and burns and reports
    [rawBalance] as every balance. *)
Definition ledger (rawBalance : string) : TronMethods :=
  let txid := TxIdString "7c2d4206c03a883dd9066d620335dc1be272a8dc733cfa3f6d10308faa37facc" in
  {| trc_mint := Some (fun _ _ _ => Return txid);
     trc_burn := Some (fun _ _ _ => Return txid);
     trc_balanceOf := Some (fun _ => Return (Some rawBalance)) |}.

(** The specification's conversion, for comparison with the code's
    [toRawAmount]: a plain decimal [I.F] with at most [tokenDecimals]
    fractional digits denotes the integer [I.F * 10 ^ tokenDecimals],
    computed on integers. *)
Definition spec_exactBaseUnits (amount : string) : option Z :=
  let '(ip, rest) := take_digits amount in
  let '(fp, rest') := match rest with
                      | String "." r => take_digits r
                      | _ => (EmptyString, rest)
                      end in
  if (String.eqb rest' EmptyString && negb (String.eqb (ip ++ fp) EmptyString)
      && Nat.leb (String.length fp) (Z.to_nat tokenDecimals))%bool
  then Some (decimal_value (ip ++ fp)
             * 10 ^ (tokenDecimals - Z.of_nat (String.length fp)))
  else None.

(** ** Notions and sample inputs for the further properties *)

(** Text after a number that [parseFloat] does not read: nothing, or a
    first character that is no digit and no exponent letter. *)
Definition ends_fraction (rest : string) : bool :=
  match rest with
  | EmptyString => true
  | String c _ => negb (is_digit c || Ascii.eqb c "e" || Ascii.eqb c "E")
  end.

(** The same after an integer, where a dot would start a fraction. *)
Definition ends_integer (rest : string) : bool :=
  match rest with
  | EmptyString => true
  | String c _ => negb (is_digit c || Ascii.eqb c "." || Ascii.eqb c "e" || Ascii.eqb c "E")
  end.

(** The Number [parseFloat] yields for integer digits [ip] and fraction
    digits [fp]. *)
Definition decimal_Number (ip fp : string) : Number :=
  let m := decimal_value (ip ++ fp) in
  let k := 0 - Z.of_nat (String.length fp) in
  if 0 <=? k then Number_of_ratio false (m * 10 ^ k) 1
  else Number_of_ratio false m (10 ^ (- k)).

(** The RangeError of [BigInt(NaN)]. *)
Definition nan_not_an_integer : Thrown :=
  new_Error "The number NaN cannot be converted to a BigInt because it is not an integer".

(** The error of the transaction-id sanity check. *)
Definition invalid_txid : Thrown :=
  new_Error "Invalid or missing transaction ID received from TronLink.".

(** The add-chain request for [hexChainId]. *)
Definition add_request (cfg : Config) (hexChainId : string) : Event :=
  WalletRequest "wallet_addEthereumChain" (bscChainParams cfg hexChainId).

(** The calls to the host page among the events of the component. *)
Definition is_host_callback {P : Type} (e : WalletConnectButton.UiEvent P) : bool :=
  match e with
  | WalletConnectButton.OnConnected _ _ _ _ | WalletConnectButton.OnDisconnected => true
  | _ => false
  end.

Definition host_callbacks {P : Type} (tr : list (WalletConnectButton.UiEvent P))
  : list (WalletConnectButton.UiEvent P) := List.filter is_host_callback tr.

(** The notifications among the events of the component. *)
Definition is_toast {P : Type} (e : WalletConnectButton.UiEvent P) : bool :=
  match e with WalletConnectButton.Toast _ _ _ => true | _ => false end.

Definition toasts {P : Type} (tr : list (WalletConnectButton.UiEvent P))
  : list (WalletConnectButton.UiEvent P) := List.filter is_toast tr.

(** A [toHex] that rejects every address. *)
Definition toHex_rejecting (base58 : string) : Outcome string :=
  Throw (new_Error "Invalid address provided").

(** A TRC-20 contract whose sends resolve to a transaction id that is too
    short. *)
Definition ledger_short_txid : TronMethods :=
  {| trc_mint := Some (fun _ _ _ => Return (TxIdString "7c2d4206"));
     trc_burn := Some (fun _ _ _ => Return (TxIdString "7c2d4206"));
     trc_balanceOf := None |}.

(** A wallet that accepts every request. *)
Definition wallet_accepting : BrowserProvider :=
  {| send := Some (fun _ _ => Return tt) |}.

(** A provider connected to the network with chain id [c]. *)
Definition rpc_on (c : Z) : RpcProvider unit :=
  {| getSigner := Return tt; getNetwork := Return {| network_chainId := c |} |}.

(** The configuration that initialization yields for
    [env_without_bsc_rpc]. *)
Definition cfg_defaulted : Config :=
  {| NEXT_PUBLIC_BSC_RPC_URL := "bsc-testnet-rpc.publicnode.com";
     BEP20_ADDRESS := "0x55d398326f99059fF775485246999027B3197955";
     NEXT_PUBLIC_TRON_RPC_URL := "https://api.shasta.trongrid.io";
     TRC20_ADDRESS_BASE58 := "TR7NHqjeKQxGTCi8q8ZY4pL8otSzgjLj6t";
     NEXT_PUBLIC_TRONGRID_API_KEY := None;
     TRC20_ADDRESS_HEX := "41a614f803b6fd780986a42c78ec9c7f77e6ded13c" |}.

(** A text of ASCII characters only. *)
Definition all_ascii (s : string) : bool := forallb is_ascii (list_ascii_of_string s).

(** The bytes that follow the first byte of U+212A (132, 170) and of
    U+0130 (176). *)
Definition is_trail_byte (c : ascii) : bool :=
  let n := nat_of_ascii c in (Nat.eqb n 132 || Nat.eqb n 170 || Nat.eqb n 176)%bool.

(** A text that does not start in the middle of one of the two characters
    that [toLowerCase] reads over several bytes. *)
Definition at_character (s : string) : bool :=
  match s with
  | EmptyString => true
  | String c _ => negb (is_trail_byte c)
  end.

(** A text with every run of bytes outside ASCII drawn together into one
    mark, [None]. *)
Fixpoint ascii_skeleton (s : string) : list (option ascii) :=
  match s with
  | EmptyString => []
  | String c r =>
      if is_ascii c then Some c :: ascii_skeleton r
      else match ascii_skeleton r with
           | None :: sk => None :: sk
           | sk => None :: sk
           end
  end.

(** [String.prefix] and [includes] for an ASCII needle, on a skeleton. *)
Fixpoint prefix_skeleton (needle : string) (hay : list (option ascii)) : bool :=
  match needle, hay with
  | EmptyString, _ => true
  | String n needle', Some c :: hay' => Ascii.eqb n c && prefix_skeleton needle' hay'
  | String _ _, _ => false
  end.

Fixpoint includes_skeleton (hay : list (option ascii)) (needle : string) : bool :=
  prefix_skeleton needle hay
  || match hay with
     | [] => false
     | _ :: hay' => includes_skeleton hay' needle
     end.

(** Text outside ASCII: U+00A0 NO-BREAK SPACE, and a host name written with
    U+212A KELVIN SIGN for its k. *)
Definition no_break_space : string := String "194" (String "160" EmptyString).
Definition kelvin_sign : string := String "226" (String "132" (String "170" EmptyString)).
Definition host_with_kelvin_sign : string := "api.tronstac" ++ kelvin_sign ++ ".io".

(** A TRC-20 contract whose calls are rejected with [null]. *)
Definition ledger_rejecting_null : TronMethods :=
  {| trc_mint := Some (fun _ _ _ => ThrowNullish Null);
     trc_burn := Some (fun _ _ _ => ThrowNullish Null);
     trc_balanceOf := Some (fun _ => ThrowNullish Null) |}.

(** A BEP-20 contract that holds [wei] for every address, and one whose
    balanceOf is rejected with [undefined]. *)
Definition evm_holding (wei : Z) : EvmContract :=
  {| evm_mint := None; evm_burnFrom := None;
     evm_balanceOf := Some (fun _ => Return wei) |}.
Definition evm_rejecting_undefined : EvmContract :=
  {| evm_mint := None; evm_burnFrom := None;
     evm_balanceOf := Some (fun _ => ThrowNullish Undefined) |}.

(** A wallet that does not know the chain (code 4902) and agrees to add
    it. *)
Definition wallet_adding : BrowserProvider :=
  {| send := Some (fun method _ =>
                     if String.eqb method "wallet_switchEthereumChain" then
                       Throw (ThrownObject {| code := Some 4902; shortMessage := None;
                                              message := Some "Unrecognized chain ID";
                                              json := "{}" |})
                     else Return tt) |}.

(* ===================================================================== *)
(** * Properties                                                          *)
(* ===================================================================== *)

(** ** Chain identity resolution (WalletConnectButton) *)

Lemma strict_eq_spec a b : strict_eq a b = true <-> a = b.
Proof.
  destruct a, b; simpl; split; try discriminate; intros H.
  - apply Z.eqb_eq in H. congruence.
  - inversion H. apply Z.eqb_refl.
  - apply String.eqb_eq in H. congruence.
  - inversion H. apply String.eqb_refl.
Qed.

Lemma strict_eq_false a b : strict_eq a b = false <-> a <> b.
Proof.
  rewrite <- strict_eq_spec. destruct (strict_eq a b); split; congruence.
Qed.

Section ResolverFacts.
Import WalletConnectButton.
Variables BSC_CHAIN_ID ACTIVE_TRON_CHAIN_ID : ChainNetworkId.
Variable ProviderHandle : Type.

(** The three shapes a connection report can take. *)
Lemma reportConnection_cases a (p : ProviderHandle) id sel :
  (id = BSC_CHAIN_ID /\
   reportConnection BSC_CHAIN_ID ACTIVE_TRON_CHAIN_ID ProviderHandle a p id sel =
     ([OnConnected a p BSC (negb (Chain_eqb sel BSC))], Return tt)) \/
  (id <> BSC_CHAIN_ID /\ id = ACTIVE_TRON_CHAIN_ID /\
   reportConnection BSC_CHAIN_ID ACTIVE_TRON_CHAIN_ID ProviderHandle a p id sel =
     ([OnConnected a p TRON (negb (Chain_eqb sel TRON))], Return tt)) \/
  (id <> BSC_CHAIN_ID /\ id <> ACTIVE_TRON_CHAIN_ID /\
   reportConnection BSC_CHAIN_ID ACTIVE_TRON_CHAIN_ID ProviderHandle a p id sel =
     ([ConsoleWarn "Connected to an unrecognized chain ID:" id;
       OnConnected a p sel true], Return tt)).
Proof.
  unfold reportConnection, classify.
  destruct (strict_eq id BSC_CHAIN_ID) eqn:E1.
  - left. apply strict_eq_spec in E1. now split.
  - apply strict_eq_false in E1.
    destruct (strict_eq id ACTIVE_TRON_CHAIN_ID) eqn:E2.
    + right; left. apply strict_eq_spec in E2. now repeat split.
    + right; right. apply strict_eq_false in E2. now repeat split.
Qed.
End ResolverFacts.

(** With a connected wallet (account, provider and a truthy chain id all
    present) the effect is exactly the connection report. *)
Lemma connectionEffect_connected
    (BSC_CHAIN_ID ACTIVE_TRON_CHAIN_ID : ChainNetworkId) (ProviderHandle : Type)
    (a : string) (p : ProviderHandle) (id : ChainNetworkId) (loading : bool) (sel : Chain) :
  truthy_str a = true -> truthy_id id = true ->
  WalletConnectButton.connectionEffect BSC_CHAIN_ID ACTIVE_TRON_CHAIN_ID ProviderHandle
    {| WalletConnectButton.isConnected := true;
       WalletConnectButton.account := Some a;
       WalletConnectButton.provider := Some p;
       WalletConnectButton.chainId := Some id;
       WalletConnectButton.isLoading := loading |} sel
  = WalletConnectButton.reportConnection BSC_CHAIN_ID ACTIVE_TRON_CHAIN_ID ProviderHandle
      a p id sel.
Proof.
  intros Ha Hid. unfold WalletConnectButton.connectionEffect. simpl.
  now rewrite Ha, Hid.
Qed.

(** C4. For every reported chain id and every selected chain, the connection
    report is: chain BSC with wrongNetwork = (selected is not BSC) when the
    id is the configured EVM chain id; chain TRON with wrongNetwork =
    (selected is not TRON) when the id is the configured Tron identifier;
    otherwise a console warning followed by the selected chain with
    wrongNetwork = true. In every case the report completes normally
    (nothing is thrown). The two configured identifiers are distinct. *)
Theorem C4_chain_identity_resolver
    (BSC_CHAIN_ID ACTIVE_TRON_CHAIN_ID : ChainNetworkId) (ProviderHandle : Type)
    (account : string) (provider : ProviderHandle)
    (chainId : ChainNetworkId) (selectedChain : Chain)
    (Hdistinct : BSC_CHAIN_ID <> ACTIVE_TRON_CHAIN_ID) :
  let r := WalletConnectButton.reportConnection BSC_CHAIN_ID ACTIVE_TRON_CHAIN_ID
             ProviderHandle account provider chainId selectedChain in
  outcome r = Return tt /\
  (chainId = BSC_CHAIN_ID ->
   trace r = [WalletConnectButton.OnConnected account provider BSC
                (negb (Chain_eqb selectedChain BSC))]) /\
  (chainId = ACTIVE_TRON_CHAIN_ID ->
   trace r = [WalletConnectButton.OnConnected account provider TRON
                (negb (Chain_eqb selectedChain TRON))]) /\
  (chainId <> BSC_CHAIN_ID -> chainId <> ACTIVE_TRON_CHAIN_ID ->
   trace r = [WalletConnectButton.ConsoleWarn "Connected to an unrecognized chain ID:" chainId;
              WalletConnectButton.OnConnected account provider selectedChain true]).
Proof.
  intros r. subst r.
  destruct (reportConnection_cases BSC_CHAIN_ID ACTIVE_TRON_CHAIN_ID ProviderHandle
              account provider chainId selectedChain)
    as [[H1 ->] | [[H1 [H2 ->]] | [H1 [H2 ->]]]]; simpl;
    repeat split; intros; try reflexivity; congruence.
Qed.

Lemma C4_chain_identity_resolver_witness :
  IdNumber 56 <> IdString "TRON_SHASTA" /\
  trace (WalletConnectButton.reportConnection (IdNumber 56) (IdString "TRON_SHASTA")
           nat "0xAbC" 7%nat (IdNumber 56) TRON)
  = [WalletConnectButton.OnConnected "0xAbC" 7%nat BSC true] /\
  trace (WalletConnectButton.reportConnection (IdNumber 56) (IdString "TRON_SHASTA")
           nat "0xAbC" 7%nat (IdString "TRON_SHASTA") TRON)
  = [WalletConnectButton.OnConnected "0xAbC" 7%nat TRON false] /\
  trace (WalletConnectButton.reportConnection (IdNumber 56) (IdString "TRON_SHASTA")
           nat "0xAbC" 7%nat (IdNumber 1) TRON)
  = [WalletConnectButton.ConsoleWarn "Connected to an unrecognized chain ID:" (IdNumber 1);
     WalletConnectButton.OnConnected "0xAbC" 7%nat TRON true].
Proof.
  assert (Hd : IdNumber 56 <> IdString "TRON_SHASTA") by discriminate.
  split; [exact Hd |].
  split; [| split].
  - exact (proj1 (proj2 (C4_chain_identity_resolver (IdNumber 56) (IdString "TRON_SHASTA")
                           nat "0xAbC" 7%nat (IdNumber 56) TRON Hd)) eq_refl).
  - exact (proj1 (proj2 (proj2 (C4_chain_identity_resolver (IdNumber 56)
                                  (IdString "TRON_SHASTA") nat "0xAbC" 7%nat
                                  (IdString "TRON_SHASTA") TRON Hd))) eq_refl).
  - apply (proj2 (proj2 (proj2 (C4_chain_identity_resolver (IdNumber 56)
                                  (IdString "TRON_SHASTA") nat "0xAbC" 7%nat
                                  (IdNumber 1) TRON Hd)))); discriminate.
Defined.

(** C3, refuted as stated. With EVM chain id 56 and Tron identifier
    TRON_SHASTA configured, no function of the wallet-reported id alone
    gives the chain passed to onConnected: for a wallet on chain 1 the
    effect reports BSC when BSC is selected and TRON when TRON is
    selected. *)
Lemma C3_chain_follows_selection_counterexample :
  ~ exists f : ChainNetworkId -> Chain,
      forall (h : WalletConnectButton.HookState nat) (sel : Chain) id a p c w,
        WalletConnectButton.chainId nat h = Some id ->
        In (WalletConnectButton.OnConnected a p c w)
           (trace (WalletConnectButton.connectionEffect
                     (IdNumber 56) (IdString "TRON_SHASTA") nat h sel)) ->
        c = f id.
Proof.
  intros [f Hf].
  assert (H1 : BSC = f (IdNumber 1)).
  { apply (Hf (connected_on (IdNumber 1)) BSC (IdNumber 1) "0xAbC" 7%nat BSC true);
      [reflexivity | simpl; right; left; reflexivity]. }
  assert (H2 : TRON = f (IdNumber 1)).
  { apply (Hf (connected_on (IdNumber 1)) TRON (IdNumber 1) "0xAbC" 7%nat TRON true);
      [reflexivity | simpl; right; left; reflexivity]. }
  congruence.
Qed.

(** C3 (amended). Every onConnected call of the connection effect carries a
    chain fixed by the wallet-reported id alone when that id is the
    configured EVM id (BSC) or the configured Tron identifier (TRON), the
    selection then entering only the wrongNetwork flag; for any other id the
    effect passes the selected chain with wrongNetwork = true. Every
    onConnected call of the connect handler passes the selected chain with
    wrongNetwork = false. *)
Theorem C3_reported_chain
    (BSC_CHAIN_ID ACTIVE_TRON_CHAIN_ID : ChainNetworkId) (ProviderHandle : Type)
    (truncateAddress : string -> string) :
  (forall (h : WalletConnectButton.HookState ProviderHandle) sel a p c w,
      In (WalletConnectButton.OnConnected a p c w)
         (trace (WalletConnectButton.connectionEffect
                   BSC_CHAIN_ID ACTIVE_TRON_CHAIN_ID ProviderHandle h sel)) ->
      exists id,
        WalletConnectButton.chainId ProviderHandle h = Some id /\
        ((id = BSC_CHAIN_ID /\ c = BSC /\ w = negb (Chain_eqb sel BSC)) \/
         (id <> BSC_CHAIN_ID /\ id = ACTIVE_TRON_CHAIN_ID /\
          c = TRON /\ w = negb (Chain_eqb sel TRON)) \/
         (id <> BSC_CHAIN_ID /\ id <> ACTIVE_TRON_CHAIN_ID /\ c = sel /\ w = true))) /\
  (forall connectedAddress ethereum sel a p c w,
      In (WalletConnectButton.OnConnected a p c w)
         (trace (WalletConnectButton.handleConnect
                   ProviderHandle truncateAddress connectedAddress ethereum sel)) ->
      c = sel /\ w = false).
Proof.
  split.
  - intros [conn acct prov cid loading] sel a p c w.
    unfold WalletConnectButton.connectionEffect; simpl.
    destruct conn;
      [| destruct loading; simpl; intros Hin;
         [destruct Hin | destruct Hin as [H | []]; discriminate]].
    destruct acct as [a0 |]; [| intros []].
    destruct prov as [p0 |]; [| intros []].
    destruct cid as [id |]; [| intros []].
    destruct (truthy_str a0 && truthy_id id)%bool; [| intros []].
    intros Hin. exists id. split; [reflexivity |].
    destruct (reportConnection_cases BSC_CHAIN_ID ACTIVE_TRON_CHAIN_ID ProviderHandle
                a0 p0 id sel) as [[H1 E] | [[H1 [H2 E]] | [H1 [H2 E]]]];
      rewrite E in Hin; simpl in Hin.
    + destruct Hin as [Hin | []]. inversion Hin; subst. left. auto.
    + destruct Hin as [Hin | []]. inversion Hin; subst. right; left. auto.
    + destruct Hin as [Hin | [Hin | []]]; [discriminate |].
      inversion Hin; subst. right; right. auto.
  - intros connectedAddress ethereum sel a p c w.
    unfold WalletConnectButton.handleConnect.
    destruct (truthy_ostr connectedAddress).
    + simpl. intros [H | [H | []]]; discriminate.
    + destruct ethereum as [[handle [accounts | t | n]] |]; simpl.
      * destruct accounts as [| address rest]; simpl.
        -- intros [H | [H | [H | [H | []]]]]; discriminate.
        -- intros [H | [H | [H | [H | [H | []]]]]]; try discriminate.
           inversion H; subst. auto.
      * intros [H | [H | [H | [H | []]]]]; discriminate.
      * intros [H | [H | [H | []]]]; discriminate.
      * intros [H | [H | [H | []]]]; discriminate.
Qed.

Lemma C3_reported_chain_witness :
  (exists id,
      WalletConnectButton.chainId nat (connected_on (IdNumber 56)) = Some id /\
      ((id = IdNumber 56 /\ BSC = BSC /\ true = negb (Chain_eqb TRON BSC)) \/
       (id <> IdNumber 56 /\ id = IdString "TRON_SHASTA" /\
        BSC = TRON /\ true = negb (Chain_eqb TRON TRON)) \/
       (id <> IdNumber 56 /\ id <> IdString "TRON_SHASTA" /\ BSC = TRON /\ true = true))) /\
  (TRON = TRON /\ false = false).
Proof.
  split.
  - apply (proj1 (C3_reported_chain (IdNumber 56) (IdString "TRON_SHASTA") nat (fun s => s))
             (connected_on (IdNumber 56)) TRON "0xAbC" 7%nat BSC true).
    simpl. left. reflexivity.
  - apply (proj2 (C3_reported_chain (IdNumber 56) (IdString "TRON_SHASTA") nat (fun s => s))
             None (Some (7%nat, Return ["0xAbC"])) TRON "0xAbC" 7%nat TRON false).
    simpl. right; right. left. reflexivity.
Defined.

(** ** Tron network check *)

Lemma checkTronNetwork_outcome ACTIVE_TRON_CHAIN_ID tronWebInstance :
  outcome (checkTronNetwork ACTIVE_TRON_CHAIN_ID tronWebInstance) =
  Return match tronWebInstance ?. fullNode ?. host with
         | Some h => (truthy_str h && host_matches ACTIVE_TRON_CHAIN_ID h)%bool
         | None => false
         end.
Proof.
  unfold checkTronNetwork, host_matches.
  destruct (tronWebInstance ?. fullNode ?. host) as [h |]; [| reflexivity].
  destruct (truthy_str h); [| reflexivity].
  destruct (strict_eq ACTIVE_TRON_CHAIN_ID (IdString "TRON_MAINNET")); [reflexivity |].
  destruct (strict_eq ACTIVE_TRON_CHAIN_ID (IdString "TRON_SHASTA")); reflexivity.
Qed.

(** C10. checkTronNetwork is total and fail-closed: it always completes with
    a boolean (never throws); the result is false whenever the instance, its
    fullNode or a non-empty host is missing, and whenever the configured
    ACTIVE_TRON_CHAIN_ID is neither TRON_MAINNET nor TRON_SHASTA; and the
    result is true only when the lower-cased host contains one of the known
    host names of the configured target network. *)
Theorem C10_checkTronNetwork_fail_closed
    (ACTIVE_TRON_CHAIN_ID : ChainNetworkId) (tronWebInstance : option TronWebInstance) :
  let r := checkTronNetwork ACTIVE_TRON_CHAIN_ID tronWebInstance in
  (exists b, outcome r = Return b) /\
  (truthy_ostr (tronWebInstance ?. fullNode ?. host) = false -> outcome r = Return false) /\
  (ACTIVE_TRON_CHAIN_ID <> IdString "TRON_MAINNET" ->
   ACTIVE_TRON_CHAIN_ID <> IdString "TRON_SHASTA" -> outcome r = Return false) /\
  (outcome r = Return true ->
   exists h known,
     tronWebInstance ?. fullNode ?. host = Some h /\
     includes (toLowerCase h) known = true /\
     ((ACTIVE_TRON_CHAIN_ID = IdString "TRON_MAINNET" /\ In known mainnetHosts) \/
      (ACTIVE_TRON_CHAIN_ID = IdString "TRON_SHASTA" /\ In known shastaHosts))).
Proof.
  intros r. subst r. rewrite checkTronNetwork_outcome.
  split; [eauto |].
  destruct (tronWebInstance ?. fullNode ?. host) as [h |].
  2: { repeat split; intros; try reflexivity; discriminate. }
  unfold truthy_ostr, host_matches.
  split; [intros ->; reflexivity |].
  destruct (truthy_str h).
  2: { split; intros; [reflexivity | discriminate]. }
  rewrite andb_true_l.
  destruct (strict_eq ACTIVE_TRON_CHAIN_ID (IdString "TRON_MAINNET")) eqn:E1.
  - apply strict_eq_spec in E1. split; [congruence |].
    intros H.
    assert (Hs : some (fun known => includes (toLowerCase h) known) mainnetHosts = true)
      by congruence.
    apply existsb_exists in Hs.
    destruct Hs as [known [Hin Hk]]. exists h, known. auto.
  - destruct (strict_eq ACTIVE_TRON_CHAIN_ID (IdString "TRON_SHASTA")) eqn:E2.
    + apply strict_eq_spec in E2. split; [congruence |].
      intros H.
      assert (Hs : some (fun known => includes (toLowerCase h) known) shastaHosts = true)
        by congruence.
      apply existsb_exists in Hs.
      destruct Hs as [known [Hin Hk]]. exists h, known. auto.
    + split; intros; [reflexivity | discriminate].
Qed.

Lemma C10_checkTronNetwork_fail_closed_witness :
  outcome (checkTronNetwork (IdString "TRON_SHASTA") None) = Return false /\
  outcome (checkTronNetwork (IdNumber 1)
             (Some (instance_at "https://api.trongrid.io"))) = Return false /\
  (exists h known,
      Some (instance_at "https://API.Shasta.TronGrid.io") ?. fullNode ?. host = Some h /\
      includes (toLowerCase h) known = true /\
      ((IdString "TRON_SHASTA" = IdString "TRON_MAINNET" /\ In known mainnetHosts) \/
       (IdString "TRON_SHASTA" = IdString "TRON_SHASTA" /\ In known shastaHosts))).
Proof.
  split; [| split].
  - apply (proj1 (proj2 (C10_checkTronNetwork_fail_closed (IdString "TRON_SHASTA") None))).
    reflexivity.
  - apply (proj1 (proj2 (proj2 (C10_checkTronNetwork_fail_closed (IdNumber 1)
                                  (Some (instance_at "https://api.trongrid.io"))))));
      discriminate.
  - apply (proj2 (proj2 (proj2 (C10_checkTronNetwork_fail_closed (IdString "TRON_SHASTA")
                                  (Some (instance_at "https://API.Shasta.TronGrid.io")))))).
    reflexivity.
Defined.

(** ** Module initialization *)

Lemma require_env_falsy name v :
  truthy_ostr v = false -> require_env name v = ([], Throw (missing name)).
Proof.
  destruct v as [s |]; simpl; [| reflexivity]. now intros ->.
Qed.

Lemma require_env_truthy name v :
  truthy_ostr v = true -> exists s, v = Some s /\ require_env name v = ([], Return s).
Proof.
  destruct v as [s |]; simpl; [| discriminate]. intros H. exists s. now rewrite H.
Qed.

Lemma require_env_some name s :
  truthy_str s = true -> require_env name (Some s) = ([], Return s).
Proof. simpl. now intros ->. Qed.

(** Reduce a bind whose first computation is a known result. *)
Ltac run :=
  cbn [mbind mret M_bind M_ret bind ret throw emit lift try_catch rethrow read app].

Lemma bsc_rpc_default_truthy (v : option string) :
  truthy_str (or_default v "bsc-testnet-rpc.publicnode.com") = true.
Proof.
  unfold or_default. destruct v as [s |]; [| reflexivity].
  destruct (truthy_str s) eqn:E; [exact E | reflexivity].
Qed.

(** X2. Absence (or emptiness) of the BEP-20 address, the Tron RPC URL or
    the TRC-20 address aborts initialization, naming a missing variable. *)
Lemma initialize_aborts_on_missing_input address_toHex (env : gmap string string) name :
  In name required_names ->
  truthy_ostr (env !! name) = false ->
  exists n, In n required_names /\ initialize address_toHex env = ([], Throw (missing n)).
Proof.
  intros Hin Hf. unfold initialize. cbv zeta.
  pose proof (bsc_rpc_default_truthy (env !! "NEXT_PUBLIC_BSC_RPC_URL")) as Hb.
  rewrite (require_env_some _ _ Hb). run.
  destruct (truthy_ostr (env !! "NEXT_PUBLIC_BEP20_CONTRACT_ADDRESS")) eqn:E1.
  2: { rewrite (require_env_falsy _ _ E1). exists "NEXT_PUBLIC_BEP20_CONTRACT_ADDRESS".
       split; [simpl; auto | reflexivity]. }
  destruct (require_env_truthy "NEXT_PUBLIC_BEP20_CONTRACT_ADDRESS" _ E1) as [s1 [_ ->]].
  run.
  destruct (truthy_ostr (env !! "NEXT_PUBLIC_TRON_RPC_URL")) eqn:E2.
  2: { rewrite (require_env_falsy _ _ E2). exists "NEXT_PUBLIC_TRON_RPC_URL".
       split; [simpl; auto | reflexivity]. }
  destruct (require_env_truthy "NEXT_PUBLIC_TRON_RPC_URL" _ E2) as [s2 [_ ->]].
  run.
  destruct (truthy_ostr (env !! "NEXT_PUBLIC_TRC20_CONTRACT_ADDRESS")) eqn:E3.
  2: { rewrite (require_env_falsy _ _ E3). exists "NEXT_PUBLIC_TRC20_CONTRACT_ADDRESS".
       split; [simpl; auto | reflexivity]. }
  exfalso. simpl in Hin. destruct Hin as [<- | [<- | [<- | []]]]; congruence.
Qed.

(** X3. A TRC-20 address that [toHex] rejects aborts initialization with
    the "Invalid ... format" error. *)
Lemma initialize_aborts_on_malformed_address address_toHex (env : gmap string string)
    bep20 rpc trc20 t :
  env !! "NEXT_PUBLIC_BEP20_CONTRACT_ADDRESS" = Some bep20 -> truthy_str bep20 = true ->
  env !! "NEXT_PUBLIC_TRON_RPC_URL" = Some rpc -> truthy_str rpc = true ->
  env !! "NEXT_PUBLIC_TRC20_CONTRACT_ADDRESS" = Some trc20 -> truthy_str trc20 = true ->
  address_toHex trc20 = Throw t ->
  initialize address_toHex env =
    ([Console LError "Failed to convert TRC20 address to hex:"],
     Throw (new_Error ("Invalid NEXT_PUBLIC_TRC20_CONTRACT_ADDRESS format: " ++ trc20))).
Proof.
  intros E1 T1 E2 T2 E3 T3 Hx. unfold initialize. cbv zeta.
  pose proof (bsc_rpc_default_truthy (env !! "NEXT_PUBLIC_BSC_RPC_URL")) as Hb.
  rewrite (require_env_some _ _ Hb), E1, (require_env_some _ _ T1).
  rewrite E2, (require_env_some _ _ T2), E3, (require_env_some _ _ T3).
  run. rewrite Hx. reflexivity.
Qed.

(** The guard on NEXT_PUBLIC_BSC_RPC_URL can never fire. *)
Lemma initialize_never_misses_bsc_rpc address_toHex (env : gmap string string) :
  outcome (initialize address_toHex env) <> Throw (missing "NEXT_PUBLIC_BSC_RPC_URL").
Proof.
  unfold initialize. cbv zeta.
  pose proof (bsc_rpc_default_truthy (env !! "NEXT_PUBLIC_BSC_RPC_URL")) as Hb.
  rewrite (require_env_some _ _ Hb). run.
  destruct (env !! "NEXT_PUBLIC_BEP20_CONTRACT_ADDRESS") as [s1 |]; simpl; [| discriminate].
  destruct (truthy_str s1); simpl; [| discriminate].
  destruct (env !! "NEXT_PUBLIC_TRON_RPC_URL") as [s2 |]; simpl; [| discriminate].
  destruct (truthy_str s2); simpl; [| discriminate].
  destruct (env !! "NEXT_PUBLIC_TRC20_CONTRACT_ADDRESS") as [s3 |]; simpl; [| discriminate].
  destruct (truthy_str s3); simpl; [| discriminate].
  destruct (address_toHex s3); simpl; discriminate.
Qed.

(** C9, on the code: with NEXT_PUBLIC_BSC_RPC_URL absent from the
    environment and the other three inputs present, initialization does not
    abort; it completes with the built-in RPC host as the EVM RPC URL. *)
Theorem C9_absent_bsc_rpc_url_is_defaulted :
  env_without_bsc_rpc !! "NEXT_PUBLIC_BSC_RPC_URL" = None /\
  initialize toHex_sample env_without_bsc_rpc =
    ([], Return {| NEXT_PUBLIC_BSC_RPC_URL := "bsc-testnet-rpc.publicnode.com";
                   BEP20_ADDRESS := "0x55d398326f99059fF775485246999027B3197955";
                   NEXT_PUBLIC_TRON_RPC_URL := "https://api.shasta.trongrid.io";
                   TRC20_ADDRESS_BASE58 := "TR7NHqjeKQxGTCi8q8ZY4pL8otSzgjLj6t";
                   NEXT_PUBLIC_TRONGRID_API_KEY := None;
                   TRC20_ADDRESS_HEX := "41a614f803b6fd780986a42c78ec9c7f77e6ded13c" |}).
Proof. split; vm_compute; reflexivity. Qed.

(** ** Mint: absent handles *)

(** C5. A mint without its chain handle fails at once: with a null signer
    the EVM mint, and with a Tron instance lacking a resolved default
    address the Tron mint, throw their descriptive error with an empty
    trace, so that no contract handle has been constructed and no contract
    method called. *)
Theorem C5_mint_fails_fast
    (cfg : Config) (Runner : Type) (new_Contract : string -> Runner -> Outcome EvmContract)
    (parseEther : string -> Outcome Z)
    (tronWebInstance : option TronWebInstance) (recipient amount : string)
    (Hno_address : has_address tronWebInstance = false) :
  mintBep20Tokens cfg Runner new_Contract parseEther None recipient amount =
    ([], Throw (new_Error
                  "A connected Signer (wallet) is required for minting BEP-20 tokens.")) /\
  mintTrc20Tokens cfg tronWebInstance recipient amount =
    ([], Throw (new_Error
                  "TronLink wallet instance with address is required for minting TRC-20 tokens.")).
Proof.
  split; [reflexivity |].
  unfold mintTrc20Tokens. now rewrite Hno_address.
Qed.

Lemma C5_mint_fails_fast_witness :
  mintBep20Tokens cfg0 unit new_Contract_rejecting parseEther_sample None
    "TJRabPrwbZy45sbavfcjinPJC18kjpRTv8" "1.5"
  = ([], Throw (new_Error
                  "A connected Signer (wallet) is required for minting BEP-20 tokens.")) /\
  mintTrc20Tokens cfg0 (Some (instance_at "https://api.shasta.trongrid.io"))
    "TJRabPrwbZy45sbavfcjinPJC18kjpRTv8" "1.5"
  = ([], Throw (new_Error
                  "TronLink wallet instance with address is required for minting TRC-20 tokens.")).
Proof.
  apply (C5_mint_fails_fast cfg0 unit new_Contract_rejecting parseEther_sample
           (Some (instance_at "https://api.shasta.trongrid.io"))).
  reflexivity.
Defined.

(** ** Burn: missing contract method *)

Lemma getTrc20Contract_ok cfg inst lookup tc m :
  contract inst = Some lookup ->
  lookup (TRC20_ADDRESS_HEX cfg) = Return (Some tc) ->
  methods tc = Some m ->
  getTrc20Contract cfg (Some inst) =
    ([ContractConstructed "TRC20" (TRC20_ADDRESS_HEX cfg)], Return tc).
Proof.
  intros Hl Hk Hm. unfold getTrc20Contract. simpl. rewrite Hl. run.
  rewrite Hk. simpl. rewrite Hm. reflexivity.
Qed.

(** C6, refuted as stated. A burn against a TRC-20 contract without a burn
    method, called with an amount that is not a number, fails with the
    BigInt conversion error and not with the configuration error that names
    the missing function: the amount is converted before the method is
    looked up. *)
Lemma C6_unparsable_amount_counterexample :
  trc_burn no_methods = None /\
  outcome (burnTrc20Tokens cfg0 (Some (tron_instance no_methods))
             "TJRabPrwbZy45sbavfcjinPJC18kjpRTv8" "abc")
  = Throw (new_Error
             "The number NaN cannot be converted to a BigInt because it is not an integer") /\
  outcome (burnTrc20Tokens cfg0 (Some (tron_instance no_methods))
             "TJRabPrwbZy45sbavfcjinPJC18kjpRTv8" "abc")
  <> Throw burn_missing.
Proof.
  split; [reflexivity |]. split; [vm_compute; reflexivity |].
  vm_compute. discriminate.
Qed.

(** C6 (amended). Against a contract handle that lacks the expected method
    (burnFrom on the EVM path, burn on the Tron path), reached with a
    present signer or an instance with an address, a burn never calls a
    contract method, so no transaction is submitted; and whenever the amount
    converts to base units, the burn throws the configuration error that
    names the missing function. *)
Theorem C6_burn_missing_method
    (cfg : Config) (Runner : Type) (new_Contract : string -> Runner -> Outcome EvmContract)
    (parseEther : string -> Outcome Z)
    (signer : Runner) (c : EvmContract)
    (inst : TronWebInstance) (lookup : string -> Outcome (option TronContract))
    (tc : TronContract) (m : TronMethods) (targetAddress amount : string)
    (Hcontract : new_Contract (BEP20_ADDRESS cfg) signer = Return c)
    (HburnFrom : evm_burnFrom c = None)
    (Haddress : has_address (Some inst) = true)
    (Hlookup : contract inst = Some lookup)
    (Hfound : lookup (TRC20_ADDRESS_HEX cfg) = Return (Some tc))
    (Hmethods : methods tc = Some m)
    (Hburn : trc_burn m = None) :
  let evm := burnBep20Tokens cfg Runner new_Contract parseEther
               (Some signer) targetAddress amount in
  let tron := burnTrc20Tokens cfg (Some inst) targetAddress amount in
  calls (trace evm) = [] /\
  calls (trace tron) = [] /\
  ((exists wei, parseEther amount = Return wei) -> outcome evm = Throw burnFrom_missing) /\
  ((exists raw, toRawAmount amount = Return raw) -> outcome tron = Throw burn_missing).
Proof.
  intros evm tron. subst evm tron.
  unfold burnBep20Tokens, burnTrc20Tokens, getBep20Contract.
  rewrite Haddress, (getTrc20Contract_ok cfg inst lookup tc m Hlookup Hfound Hmethods).
  run. rewrite Hcontract. run. unfold methods_of. rewrite Hmethods.
  destruct (parseEther amount) as [wei | t1 | n1];
    destruct (toRawAmount amount) as [raw | t2 | n2];
    run; rewrite ?HburnFrom, ?Hburn; run; simpl;
    repeat split; try reflexivity; intros [x Hx]; discriminate.
Qed.

Lemma C6_burn_missing_method_witness :
  let evm := burnBep20Tokens cfg0 unit (fun _ _ => Return evm_no_methods) parseEther_sample
               (Some tt) "0x8894E0a0c962CB723c1976a4421c95949bE2D4E3" "1.5" in
  let tron := burnTrc20Tokens cfg0 (Some (tron_instance no_methods))
                "0x8894E0a0c962CB723c1976a4421c95949bE2D4E3" "1.5" in
  calls (trace evm) = [] /\
  calls (trace tron) = [] /\
  outcome evm = Throw burnFrom_missing /\
  outcome tron = Throw burn_missing.
Proof.
  intros evm tron.
  destruct (C6_burn_missing_method cfg0 unit (fun _ _ => Return evm_no_methods)
              parseEther_sample tt evm_no_methods (tron_instance no_methods)
              (fun _ => Return (Some {| methods := Some no_methods |}))
              {| methods := Some no_methods |} no_methods
              "0x8894E0a0c962CB723c1976a4421c95949bE2D4E3" "1.5"
              eq_refl eq_refl eq_refl eq_refl eq_refl eq_refl eq_refl)
    as [H1 [H2 [H3 H4]]].
  split; [exact H1 |]. split; [exact H2 |]. split.
  - apply H3. exists 1500000000000000000. reflexivity.
  - apply H4. exists "1500000". vm_compute. reflexivity.
Defined.

(** ** Balance queries *)

(** A guarded block whose handler completes for every caught value
    completes. *)
Lemma try_catch_returns {E A} (body : M E A) (handler : Caught -> M E A) :
  (forall e, exists a, outcome (handler e) = Return a) ->
  exists a, outcome (try_catch body handler) = Return a.
Proof.
  intros Hh. destruct body as [tr [a | t | n]]; simpl; [eauto | |].
  - destruct (Hh (CaughtValue t)) as [a Ha].
    destruct (handler (CaughtValue t)) as [tr' r]. simpl in *. eauto.
  - destruct (Hh (CaughtNullish n)) as [a Ha].
    destruct (handler (CaughtNullish n)) as [tr' r]. simpl in *. eauto.
Qed.

(** The Tron balance query looks its contract up inside the guarded block:
    a lookup that throws a value with properties gives the sentinel. *)
Lemma getTrc20Balance_lookup_failure cfg inst tr t address :
  getTrc20Contract cfg (Some inst) = (tr, Throw t) ->
  outcome (getTrc20Balance cfg (Some inst) address) = Return sentinel.
Proof.
  intros Hc. unfold getTrc20Balance. rewrite Hc. reflexivity.
Qed.

(** The Tron balance query yields the sentinel unless every step succeeds
    (the contract lookup, the presence of balanceOf, the call, the
    conversion of the raw balance), or unless the lookup or the call is
    rejected with [null] or [undefined]: the handler then fails on
    [error.message]. *)
Lemma getTrc20Balance_cases cfg tronWebInstance address :
  outcome (getTrc20Balance cfg tronWebInstance address) = Return sentinel \/
  (exists tr tc m balanceOf text n,
      getTrc20Contract cfg tronWebInstance = (tr, Return tc) /\
      methods tc = Some m /\ trc_balanceOf m = Some balanceOf /\
      balanceOf address = Return (Some text) /\ BigInt_of_string text = Return n /\
      outcome (getTrc20Balance cfg tronWebInstance address)
      = Return (formatBalance n 1000000)) \/
  (exists n, outcome (getTrc20Balance cfg tronWebInstance address)
             = Throw (cannot_read n "message")).
Proof.
  unfold getTrc20Balance. destruct tronWebInstance as [inst |]; [| left; reflexivity].
  destruct (getTrc20Contract cfg (Some inst)) as [tr [tc | t | n]] eqn:Hc; run;
    [| left; reflexivity | right; right; exists n; reflexivity].
  unfold methods_of. destruct (methods tc) as [m |] eqn:Hm; run; [| left; reflexivity].
  destruct (trc_balanceOf m) as [balanceOf |] eqn:Hb; run; [| left; reflexivity].
  destruct (balanceOf address) as [[text |] | t | n] eqn:Hcall; run;
    try (left; reflexivity); [| right; right; exists n; reflexivity].
  destruct (BigInt_of_string text) as [n | t | n'] eqn:Hn; run;
    [| left; reflexivity | right; right; exists n'; reflexivity].
  right; left. exists tr, tc, m, balanceOf, text, n. repeat split; auto.
Qed.

(** X13. The outcome of the EVM balance query, case by case. Without a
    provider or without its read provider: the sentinel. With both, the
    contract is constructed outside the guarded block, so what the
    constructor throws is thrown. With a contract: the formatted balance
    when balanceOf resolves; the sentinel when balanceOf is missing or
    throws a value that has properties; and a TypeError from the handler's
    [error.message] when balanceOf is rejected with null or undefined. *)
Lemma getBep20Balance_cases cfg Runner new_Contract formatEther
    (provider_ : option (Provider Runner)) address :
  let r := getBep20Balance cfg Runner new_Contract formatEther provider_ address in
  (provider_ ?. provider Runner = None -> outcome r = Return sentinel) /\
  (forall readProvider,
      provider_ ?. provider Runner = Some readProvider ->
      match new_Contract (BEP20_ADDRESS cfg) readProvider with
      | Throw t => outcome r = Throw t
      | ThrowNullish n => outcome r = ThrowNullish n
      | Return c =>
          match evm_balanceOf c with
          | None => outcome r = Return sentinel
          | Some balanceOf =>
              match balanceOf address with
              | Return wei => outcome r = Return (formatEther wei)
              | Throw t => outcome r = Return sentinel
              | ThrowNullish n => outcome r = Throw (cannot_read n "message")
              end
          end
      end).
Proof.
  intros r. subst r. unfold getBep20Balance. split.
  - destruct provider_ as [p |]; [| reflexivity]. simpl. now intros ->.
  - intros readProvider Hp. destruct provider_ as [p |]; [| discriminate].
    simpl in Hp. rewrite Hp. run.
    destruct (new_Contract (BEP20_ADDRESS cfg) readProvider) as [c | t | n]; run;
      try reflexivity.
    unfold invoke. destruct (evm_balanceOf c) as [balanceOf |];
      cbn [option_map]; run; [| reflexivity].
    destruct (balanceOf address) as [wei | t | n]; run; reflexivity.
Qed.

(** C7, on the code: when the ethers Contract constructor throws, the EVM
    balance query does not return the sentinel: the constructor runs outside
    the guarded block, and what it throws reaches the caller. *)
Theorem C7_bep20_construction_failure_propagates
    (cfg : Config) (Runner : Type) (new_Contract : string -> Runner -> Outcome EvmContract)
    (formatEther : Z -> string) (readProvider : Runner) (t : Thrown) (address : string)
    (Hthrows : new_Contract (BEP20_ADDRESS cfg) readProvider = Throw t) :
  getBep20Balance cfg Runner new_Contract formatEther
    (Some {| provider := Some readProvider |}) address
  = ([ContractConstructed "BEP20" (BEP20_ADDRESS cfg)], Throw t).
Proof.
  unfold getBep20Balance. simpl. now rewrite Hthrows.
Qed.

Lemma C7_bep20_construction_failure_propagates_witness :
  getBep20Balance cfg0 unit new_Contract_rejecting formatEther_sample
    (Some {| provider := Some tt |}) "0x8894E0a0c962CB723c1976a4421c95949bE2D4E3"
  = ([ContractConstructed "BEP20" (BEP20_ADDRESS cfg0)],
     Throw (new_Error "contract runner does not support name resolution")).
Proof.
  apply (C7_bep20_construction_failure_propagates cfg0 unit new_Contract_rejecting
           formatEther_sample tt). reflexivity.
Defined.

(** ** Network switch *)





(** ** Decimal strings *)

Lemma string_app_cons (x : ascii) (a b : string) : String x a ++ b = String x (a ++ b).
Proof. reflexivity. Qed.

Lemma string_app_nil_l (b : string) : EmptyString ++ b = b.
Proof. reflexivity. Qed.

Lemma string_app_assoc (a b c : string) : (a ++ b) ++ c = a ++ (b ++ c).
Proof.
  induction a as [| x a IH]; [reflexivity |].
  rewrite !string_app_cons. now rewrite IH.
Qed.

Lemma string_app_nil_r (a : string) : a ++ EmptyString = a.
Proof.
  induction a as [| x a IH]; [reflexivity |].
  rewrite string_app_cons. now rewrite IH.
Qed.

Lemma string_length_app (a b : string) :
  String.length (a ++ b) = (String.length a + String.length b)%nat.
Proof.
  induction a as [| x a IH]; [reflexivity |].
  rewrite string_app_cons. simpl. now rewrite IH.
Qed.

Lemma digits_value_app radix a s1 s2 :
  digits_value radix a (s1 ++ s2) =
  match digits_value radix a s1 with
  | Some v => digits_value radix v s2
  | None => None
  end.
Proof.
  revert a. induction s1 as [| c s1 IH]; intros a; [reflexivity |].
  rewrite string_app_cons. simpl.
  destruct (digit_value c) as [d |]; [| reflexivity].
  destruct (d <? radix); [apply IH | reflexivity].
Qed.

Lemma digit_value_digit_char d :
  0 <= d < 10 -> digit_value (digit_char d) = Some d.
Proof.
  intros H.
  assert (Hd : d = 0 \/ d = 1 \/ d = 2 \/ d = 3 \/ d = 4 \/ d = 5 \/ d = 6 \/ d = 7
               \/ d = 8 \/ d = 9) by lia.
  repeat (destruct Hd as [-> | Hd]; [reflexivity |]). subst d. reflexivity.
Qed.

Lemma is_digit_digit_value c :
  is_digit c = true <-> exists d, digit_value c = Some d /\ d < 10.
Proof.
  unfold is_digit, digit_value.
  destruct (Nat.leb 48 (nat_of_ascii c) && Nat.leb (nat_of_ascii c) 57)%bool eqn:E.
  - split; [| reflexivity]. intros _. eexists. split; [reflexivity |].
    apply andb_true_iff in E. destruct E as [_ E]. apply Nat.leb_le in E. lia.
  - split; [discriminate |]. intros [d [H Hd]].
    destruct (Nat.leb 97 (nat_of_ascii c) && Nat.leb (nat_of_ascii c) 102)%bool eqn:E2.
    + apply andb_true_iff in E2. destruct E2 as [E2 _]. apply Nat.leb_le in E2.
      inversion H. lia.
    + destruct (Nat.leb 65 (nat_of_ascii c) && Nat.leb (nat_of_ascii c) 70)%bool eqn:E3;
        [| discriminate].
      apply andb_true_iff in E3. destruct E3 as [E3 _]. apply Nat.leb_le in E3.
      inversion H. lia.
Qed.

Lemma digits_acc_app radix fuel n acc :
  digits_acc radix fuel n acc = digits_acc radix fuel n EmptyString ++ acc.
Proof.
  revert n acc. induction fuel as [| f IH]; intros n acc; simpl; [reflexivity |].
  destruct (n / radix =? 0); [reflexivity |].
  rewrite IH. rewrite (IH _ (String _ EmptyString)).
  rewrite string_app_assoc. reflexivity.
Qed.

Lemma digits_acc_value fuel n :
  0 <= n < 2 ^ Z.of_nat fuel ->
  digits_value 10 0 (digits_acc 10 fuel n EmptyString) = Some n.
Proof.
  revert n. induction fuel as [| f IH]; intros n Hn.
  - simpl in *. assert (n = 0) by lia. subst. reflexivity.
  - cbn [digits_acc].
    assert (Hmod : 0 <= n mod 10 < 10) by (apply Z.mod_pos_bound; lia).
    assert (Hdiv : n = 10 * (n / 10) + n mod 10) by (apply Z.div_mod; lia).
    destruct (n / 10 =? 0) eqn:E.
    + apply Z.eqb_eq in E. simpl. rewrite (digit_value_digit_char _ Hmod).
      destruct (n mod 10 <? 10) eqn:L; [| lia]. f_equal. lia.
    + apply Z.eqb_neq in E. rewrite digits_acc_app, digits_value_app.
      rewrite IH.
      * simpl. rewrite (digit_value_digit_char _ Hmod).
        destruct (n mod 10 <? 10) eqn:L; [| lia]. f_equal. lia.
      * rewrite Nat2Z.inj_succ, Z.pow_succ_r in Hn by lia.
        split; [apply Z.div_pos; lia |].
        apply Z.div_lt_upper_bound; lia.
Qed.

Lemma natural_toString_value n :
  0 <= n -> digits_value 10 0 (natural_toString 10 n) = Some n.
Proof.
  intros Hn. unfold natural_toString. apply digits_acc_value.
  split; [exact Hn |].
  destruct (Z.eq_dec n 0) as [-> | Hne]; [reflexivity |].
  rewrite Nat2Z.inj_succ, Z2Nat.id by apply Z.log2_nonneg.
  apply Z.log2_spec. lia.
Qed.

Lemma digits_acc_length fuel n k :
  0 <= n < 10 ^ Z.of_nat k -> (0 < k)%nat ->
  (String.length (digits_acc 10 fuel n EmptyString) <= k)%nat.
Proof.
  revert n k. induction fuel as [| f IH]; intros n k Hn Hk; [simpl; lia |].
  cbn [digits_acc]. destruct (n / 10 =? 0) eqn:E; [simpl; lia |].
  apply Z.eqb_neq in E. rewrite digits_acc_app, string_length_app. simpl.
  destruct k as [| k]; [lia |].
  rewrite Nat2Z.inj_succ, Z.pow_succ_r in Hn by lia.
  assert (Hq : 0 <= n / 10 < 10 ^ Z.of_nat k).
  { split; [apply Z.div_pos; lia | apply Z.div_lt_upper_bound; lia]. }
  assert (0 < k)%nat.
  { destruct k; [| lia]. simpl in Hq. lia. }
  specialize (IH (n / 10) k Hq H). lia.
Qed.

Lemma digits_acc_nonempty fuel n :
  digits_acc 10 (S fuel) n EmptyString <> EmptyString.
Proof.
  cbn [digits_acc]. destruct (n / 10 =? 0); [discriminate |].
  rewrite digits_acc_app. destruct (digits_acc 10 fuel (n / 10) EmptyString); discriminate.
Qed.

Lemma digits_value_shift s a b v :
  digits_value 10 a s = Some v ->
  digits_value 10 (a + b) s = Some (v + b * 10 ^ Z.of_nat (String.length s)).
Proof.
  revert a b v. induction s as [| c s IH]; intros a b v H.
  - simpl in *. inversion H. f_equal. lia.
  - cbn [digits_value] in *.
    destruct (digit_value c) as [d |]; [| discriminate].
    destruct (d <? 10); [| discriminate].
    replace (10 * (a + b) + d) with ((10 * a + d) + 10 * b) by lia.
    rewrite (IH _ (10 * b) _ H). f_equal.
    change (String.length (String c s)) with (S (String.length s)).
    rewrite Nat2Z.inj_succ, Z.pow_succ_r by lia. lia.
Qed.

Lemma digits_value_zeros a k :
  digits_value 10 a (repeat_char "0" k) = Some (a * 10 ^ Z.of_nat k).
Proof.
  revert a. induction k as [| k IH]; intros a.
  - simpl. f_equal. lia.
  - cbn [repeat_char digits_value]. change (digit_value "0") with (Some 0).
    cbv iota. change (0 <? 10) with true. cbv iota.
    rewrite IH. f_equal. rewrite Nat2Z.inj_succ, Z.pow_succ_r by lia. lia.
Qed.

Lemma repeat_char_length c k : String.length (repeat_char c k) = k.
Proof. induction k as [| k IH]; simpl; [reflexivity | now rewrite IH]. Qed.

(** Every string is what [strip_trailing_zeros] leaves of it, followed by
    zeros. *)
Lemma strip_trailing_zeros_spec s :
  exists k, s = strip_trailing_zeros s ++ repeat_char "0" k.
Proof.
  induction s as [| c s [k IH]]; [exists 0%nat; reflexivity |].
  simpl. destruct (strip_trailing_zeros s) as [| c' s'] eqn:E.
  - destruct (Ascii.eqb c "0") eqn:Ec.
    + apply Ascii.eqb_eq in Ec. subst c. exists (S k).
      rewrite string_app_nil_l in *. simpl. now rewrite <- IH.
    + exists k. rewrite !string_app_cons. now rewrite <- IH.
  - exists k. rewrite string_app_cons. now rewrite <- IH.
Qed.

Lemma digits_value_all_digits s a v c s1 s2 :
  digits_value 10 a s = Some v -> s = s1 ++ String c s2 -> is_digit c = true.
Proof.
  revert a s. induction s1 as [| x s1 IH]; intros a s H ->.
  - rewrite string_app_nil_l in H. simpl in H.
    destruct (digit_value c) as [d |] eqn:Ed; [| discriminate].
    destruct (d <? 10) eqn:L; [| discriminate].
    apply is_digit_digit_value. exists d. split; [exact Ed | lia].
  - rewrite string_app_cons in H. simpl in H.
    destruct (digit_value x) as [d |]; [| discriminate].
    destruct (d <? 10); [| discriminate].
    exact (IH _ _ H eq_refl).
Qed.

(** [take_digits] splits off a string of digits that is followed by
    nothing or by a character that is no digit. *)
Lemma take_digits_app s rest a v :
  digits_value 10 a s = Some v ->
  match rest with EmptyString => True | String c _ => is_digit c = false end ->
  take_digits (s ++ rest) = (s, rest).
Proof.
  revert a. induction s as [| x s IH]; intros a H Hrest.
  - rewrite string_app_nil_l. destruct rest as [| c r]; [reflexivity |].
    simpl. now rewrite Hrest.
  - rewrite string_app_cons. simpl.
    rewrite (digits_value_all_digits _ _ _ x EmptyString s H eq_refl).
    simpl in H. destruct (digit_value x) as [d |]; [| discriminate].
    destruct (d <? 10); [| discriminate].
    now rewrite (IH _ H Hrest).
Qed.

(** ** Amount conversion on the Tron paths *)

(** The balance display is exact: read back as a decimal with at most
    [tokenDecimals] fractional digits, the text produced for a balance of
    [n] base units denotes [n] again. *)
Theorem formatBalance_exact n :
  0 <= n -> spec_exactBaseUnits (formatBalance n (10 ^ tokenDecimals)) = Some n.
Proof.
  intros Hn. unfold formatBalance, tokenDecimals.
  change (10 ^ 6) with 1000000.
  rewrite Z.quot_div_nonneg, Z.rem_mod_nonneg by lia.
  set (q := n / 1000000). set (r := n mod 1000000).
  assert (Hq : 0 <= q) by (apply Z.div_pos; lia).
  assert (Hr : 0 <= r < 1000000) by (apply Z.mod_pos_bound; lia).
  assert (Hn' : n = 1000000 * q + r) by (apply Z.div_mod; lia).
  unfold Z_toString, Z_toString_radix.
  destruct (q <? 0) eqn:Lq; [lia |]. destruct (r <? 0) eqn:Lr; [lia |].
  pose proof (natural_toString_value q Hq) as Vq.
  pose proof (natural_toString_value r (proj1 Hr)) as Vr.
  assert (Lenr : (String.length (natural_toString 10 r) <= 6)%nat).
  { apply digits_acc_length; [simpl; lia | lia]. }
  assert (Nq : natural_toString 10 q <> EmptyString) by apply digits_acc_nonempty.
  set (ip := natural_toString 10 q) in *.
  set (rs := natural_toString 10 r) in *.
  unfold padStart. change (Z.to_nat 6) with 6%nat.
  set (fs := repeat_char "0" (6 - String.length rs) ++ rs).
  assert (Vf : digits_value 10 0 fs = Some r).
  { unfold fs. rewrite digits_value_app, digits_value_zeros. exact Vr. }
  assert (Lf : String.length fs = 6%nat).
  { unfold fs. rewrite string_length_app, repeat_char_length. lia. }
  destruct (strip_trailing_zeros_spec fs) as [k Hk].
  set (tf := strip_trailing_zeros fs) in *.
  rewrite Hk, digits_value_app in Vf.
  destruct (digits_value 10 0 tf) as [v |] eqn:Vt; [| discriminate].
  rewrite digits_value_zeros in Vf. injection Vf as Vf.
  assert (Lt : (String.length tf + k = 6)%nat).
  { rewrite <- Lf, Hk, string_length_app, repeat_char_length. reflexivity. }
  unfold spec_exactBaseUnits, tokenDecimals.
  destruct (truthy_str tf) eqn:Tt.
  - (* a fractional part remains *)
    rewrite (take_digits_app ip ("." ++ tf) 0 q Vq) by reflexivity.
    rewrite string_app_cons, string_app_nil_l.
    replace tf with (tf ++ EmptyString) at 1 by apply string_app_nil_r.
    rewrite (take_digits_app tf EmptyString 0 v Vt I).
    rewrite String.eqb_refl.
    assert (Ne : String.eqb (ip ++ tf) EmptyString = false).
    { apply String.eqb_neq. destruct ip; [congruence | discriminate]. }
    rewrite Ne.
    assert (Le : Nat.leb (String.length tf) (Z.to_nat 6) = true)
      by (apply Nat.leb_le; change (Z.to_nat 6) with 6%nat; lia).
    rewrite Le. simpl andb. cbv iota. f_equal.
    unfold decimal_value. rewrite digits_value_app, Vq.
    pose proof (digits_value_shift tf 0 q v Vt) as Hs. rewrite Z.add_0_l in Hs. rewrite Hs.
    replace (6 - Z.of_nat (String.length tf)) with (Z.of_nat k) by lia.
    assert (Hp : 10 ^ Z.of_nat (String.length tf) * 10 ^ Z.of_nat k = 1000000).
    { rewrite <- Z.pow_add_r by lia. rewrite <- Nat2Z.inj_add, Lt. reflexivity. }
    nia.
  - (* the fractional part is all zeros *)
    unfold truthy_str in Tt. apply negb_false_iff, String.eqb_eq in Tt.
    rewrite Tt in *. simpl in Vt. injection Vt as <-.
    replace ip with (ip ++ EmptyString) at 1 by apply string_app_nil_r.
    rewrite (take_digits_app ip EmptyString 0 q Vq I).
    rewrite String.eqb_refl, string_app_nil_r.
    assert (Ne : String.eqb ip EmptyString = false) by (now apply String.eqb_neq).
    rewrite Ne. simpl. f_equal. unfold decimal_value. rewrite Vq. lia.
Qed.

(** The Number arithmetic of [Js], checked against the machine's binary64
    arithmetic on the amounts used below. *)
#[local] Set Warnings "-inexact-float".
Example Number_model_agrees_with_binary64 :
  parseFloat "123456789.123456" = Prim2SF 123456789.123456%float /\
  parseFloat "9007199254.740993" = Prim2SF 9007199254.740993%float /\
  parseFloat "4294981488.833615" = Prim2SF 4294981488.833615%float /\
  Number_mul (parseFloat "9007199254.740993") (pow10 6)
  = Prim2SF (9007199254.740993 * 1000000)%float /\
  Number_mul (parseFloat "4294981488.833615") (pow10 6)
  = Prim2SF (4294981488.833615 * 1000000)%float.
Proof. repeat split; vm_compute; reflexivity. Qed.
#[local] Set Warnings "+inexact-float".

(** The amount of the specification's example survives the round trip. *)
Example round_trip_123456789_123456 :
  toRawAmount "123456789.123456" = Return "123456789123456" /\
  outcome (getTrc20Balance cfg0 (Some (tron_instance (ledger "123456789123456")))
             "TJRabPrwbZy45sbavfcjinPJC18kjpRTv8")
  = Return "123456789.123456".
Proof. split; vm_compute; reflexivity. Qed.

(** Trailing fractional zeros are dropped on the way back. *)
Example round_trip_strips_zeros :
  toRawAmount "12.500" = Return "12500000" /\
  formatBalance 12500000 1000000 = "12.5" /\
  formatBalance 7000000 1000000 = "7" /\
  formatBalance 1 1000000 = "0.000001".
Proof. repeat split; vm_compute; reflexivity. Qed.

(** A second amount the Number arithmetic moves by one base unit. *)
Example toRawAmount_4294981488_833615 :
  spec_exactBaseUnits "4294981488.833615" = Some 4294981488833615 /\
  toRawAmount "4294981488.833615" = Return "4294981488833616".
Proof. split; vm_compute; reflexivity. Qed.

(** C2, on the code: for the amount 9007199254.740993 the exact scaled
    value is 9007199254740993 base units, while the conversion of the mint
    and burn paths, which goes through parseFloat, a Number product and
    Math.round, yields 9007199254740994. *)
Theorem C2_toRawAmount_inexact :
  spec_exactBaseUnits "9007199254.740993" = Some 9007199254740993 /\
  toRawAmount "9007199254.740993" = Return "9007199254740994".
Proof. split; vm_compute; reflexivity. Qed.

(** C1, on the code: minting 9007199254.740993 sends 9007199254740994 base
    units to the contract, and a balance of that many base units is
    displayed as 9007199254.740994, which is not the amount entered: the
    two texts denote different numbers of base units. *)
Theorem C1_round_trip_loses_precision :
  calls (trace (mintTrc20Tokens cfg0 (Some (tron_instance (ledger "0")))
                  "TJRabPrwbZy45sbavfcjinPJC18kjpRTv8" "9007199254.740993"))
  = [ContractCall "TRC20" "mint"
       ["TJRabPrwbZy45sbavfcjinPJC18kjpRTv8"; "9007199254740994"]] /\
  outcome (getTrc20Balance cfg0 (Some (tron_instance (ledger "9007199254740994")))
             "TJRabPrwbZy45sbavfcjinPJC18kjpRTv8")
  = Return "9007199254.740994" /\
  spec_exactBaseUnits "9007199254.740994" = Some 9007199254740994 /\
  spec_exactBaseUnits "9007199254.740993" = Some 9007199254740993.
Proof. repeat split; vm_compute; reflexivity. Qed.

(* ===================================================================== *)
(** * Further properties of the code                                      *)
(* ===================================================================== *)

(** ** Integer texts: printing and reading back *)

Lemma digit_value_digit_char16 d :
  0 <= d < 16 -> digit_value (digit_char d) = Some d.
Proof.
  intros H.
  assert (Hd : d = 0 \/ d = 1 \/ d = 2 \/ d = 3 \/ d = 4 \/ d = 5 \/ d = 6 \/ d = 7
               \/ d = 8 \/ d = 9 \/ d = 10 \/ d = 11 \/ d = 12 \/ d = 13 \/ d = 14
               \/ d = 15) by lia.
  repeat (destruct Hd as [-> | Hd]; [reflexivity |]). subst d. reflexivity.
Qed.

(** The digits printed for [n] in a radix from 2 to 16 read back as [n]. *)
Lemma digits_acc_value_radix radix fuel n :
  2 <= radix <= 16 ->
  0 <= n < 2 ^ Z.of_nat fuel ->
  digits_value radix 0 (digits_acc radix fuel n EmptyString) = Some n.
Proof.
  intros Hr. revert n. induction fuel as [| f IH]; intros n Hn.
  - simpl in *. assert (n = 0) by lia. subst. reflexivity.
  - cbn [digits_acc].
    assert (Hmod : 0 <= n mod radix < radix) by (apply Z.mod_pos_bound; lia).
    assert (Hdiv : n = radix * (n / radix) + n mod radix) by (apply Z.div_mod; lia).
    assert (Hd : digit_value (digit_char (n mod radix)) = Some (n mod radix))
      by (apply digit_value_digit_char16; lia).
    destruct (n / radix =? 0) eqn:E.
    + apply Z.eqb_eq in E. cbn [digits_value]. rewrite Hd.
      destruct (n mod radix <? radix) eqn:L; [| lia]. f_equal. lia.
    + apply Z.eqb_neq in E. rewrite digits_acc_app, digits_value_app.
      rewrite IH.
      * cbn [digits_value]. rewrite Hd.
        destruct (n mod radix <? radix) eqn:L; [| lia]. f_equal. lia.
      * rewrite Nat2Z.inj_succ, Z.pow_succ_r in Hn by lia.
        split; [apply Z.div_pos; lia |].
        apply Z.div_lt_upper_bound; [lia |]. nia.
Qed.

Lemma natural_toString_value_radix radix n :
  2 <= radix <= 16 -> 0 <= n ->
  digits_value radix 0 (natural_toString radix n) = Some n.
Proof.
  intros Hr Hn. unfold natural_toString. apply digits_acc_value_radix; [exact Hr |].
  split; [exact Hn |].
  destruct (Z.eq_dec n 0) as [-> | Hne]; [reflexivity |].
  rewrite Nat2Z.inj_succ, Z2Nat.id by apply Z.log2_nonneg.
  apply Z.log2_spec. lia.
Qed.

Lemma natural_toString_nonempty radix n : natural_toString radix n <> EmptyString.
Proof.
  unfold natural_toString. cbn [digits_acc].
  destruct (n / radix =? 0); [discriminate |].
  rewrite digits_acc_app.
  destruct (digits_acc radix _ (n / radix) EmptyString); discriminate.
Qed.

(** A character that is a digit in some radix is no white space, no sign
    and no radix letter. *)
Lemma digit_value_not_special c d :
  digit_value c = Some d ->
  is_white c = false /\ Ascii.eqb c "x" = false /\ Ascii.eqb c "X" = false /\
  Ascii.eqb c "o" = false /\ Ascii.eqb c "O" = false /\
  Ascii.eqb c "-" = false /\ Ascii.eqb c "+" = false.
Proof.
  destruct c as [[] [] [] [] [] [] [] []]; vm_compute; intros H;
    try discriminate; repeat split; reflexivity.
Qed.

Lemma digit_value_ascii c d : digit_value c = Some d -> is_ascii c = true.
Proof.
  destruct c as [[] [] [] [] [] [] [] []]; vm_compute; intros H;
    try discriminate; reflexivity.
Qed.

Lemma digits_value_first radix a c s v :
  digits_value radix a (String c s) = Some v ->
  exists d, digit_value c = Some d /\ d < radix /\ digits_value radix (radix * a + d) s = Some v.
Proof.
  cbn [digits_value]. destruct (digit_value c) as [d |]; [| discriminate].
  destruct (d <? radix) eqn:L; [| discriminate]. intros H. exists d. repeat split; auto. lia.
Qed.

(** Nothing is trimmed in front of an ASCII character that is no white
    space: no white space of several bytes starts with it. *)
Lemma trim_start_nonwhite c s :
  is_ascii c = true -> is_white c = false -> trim_start (String c s) = String c s.
Proof.
  destruct c as [[] [] [] [] [] [] [] []]; intros H1 H2;
    try (vm_compute in H1; discriminate H1);
    try (vm_compute in H2; discriminate H2); reflexivity.
Qed.

Lemma trim_end_cons c s :
  is_ascii c = true -> is_white c = false ->
  trim_end s = s -> trim_end (String c s) = String c s.
Proof.
  intros A W Hs. cbn [trim_end]. rewrite (trim_start_nonwhite c s A W), Hs. reflexivity.
Qed.

Lemma trim_end_digits radix a s v :
  digits_value radix a s = Some v -> trim_end s = s.
Proof.
  revert a. induction s as [| c s IH]; intros a H; [reflexivity |].
  destruct (digits_value_first _ _ _ _ _ H) as [d [Hd [_ Hs]]].
  apply trim_end_cons;
    [exact (digit_value_ascii c d Hd)
    | exact (proj1 (digit_value_not_special c d Hd))
    | exact (IH _ Hs)].
Qed.

(** Hex round trip: the text [0x] followed by the base-16 digits of a
    non-negative [n], read by [BigInt], is [n] again. *)
Lemma BigInt_of_hex_toString16 n :
  0 <= n -> BigInt_of_string ("0x" ++ Z_toString16 n) = Return n.
Proof.
  intros Hn. unfold Z_toString16, Z_toString_radix.
  destruct (n <? 0) eqn:L; [lia |].
  pose proof (natural_toString_value_radix 16 n ltac:(lia) Hn) as V.
  pose proof (natural_toString_nonempty 16 n) as Ne.
  set (hs := natural_toString 16 n) in *.
  rewrite !string_app_cons, string_app_nil_l.
  unfold BigInt_of_string.
  assert (Ht : trim (String "0" (String "x" hs)) = String "0" (String "x" hs)).
  { unfold trim. rewrite trim_start_nonwhite by reflexivity.
    apply trim_end_cons; [reflexivity | reflexivity |].
    apply trim_end_cons; [reflexivity | reflexivity |].
    exact (trim_end_digits _ _ _ _ V). }
  rewrite Ht. cbv beta iota zeta.
  change (Ascii.eqb "x" "x" || Ascii.eqb "x" "X")%bool with true. cbv iota.
  destruct (String.eqb hs EmptyString) eqn:E; [apply String.eqb_eq in E; congruence |].
  now rewrite V.
Qed.

(** Decimal round trip: the decimal text of any integer, read by [BigInt],
    is that integer again. *)
Lemma BigInt_of_toString n : BigInt_of_string (Z_toString n) = Return n.
Proof.
  unfold Z_toString, Z_toString_radix.
  assert (Hnat : forall m, 0 <= m ->
            trim (natural_toString 10 m) = natural_toString 10 m /\
            BigInt_of_string (natural_toString 10 m) = Return m).
  { intros m Hm.
    pose proof (natural_toString_value_radix 10 m ltac:(lia) Hm) as V.
    pose proof (natural_toString_nonempty 10 m) as Ne.
    destruct (natural_toString 10 m) as [| c s] eqn:Es; [congruence |].
    destruct (digits_value_first _ _ _ _ _ V) as [d [Hd [Hlt Hs]]].
    destruct (digit_value_not_special c d Hd) as [W [X1 [X2 [O1 [O2 [S1 S2]]]]]].
    assert (Ht : trim (String c s) = String c s).
    { unfold trim.
      rewrite trim_start_nonwhite by (exact (digit_value_ascii c d Hd) || exact W).
      exact (trim_end_digits _ _ _ _ V). }
    split; [exact Ht |].
    unfold BigInt_of_string. rewrite Ht. cbv zeta.
    assert (Hlit : (if String.eqb (String c s) EmptyString then Throw (cannot_convert (String c s))
                    else match digits_value 10 0 (String c s) with
                         | Some z => Return z
                         | None => Throw (cannot_convert (String c s))
                         end) = Return m).
    { now rewrite V. }
    destruct (Ascii.eqb c "0") eqn:E0.
    - apply Ascii.eqb_eq in E0. subst c.
      destruct s as [| c' r]; [vm_compute in V; injection V as <-; reflexivity |].
      destruct (digits_value_first _ _ _ _ _ Hs) as [d' [Hd' _]].
      destruct (digit_value_not_special c' d' Hd') as [_ [Y1 [Y2 [P1 [P2 _]]]]].
      assert (B1 : Ascii.eqb c' "b" = false /\ Ascii.eqb c' "B" = false).
      { destruct (digits_value_first _ _ _ _ _ Hs) as [d2 [Hd2 [Hlt2 _]]].
        revert Hd2 Hlt2. clear.
        destruct c' as [[] [] [] [] [] [] [] []]; vm_compute; intros H1 H2;
          try discriminate; try (split; reflexivity);
          injection H1 as <-; discriminate. }
      destruct B1 as [B1 B2]. cbv beta iota. rewrite Y1, Y2, P1, P2, B1, B2.
      cbv iota. simpl orb. cbv iota. exact Hlit.
    - assert (Hdef : (let '(neg, ds) := take_sign (String c s) in
                      match (if String.eqb ds EmptyString then Throw (cannot_convert (String c s))
                             else match digits_value 10 0 ds with
                                  | Some z => Return z
                                  | None => Throw (cannot_convert (String c s))
                                  end) with
                      | Return z => Return (if neg then - z else z)
                      | Throw e => Throw e
                      | ThrowNullish u => ThrowNullish u
                      end) = Return m).
      { assert (Hsign : take_sign (String c s) = (false, String c s)).
        { revert S1 S2. clear. destruct c as [[] [] [] [] [] [] [] []]; vm_compute;
            intros; try discriminate; reflexivity. }
        rewrite Hsign. now rewrite Hlit. }
      revert E0 Hdef. clear.
      destruct c as [[] [] [] [] [] [] [] []]; intros E0 Hdef;
        try discriminate E0; exact Hdef. }
  destruct (n <? 0) eqn:L.
  - apply Z.ltb_lt in L. destruct (Hnat (- n) ltac:(lia)) as [Ht Hv].
    pose proof (natural_toString_value_radix 10 (- n) ltac:(lia) ltac:(lia)) as V.
    pose proof (natural_toString_nonempty 10 (- n)) as Ne.
    set (ds := natural_toString 10 (- n)) in *.
    unfold BigInt_of_string.
    assert (Ht' : trim (String "-" ds) = String "-" ds).
    { unfold trim. rewrite trim_start_nonwhite by reflexivity.
      apply trim_end_cons; [reflexivity | reflexivity |].
      exact (trim_end_digits _ _ _ _ V). }
    rewrite Ht'. cbv beta iota zeta. cbn [take_sign].
    destruct (String.eqb ds EmptyString) eqn:E; [apply String.eqb_eq in E; congruence |].
    rewrite V. f_equal. lia.
  - apply Z.ltb_ge in L. exact (proj2 (Hnat n L)).
Qed.

(** ** parseFloat reads a prefix *)

Lemma decimal_digit_facts c d :
  digit_value c = Some d -> d < 10 ->
  is_digit c = true /\ is_white c = false /\
  take_sign (String c EmptyString) = (false, String c EmptyString) /\
  Ascii.eqb "I" c = false.
Proof.
  destruct c as [[] [] [] [] [] [] [] []]; vm_compute; intros H1 H2;
    try discriminate; try (repeat split; reflexivity);
    injection H1 as <-; discriminate.
Qed.

Lemma take_sign_digit c s d :
  digit_value c = Some d -> d < 10 -> take_sign (String c s) = (false, String c s).
Proof.
  intros H1 H2. revert H1 H2.
  destruct c as [[] [] [] [] [] [] [] []]; vm_compute; intros H1 H2;
    try discriminate; try reflexivity; injection H1 as <-; discriminate.
Qed.

Lemma exponent_part_stop rest :
  ends_fraction rest = true -> exponent_part rest = 0.
Proof.
  destruct rest as [| c r]; [reflexivity |]. unfold ends_fraction, exponent_part.
  intros H. apply negb_true_iff in H.
  apply orb_false_iff in H. destruct H as [H HE].
  apply orb_false_iff in H. destruct H as [_ He].
  now rewrite He, HE.
Qed.

Lemma parseFloat_head c s d :
  digit_value c = Some d -> d < 10 ->
  parseFloat (String c s) =
    let '(ip, s2) := take_digits (String c s) in
    let '(fp, s3) := match s2 with
                     | String "." r => take_digits r
                     | _ => (EmptyString, s2)
                     end in
    if String.eqb (ip ++ fp) EmptyString then S754_nan
    else
      let m := decimal_value (ip ++ fp) in
      let k := exponent_part s3 - Z.of_nat (String.length fp) in
      if 0 <=? k then Number_of_ratio false (m * 10 ^ k) 1
      else Number_of_ratio false m (10 ^ (- k)).
Proof.
  intros Hd Hlt. destruct (decimal_digit_facts c d Hd Hlt) as [_ [W [_ HI]]].
  unfold parseFloat. rewrite (trim_start_nonwhite c s (digit_value_ascii c d Hd) W).
  rewrite (take_sign_digit c s d Hd Hlt).
  assert (Hp : String.prefix "Infinity" (String c s) = false).
  { cbn [String.prefix]. destruct (ascii_dec "I" c) as [E | E]; [| reflexivity].
    subst c. discriminate HI. }
  now rewrite Hp.
Qed.

Lemma parseFloat_fraction ip fp rest vi vf :
  ip <> EmptyString ->
  digits_value 10 0 ip = Some vi -> digits_value 10 0 fp = Some vf ->
  ends_fraction rest = true ->
  parseFloat (ip ++ "." ++ fp ++ rest) = decimal_Number ip fp.
Proof.
  intros Hne Vi Vf Hrest.
  destruct ip as [| c s]; [congruence |].
  destruct (digits_value_first _ _ _ _ _ Vi) as [d [Hd [Hlt _]]].
  rewrite string_app_cons, (parseFloat_head c _ d Hd Hlt), <- string_app_cons.
  rewrite (take_digits_app (String c s) ("." ++ fp ++ rest) 0 vi Vi) by reflexivity.
  rewrite (string_app_cons "." EmptyString), string_app_nil_l.
  assert (Hr : match rest with
               | EmptyString => True
               | String x _ => is_digit x = false
               end).
  { destruct rest as [| x r]; [exact I |]. unfold ends_fraction in Hrest.
    apply negb_true_iff in Hrest. apply orb_false_iff in Hrest.
    destruct Hrest as [Hrest _]. apply orb_false_iff in Hrest. tauto. }
  rewrite (take_digits_app fp rest 0 vf Vf Hr).
  rewrite (exponent_part_stop rest Hrest).
  unfold decimal_Number. cbv zeta.
  destruct (String.eqb (String c s ++ fp) EmptyString) eqn:E; [| reflexivity].
  apply String.eqb_eq in E. rewrite string_app_cons in E. discriminate.
Qed.

Lemma parseFloat_integer ip rest vi :
  ip <> EmptyString ->
  digits_value 10 0 ip = Some vi ->
  ends_integer rest = true ->
  parseFloat (ip ++ rest) = decimal_Number ip EmptyString.
Proof.
  intros Hne Vi Hrest.
  destruct ip as [| c s]; [congruence |].
  destruct (digits_value_first _ _ _ _ _ Vi) as [d [Hd [Hlt _]]].
  rewrite string_app_cons, (parseFloat_head c _ d Hd Hlt), <- string_app_cons.
  assert (Hr : match rest with
               | EmptyString => True
               | String x _ => is_digit x = false
               end /\ ends_fraction rest = true /\
              match rest with
              | String "." r => take_digits r
              | _ => (EmptyString, rest)
              end = (EmptyString, rest)).
  { destruct rest as [| x r]; [repeat split |]. unfold ends_integer in Hrest.
    apply negb_true_iff in Hrest. apply orb_false_iff in Hrest.
    destruct Hrest as [Hrest HE]. apply orb_false_iff in Hrest.
    destruct Hrest as [Hrest He]. apply orb_false_iff in Hrest.
    destruct Hrest as [Hdig Hdot].
    split; [exact Hdig |]. split.
    - unfold ends_fraction. now rewrite Hdig, He, HE.
    - revert Hdot. clear. destruct x as [[] [] [] [] [] [] [] []]; intros H;
        try discriminate H; reflexivity. }
  destruct Hr as [Hr1 [Hr2 Hr3]].
  rewrite (take_digits_app (String c s) rest 0 vi Vi Hr1), Hr3.
  rewrite (exponent_part_stop rest Hr2).
  unfold decimal_Number. cbv zeta.
  destruct (String.eqb (String c s ++ EmptyString) EmptyString) eqn:E; [| reflexivity].
  apply String.eqb_eq in E. rewrite string_app_cons in E. discriminate.
Qed.

(** Text that follows a plain decimal amount is ignored by the Tron
    conversion: an integer [ip], or [ip.fp], followed by [rest] that does
    not continue the number, converts to the same base units as the number
    alone. *)
Lemma toRawAmount_ignores_trailing_text ip fp rest vi vf :
  ip <> EmptyString ->
  digits_value 10 0 ip = Some vi -> digits_value 10 0 fp = Some vf ->
  (ends_integer rest = true -> toRawAmount (ip ++ rest) = toRawAmount ip) /\
  (ends_fraction rest = true ->
   toRawAmount (ip ++ "." ++ fp ++ rest) = toRawAmount (ip ++ "." ++ fp)).
Proof.
  intros Hne Vi Vf. split; intros Hrest; unfold toRawAmount.
  - rewrite (parseFloat_integer ip rest vi Hne Vi Hrest).
    replace ip with (ip ++ EmptyString) at 2 by apply string_app_nil_r.
    now rewrite (parseFloat_integer ip EmptyString vi Hne Vi eq_refl).
  - rewrite (parseFloat_fraction ip fp rest vi vf Hne Vi Vf Hrest).
    replace fp with (fp ++ EmptyString) at 2 by apply string_app_nil_r.
    now rewrite (parseFloat_fraction ip fp EmptyString vi vf Hne Vi Vf eq_refl).
Qed.

(** ** Balance display *)

(** X16. The display of a non-negative balance denotes that balance
    again when read back as a decimal with at most six fraction digits, so
    two different balances are never displayed alike. *)
Theorem balance_display_round_trip n :
  0 <= n ->
  spec_exactBaseUnits (formatBalance n (10 ^ tokenDecimals)) = Some n /\
  forall m, 0 <= m ->
            formatBalance m (10 ^ tokenDecimals) = formatBalance n (10 ^ tokenDecimals) ->
            m = n.
Proof.
  intros Hn. split; [exact (formatBalance_exact n Hn) |].
  intros m Hm H.
  pose proof (formatBalance_exact m Hm) as Em.
  pose proof (formatBalance_exact n Hn) as En.
  rewrite H in Em. congruence.
Qed.

Lemma strip_trailing_zeros_no_zero_end s p :
  strip_trailing_zeros s <> p ++ "0".
Proof.
  revert p. induction s as [| c s IH]; intros p.
  - simpl. destruct p; discriminate.
  - cbn [strip_trailing_zeros].
    destruct (strip_trailing_zeros s) as [| c' s'] eqn:E.
    + destruct (Ascii.eqb c "0") eqn:Ec.
      * destruct p; discriminate.
      * destruct p as [| x p].
        -- rewrite string_app_nil_l. intros H. injection H as ->. discriminate Ec.
        -- rewrite string_app_cons. intros H. injection H as _ H.
           destruct p; discriminate.
    + destruct p as [| x p].
      * rewrite string_app_nil_l. intros H. discriminate H.
      * rewrite string_app_cons. intros H. injection H as _ H. exact (IH p H).
Qed.

Lemma strip_trailing_zeros_zeros k :
  strip_trailing_zeros (repeat_char "0" k) = EmptyString.
Proof. induction k as [| k IH]; [reflexivity |]. simpl. now rewrite IH. Qed.

Lemma strip_trailing_zeros_length s :
  (String.length (strip_trailing_zeros s) <= String.length s)%nat.
Proof.
  destruct (strip_trailing_zeros_spec s) as [k Hk].
  rewrite Hk at 2. rewrite string_length_app. lia.
Qed.

Lemma digit_value_zero c : digit_value c = Some 0 -> c = "0"%char.
Proof.
  destruct c as [[] [] [] [] [] [] [] []]; vm_compute; intros H;
    try discriminate; try reflexivity; injection H as H; discriminate.
Qed.

Lemma digits_value_nonneg s a v :
  0 <= a -> digits_value 10 a s = Some v -> a <= v.
Proof.
  revert a v. induction s as [| c s IH]; intros a v Ha H.
  - simpl in H. injection H as <-. lia.
  - destruct (digits_value_first _ _ _ _ _ H) as [d [Hd [_ Hs]]].
    assert (0 <= d).
    { revert Hd. clear. unfold digit_value.
      repeat match goal with |- context [if ?b then _ else _] => destruct b eqn:? end;
        intros H; inversion H; subst;
        repeat match goal with
               | H : (_ && _)%bool = true |- _ => apply andb_true_iff in H; destruct H
               | H : Nat.leb _ _ = true |- _ => apply Nat.leb_le in H
               end; lia. }
    specialize (IH (10 * a + d) v ltac:(lia) Hs). lia.
Qed.

Lemma digits_value_zero_zeros s a :
  0 <= a -> digits_value 10 a s = Some 0 -> s = repeat_char "0" (String.length s).
Proof.
  revert a. induction s as [| c s IH]; intros a Ha H; [reflexivity |].
  destruct (digits_value_first _ _ _ _ _ H) as [d [Hd [_ Hs]]].
  assert (0 <= d).
  { pose proof (digits_value_nonneg (String c EmptyString) 0 (10 * 0 + d) ltac:(lia)) as Hx.
    cbn [digits_value] in Hx. rewrite Hd in Hx.
    destruct (d <? 10) eqn:L.
    - specialize (Hx eq_refl). lia.
    - apply Z.ltb_ge in L. lia. }
  pose proof (digits_value_nonneg s (10 * a + d) 0 ltac:(lia) Hs) as Hle.
  assert (d = 0) by lia. subst d.
  rewrite (digit_value_zero c Hd). simpl. f_equal.
  exact (IH (10 * a + 0) ltac:(lia) Hs).
Qed.

Lemma fractionalPart_facts r :
  0 <= r < 1000000 ->
  let fs := padStart (Z_toString r) 6 "0" in
  digits_value 10 0 fs = Some r /\ String.length fs = 6%nat.
Proof.
  intros Hr fs. subst fs. unfold Z_toString, Z_toString_radix, padStart.
  destruct (r <? 0) eqn:L; [lia |].
  pose proof (natural_toString_value r (proj1 Hr)) as Vr.
  assert (Lenr : (String.length (natural_toString 10 r) <= 6)%nat).
  { apply digits_acc_length; [simpl; lia | lia]. }
  split.
  - rewrite digits_value_app, digits_value_zeros. exact Vr.
  - rewrite string_length_app, repeat_char_length. lia.
Qed.

(** X17. The display of a non-negative balance is the integer part alone
    when the balance is a whole number of tokens, and otherwise the integer
    part, a dot, and between one and six fraction digits that do not end in
    a zero. *)
Theorem formatBalance_shape n :
  0 <= n ->
  let text := formatBalance n (10 ^ tokenDecimals) in
  (n mod 10 ^ tokenDecimals = 0 -> text = Z_toString (n / 10 ^ tokenDecimals)) /\
  (n mod 10 ^ tokenDecimals <> 0 ->
   exists f, text = Z_toString (n / 10 ^ tokenDecimals) ++ "." ++ f /\
             (1 <= String.length f <= 6)%nat /\
             forall p, f <> p ++ "0").
Proof.
  intros Hn text. subst text. unfold formatBalance, tokenDecimals.
  change (10 ^ 6) with 1000000. change (Z.to_nat 6) with 6%nat.
  rewrite Z.quot_div_nonneg, Z.rem_mod_nonneg by lia.
  assert (Hr : 0 <= n mod 1000000 < 1000000) by (apply Z.mod_pos_bound; lia).
  destruct (fractionalPart_facts _ Hr) as [Vf Lf].
  set (fs := padStart (Z_toString (n mod 1000000)) 6 "0") in *.
  destruct (strip_trailing_zeros_spec fs) as [k Hk].
  pose proof (strip_trailing_zeros_length fs) as Hlen.
  pose proof (strip_trailing_zeros_no_zero_end fs) as Hend.
  set (tf := strip_trailing_zeros fs) in *.
  split.
  - intros H0. rewrite H0 in Vf.
    pose proof (digits_value_zero_zeros fs 0 ltac:(lia) Vf) as Hz.
    assert (Ht : tf = EmptyString)
      by (unfold tf; rewrite Hz; apply strip_trailing_zeros_zeros).
    now rewrite Ht.
  - intros Hne. destruct (truthy_str tf) eqn:Tt.
    + exists tf. split; [reflexivity |]. split; [| exact Hend].
      split; [| lia]. destruct tf; [discriminate Tt | simpl; lia].
    + exfalso. unfold truthy_str in Tt. apply negb_false_iff, String.eqb_eq in Tt.
      rewrite Tt, string_app_nil_l in Hk. rewrite Hk, digits_value_zeros in Vf.
      injection Vf as Vf. lia.
Qed.

Lemma decimal_first_char_not_E c d :
  digit_value c = Some d -> d < 10 -> c <> "E"%char.
Proof.
  destruct c as [[] [] [] [] [] [] [] []]; vm_compute; intros H1 H2;
    try discriminate; try (intros H; discriminate H);
    injection H1 as <-; discriminate.
Qed.

Lemma Z_toString_first n :
  exists c s, Z_toString n = String c s /\ c <> "E"%char.
Proof.
  unfold Z_toString, Z_toString_radix. destruct (n <? 0) eqn:L.
  - exists "-"%char. eexists. split; [reflexivity | discriminate].
  - apply Z.ltb_ge in L.
    pose proof (natural_toString_value n L) as V.
    pose proof (natural_toString_nonempty 10 n) as Ne.
    destruct (natural_toString 10 n) as [| c s]; [congruence |].
    destruct (digits_value_first _ _ _ _ _ V) as [d [Hd [Hlt _]]].
    exists c, s. split; [reflexivity |]. exact (decimal_first_char_not_E c d Hd Hlt).
Qed.

(** The display of a balance is never the sentinel. *)
Lemma formatBalance_not_sentinel n d : formatBalance n d <> sentinel.
Proof.
  unfold formatBalance.
  destruct (Z_toString_first (Z.quot n d)) as (c & s & Heq & Hc). rewrite Heq.
  destruct (truthy_str _); [rewrite string_app_cons |]; unfold sentinel;
    intros H; injection H as H _; congruence.
Qed.

(** [BigInt] of a string returns or throws a [SyntaxError]. *)
Lemma BigInt_of_string_not_nullish s u : BigInt_of_string s <> ThrowNullish u.
Proof.
  unfold BigInt_of_string.
  assert (L : forall radix ds,
             (if String.eqb ds EmptyString then Throw (cannot_convert s)
              else match digits_value radix 0 ds with
                   | Some z => Return z
                   | None => Throw (cannot_convert s)
                   end) <> @ThrowNullish Z u).
  { intros radix ds. destruct (String.eqb ds EmptyString); [discriminate |].
    destruct (digits_value radix 0 ds); discriminate. }
  cbv zeta.
  destruct (trim s) as [| c r]; [discriminate |].
  assert (D : (let '(neg, ds) := take_sign (String c r) in
               match (if String.eqb ds EmptyString then Throw (cannot_convert s)
                      else match digits_value 10 0 ds with
                           | Some z => Return z
                           | None => Throw (cannot_convert s)
                           end) with
               | Return z => Return (if neg then - z else z)
               | Throw e => Throw e
               | ThrowNullish n => ThrowNullish n
               end) <> @ThrowNullish Z u).
  { destruct (take_sign (String c r)) as [neg ds].
    pose proof (L 10 ds) as H.
    destruct (if String.eqb ds EmptyString then _ else _); [discriminate | discriminate | exact H]. }
  destruct r as [| c' r'].
  - destruct c as [[] [] [] [] [] [] [] []]; exact D.
  - destruct (Ascii.eqb c "0") eqn:E0.
    + apply Ascii.eqb_eq in E0. subst c.
      destruct (Ascii.eqb c' "x" || Ascii.eqb c' "X")%bool; [apply L |].
      destruct (Ascii.eqb c' "o" || Ascii.eqb c' "O")%bool; [apply L |].
      destruct (Ascii.eqb c' "b" || Ascii.eqb c' "B")%bool; apply L.
    + revert E0 D. clear.
      destruct c as [[] [] [] [] [] [] [] []]; intros E0 D; try discriminate E0; exact D.
Qed.

(** The TypeError of a property read tells [null] from [undefined]. *)
Lemma cannot_read_inj u u' p : cannot_read u p = cannot_read u' p -> u = u'.
Proof.
  destruct u, u'; intros H; try reflexivity; vm_compute in H; discriminate H.
Qed.

(** X15. The outcome of the Tron balance query, in full. When every step
    succeeds (contract lookup, balanceOf present, its call, the conversion
    of the raw balance) it returns the formatted balance, which is never
    the text "Error". When the contract lookup or the balanceOf call is
    rejected with null or undefined, and only then, the handler fails on
    [error.message] and the query throws that TypeError. In every other
    case, and only then, it returns "Error". *)
Theorem getTrc20Balance_sentinel_iff_failure cfg tronWebInstance address :
  let r := outcome (getTrc20Balance cfg tronWebInstance address) in
  let succeeds n :=
    exists tr tc m balanceOf text,
      getTrc20Contract cfg tronWebInstance = (tr, Return tc) /\
      methods tc = Some m /\ trc_balanceOf m = Some balanceOf /\
      balanceOf address = Return (Some text) /\ BigInt_of_string text = Return n in
  let rejected u :=
    (exists tr, getTrc20Contract cfg tronWebInstance = (tr, ThrowNullish u)) \/
    (exists tr tc m balanceOf,
        getTrc20Contract cfg tronWebInstance = (tr, Return tc) /\
        methods tc = Some m /\ trc_balanceOf m = Some balanceOf /\
        balanceOf address = ThrowNullish u) in
  (forall n, succeeds n ->
             r = Return (formatBalance n (10 ^ tokenDecimals)) /\ r <> Return sentinel) /\
  (forall u, r = Throw (cannot_read u "message") <-> rejected u) /\
  (r = Return sentinel <-> (~ exists n, succeeds n) /\ (~ exists u, rejected u)).
Proof.
  intros r succeeds rejected.
  assert (Hcases :
    (r = Return sentinel /\ (~ exists n, succeeds n) /\ (~ exists u, rejected u)) \/
    (exists n, succeeds n /\ r = Return (formatBalance n (10 ^ tokenDecimals))
               /\ ~ exists u, rejected u) \/
    (exists u, rejected u /\ r = Throw (cannot_read u "message")
               /\ (~ exists n, succeeds n) /\ forall u', rejected u' -> u' = u)).
  { subst r succeeds rejected. cbv beta. unfold getTrc20Balance.
    destruct tronWebInstance as [inst |].
    2: { left. split; [reflexivity |].
         split; [intros (n & tr & tc & m & f & text & H & _); discriminate H |].
         intros (u & [(tr & H) | (tr & tc & m & f & H & _)]); discriminate H. }
    destruct (getTrc20Contract cfg (Some inst)) as [tr [tc | t | u]] eqn:Hc; run.
    2: { left. split; [reflexivity |].
         split; [intros (n & tr' & tc & m & f & text & H & _); discriminate H |].
         intros (u & [(tr' & H) | (tr' & tc & m & f & H & _)]); discriminate H. }
    2: { right; right. exists u. split; [left; eauto |]. split; [reflexivity |].
         split; [intros (n & tr' & tc & m & f & text & H & _); discriminate H |].
         intros u' [(tr' & H) | (tr' & tc & m & f & H & _)]; congruence. }
    unfold methods_of. destruct (methods tc) as [m |] eqn:Hm; run.
    2: { left. split; [reflexivity |].
         split; [intros (n & tr' & tc' & m & f & text & H & H2 & _); congruence |].
         intros (u & [(tr' & H) | (tr' & tc' & m & f & H & H2 & _)]); congruence. }
    destruct (trc_balanceOf m) as [balanceOf |] eqn:Hb; run.
    2: { left. split; [reflexivity |].
         split; [intros (n & tr' & tc' & m' & f & text & H & H2 & H3 & _); congruence |].
         intros (u & [(tr' & H) | (tr' & tc' & m' & f & H & H2 & H3 & _)]); congruence. }
    destruct (balanceOf address) as [[text |] | t | u] eqn:Hcall; run.
    2, 3: left; (split; [reflexivity |]);
      (split; [intros (n & tr' & tc' & m' & f & text & H & H2 & H3 & H4 & _); congruence |]);
      intros (u & [(tr' & H) | (tr' & tc' & m' & f & H & H2 & H3 & H4)]); congruence.
    2: { right; right. exists u. split; [right; exists tr, tc, m, balanceOf; auto |].
         split; [reflexivity |].
         split; [intros (n & tr' & tc' & m' & f & text & H & H2 & H3 & H4 & _); congruence |].
         intros u' [(tr' & H) | (tr' & tc' & m' & f & H & H2 & H3 & H4)]; congruence. }
    destruct (BigInt_of_string text) as [n | t | u] eqn:Hn; run.
    - right; left. exists n. split; [exists tr, tc, m, balanceOf, text; auto |].
      split; [reflexivity |].
      intros (u & [(tr' & H) | (tr' & tc' & m' & f & H & H2 & H3 & H4)]); congruence.
    - left. split; [reflexivity |].
      split; [intros (n & tr' & tc' & m' & f & text' & H & H2 & H3 & H4 & H5); congruence |].
      intros (u & [(tr' & H) | (tr' & tc' & m' & f & H & H2 & H3 & H4)]); congruence.
    - exfalso. exact (BigInt_of_string_not_nullish _ _ Hn). }
  assert (Hdet : forall n n', succeeds n -> succeeds n' -> n = n').
  { subst succeeds. cbv beta.
    intros n n' (tr & tc & m & f & text & H1 & H2 & H3 & H4 & H5)
           (tr' & tc' & m' & f' & text' & G1 & G2 & G3 & G4 & G5). congruence. }
  split; [| split].
  - intros n Hn.
    destruct Hcases as [(_ & Hno & _) | [(n' & Hs & Hr & _) | (u & _ & _ & Hno & _)]].
    + exfalso. apply Hno. eauto.
    + rewrite (Hdet n n' Hn Hs), Hr. split; [reflexivity |].
      intros H. injection H as H. exact (formatBalance_not_sentinel _ _ H).
    + exfalso. apply Hno. eauto.
  - intros u. split.
    + intros Hr.
      destruct Hcases as [(Hs & _) | [(n' & _ & Hs & _) | (u' & Hrej & Hs & _)]];
        try congruence.
      assert (u' = u) as <-; [| exact Hrej].
      apply (cannot_read_inj u' u "message"). congruence.
    + intros Hrej.
      destruct Hcases as [(_ & _ & Hno) | [(n' & _ & _ & Hno) | (u' & _ & Hr & _ & Huniq)]].
      * exfalso. apply Hno. eauto.
      * exfalso. apply Hno. eauto.
      * now rewrite (Huniq u Hrej).
  - split.
    + intros Hr.
      destruct Hcases as [(_ & H1 & H2) | [(n' & _ & Hs & _) | (u' & _ & Hs & _)]].
      * auto.
      * rewrite Hs in Hr. injection Hr as Hr.
        exfalso. exact (formatBalance_not_sentinel _ _ Hr).
      * congruence.
    + intros [H1 H2].
      destruct Hcases as [(Hr & _) | [(n' & Hs & _) | (u' & Hrej & _)]].
      * exact Hr.
      * exfalso. apply H1. eauto.
      * exfalso. apply H2. eauto.
Qed.

(** X14. When the contract reports a non-negative balance [n] as its decimal
    text, the Tron balance query returns the display of [n], and that
    display denotes [n] again: nothing is lost between contract and
    screen. *)
Theorem getTrc20Balance_displays_balance_exactly
    cfg inst tr tc m balanceOf address n :
  getTrc20Contract cfg (Some inst) = (tr, Return tc) ->
  methods tc = Some m -> trc_balanceOf m = Some balanceOf ->
  balanceOf address = Return (Some (Z_toString n)) ->
  0 <= n ->
  outcome (getTrc20Balance cfg (Some inst) address)
  = Return (formatBalance n (10 ^ tokenDecimals)) /\
  spec_exactBaseUnits (formatBalance n (10 ^ tokenDecimals)) = Some n.
Proof.
  intros H1 H2 H3 H4 Hn. split; [| exact (formatBalance_exact n Hn)].
  unfold getTrc20Balance. rewrite H1. run. unfold methods_of. rewrite H2. run.
  rewrite H3. run. rewrite H4. run. rewrite BigInt_of_toString. run. reflexivity.
Qed.

(** ** Tron mint and burn *)

(** X12. The Tron mint and burn read only the numeric prefix of the amount:
    with text after a plain decimal that does not continue the number, they
    behave exactly as with the number alone. *)
Theorem tron_mint_burn_ignore_trailing_text
    cfg tronWebInstance recipient ip fp rest vi vf :
  ip <> EmptyString ->
  digits_value 10 0 ip = Some vi -> digits_value 10 0 fp = Some vf ->
  (ends_integer rest = true ->
   mintTrc20Tokens cfg tronWebInstance recipient (ip ++ rest)
   = mintTrc20Tokens cfg tronWebInstance recipient ip /\
   burnTrc20Tokens cfg tronWebInstance recipient (ip ++ rest)
   = burnTrc20Tokens cfg tronWebInstance recipient ip) /\
  (ends_fraction rest = true ->
   mintTrc20Tokens cfg tronWebInstance recipient (ip ++ "." ++ fp ++ rest)
   = mintTrc20Tokens cfg tronWebInstance recipient (ip ++ "." ++ fp) /\
   burnTrc20Tokens cfg tronWebInstance recipient (ip ++ "." ++ fp ++ rest)
   = burnTrc20Tokens cfg tronWebInstance recipient (ip ++ "." ++ fp)).
Proof.
  intros Hne Vi Vf.
  destruct (toRawAmount_ignores_trailing_text ip fp rest vi vf Hne Vi Vf) as [Hi Hf].
  split; intros Hrest; unfold mintTrc20Tokens, burnTrc20Tokens.
  - now rewrite (Hi Hrest).
  - now rewrite (Hf Hrest).
Qed.

Lemma toRawAmount_nan amount :
  parseFloat amount = S754_nan -> toRawAmount amount = Throw (not_an_integer "NaN").
Proof. intros H. unfold toRawAmount. now rewrite H. Qed.

Lemma calls_app a b : calls (a ++ b)%list = (calls a ++ calls b)%list.
Proof. apply List.filter_app. Qed.

(** Looking the contract up calls none of its methods. *)
Lemma getTrc20Contract_no_calls cfg tronWebInstance :
  calls (trace (getTrc20Contract cfg tronWebInstance)) = [].
Proof.
  unfold getTrc20Contract.
  destruct (tronWebInstance ?. contract) as [lookup |]; [| reflexivity].
  run. destruct (lookup (TRC20_ADDRESS_HEX cfg)) as [[c |] | t | u]; run; try reflexivity.
  destruct (methods c); reflexivity.
Qed.

(** X11. An amount with no numeric prefix (parseFloat gives NaN) makes the
    Tron mint and burn fail with the BigInt conversion error after the
    contract lookup and before any contract method is called. *)
Theorem tron_mint_burn_reject_non_numeric
    cfg inst tr tc recipient amount :
  has_address (Some inst) = true ->
  getTrc20Contract cfg (Some inst) = (tr, Return tc) ->
  parseFloat amount = S754_nan ->
  outcome (mintTrc20Tokens cfg (Some inst) recipient amount) = Throw nan_not_an_integer /\
  calls (trace (mintTrc20Tokens cfg (Some inst) recipient amount)) = [] /\
  outcome (burnTrc20Tokens cfg (Some inst) recipient amount) = Throw nan_not_an_integer /\
  calls (trace (burnTrc20Tokens cfg (Some inst) recipient amount)) = [].
Proof.
  intros Ha Hc Hn.
  pose proof (getTrc20Contract_no_calls cfg (Some inst)) as Hno.
  rewrite Hc in Hno. simpl in Hno.
  unfold mintTrc20Tokens, burnTrc20Tokens.
  rewrite Ha, Hc, (toRawAmount_nan amount Hn). run. simpl.
  rewrite !calls_app, Hno. auto.
Qed.

Lemma checked_txid_some txID id :
  checked_txid txID = Some id -> txID = TxIdString id /\ (60 <= String.length id)%nat.
Proof.
  destruct txID as [s | b]; simpl; [| discriminate].
  destruct (negb (truthy_str s) || Nat.ltb (String.length s) 60)%bool eqn:E; [discriminate |].
  intros H. injection H as <-. split; [reflexivity |].
  apply orb_false_iff in E. destruct E as [_ E]. apply Nat.ltb_ge in E. exact E.
Qed.

(** X8. A Tron mint or burn that returns has sent exactly one contract
    call, carrying the target and the converted amount with the fixed send
    options, and returns the transaction id the wallet gave, a string of at
    least 60 characters. *)
Theorem tron_mint_burn_success cfg tronWebInstance target amount id :
  (outcome (mintTrc20Tokens cfg tronWebInstance target amount) = Return id ->
   exists tr tc m mint raw,
     getTrc20Contract cfg tronWebInstance = (tr, Return tc) /\
     methods tc = Some m /\ trc_mint m = Some mint /\
     toRawAmount amount = Return raw /\
     mint target raw sendOptions = Return (TxIdString id) /\
     (60 <= String.length id)%nat /\
     calls (trace (mintTrc20Tokens cfg tronWebInstance target amount))
     = [ContractCall "TRC20" "mint" [target; raw]]) /\
  (outcome (burnTrc20Tokens cfg tronWebInstance target amount) = Return id ->
   exists tr tc m burn raw,
     getTrc20Contract cfg tronWebInstance = (tr, Return tc) /\
     methods tc = Some m /\ trc_burn m = Some burn /\
     toRawAmount amount = Return raw /\
     burn target raw sendOptions = Return (TxIdString id) /\
     (60 <= String.length id)%nat /\
     calls (trace (burnTrc20Tokens cfg tronWebInstance target amount))
     = [ContractCall "TRC20" "burn" [target; raw]]).
Proof.
  pose proof (getTrc20Contract_no_calls cfg tronWebInstance) as Hno.
  split; [unfold mintTrc20Tokens | unfold burnTrc20Tokens];
    (destruct (has_address tronWebInstance); [| simpl; discriminate]);
    cbn [negb];
    (destruct (getTrc20Contract cfg tronWebInstance) as [tr [tc | t | u]] eqn:Hc;
       run; [| simpl; discriminate | simpl; discriminate]);
    (destruct (toRawAmount amount) as [raw | t | u] eqn:Hr;
       run; [| simpl; discriminate | simpl; discriminate]);
    unfold methods_of;
    (destruct (methods tc) as [m |] eqn:Hm; run; [| simpl; discriminate]).
  - destruct (trc_mint m) as [f |] eqn:Hf; run; [| simpl; discriminate].
    destruct (f target raw sendOptions) as [txID | t | u] eqn:Hs;
      run; [| simpl; discriminate | simpl; discriminate].
    destruct (checked_txid txID) as [id' |] eqn:Hk; run; [| simpl; discriminate].
    simpl. intros H. injection H as ->.
    destruct (checked_txid_some _ _ Hk) as [-> Hlen].
    exists tr, tc, m, f, raw. repeat split; auto.
    simpl in Hno. rewrite !calls_app, Hno. reflexivity.
  - destruct (trc_burn m) as [f |] eqn:Hf; run; [| simpl; discriminate].
    destruct (f target raw sendOptions) as [txID | t | u] eqn:Hs;
      run; [| simpl; discriminate | simpl; discriminate].
    destruct (checked_txid txID) as [id' |] eqn:Hk; run; [| simpl; discriminate].
    simpl. intros H. injection H as ->.
    destruct (checked_txid_some _ _ Hk) as [-> Hlen].
    exists tr, tc, m, f, raw. repeat split; auto.
    simpl in Hno. rewrite !calls_app, Hno. reflexivity.
Qed.

(** X9. When the wallet answers a Tron mint or burn with something that is
    not a string of at least 60 characters, the operation throws the
    invalid-transaction-id error although the contract call has been
    sent. *)
Theorem tron_invalid_txid_after_send
    cfg inst tr tc m send_ target amount raw txID :
  has_address (Some inst) = true ->
  getTrc20Contract cfg (Some inst) = (tr, Return tc) ->
  methods tc = Some m ->
  toRawAmount amount = Return raw ->
  send_ target raw sendOptions = Return txID ->
  checked_txid txID = None ->
  (trc_mint m = Some send_ ->
   outcome (mintTrc20Tokens cfg (Some inst) target amount) = Throw invalid_txid /\
   calls (trace (mintTrc20Tokens cfg (Some inst) target amount))
   = [ContractCall "TRC20" "mint" [target; raw]]) /\
  (trc_burn m = Some send_ ->
   outcome (burnTrc20Tokens cfg (Some inst) target amount) = Throw invalid_txid /\
   calls (trace (burnTrc20Tokens cfg (Some inst) target amount))
   = [ContractCall "TRC20" "burn" [target; raw]]).
Proof.
  intros Ha Hc Hm Hr Hs Hk.
  pose proof (getTrc20Contract_no_calls cfg (Some inst)) as Hno.
  rewrite Hc in Hno. simpl in Hno.
  split; intros Hf; unfold mintTrc20Tokens, burnTrc20Tokens, methods_of;
    rewrite Ha, Hc, Hr; run; rewrite Hm; run; rewrite Hf; run; rewrite Hs; run;
    rewrite Hk; run; simpl; rewrite !calls_app, Hno; split; reflexivity.
Qed.


Lemma evm_error_message_truthy error fallback :
  truthy_str fallback = true -> truthy_str (evm_error_message error fallback) = true.
Proof.
  intros Hf. unfold evm_error_message.
  assert (H : forall o b, truthy_str b = true -> truthy_str (or_default o b) = true).
  { intros [s |] b Hb; simpl; [| exact Hb]. destruct (truthy_str s) eqn:E; [exact E | exact Hb]. }
  apply H. apply H. exact Hf.
Qed.



(** ** EVM mint and burn *)

(** X7. An EVM mint or burn calls a contract method at most once, and only
    with the amount [parseEther] produced; when the amount does not parse,
    nothing is called and the error carries the parser's message. *)
Theorem evm_mint_burn_calls
    cfg Runner (new_Contract : string -> Runner -> Outcome EvmContract)
    (parseEther : string -> Outcome Z) (signer : option Runner) target amount :
  let mint := mintBep20Tokens cfg Runner new_Contract parseEther signer target amount in
  let burn := burnBep20Tokens cfg Runner new_Contract parseEther signer target amount in
  (calls (trace mint) = [] \/
   exists wei, parseEther amount = Return wei /\
               calls (trace mint) = [ContractCall "BEP20" "mint" [target; Z_toString wei]]) /\
  (calls (trace burn) = [] \/
   exists wei, parseEther amount = Return wei /\
               calls (trace burn) = [ContractCall "BEP20" "burnFrom" [target; Z_toString wei]]) /\
  (forall r c t, signer = Some r -> new_Contract (BEP20_ADDRESS cfg) r = Return c ->
                 parseEther amount = Throw t ->
                 outcome mint = Throw (new_Error (evm_error_message t "BEP-20 minting failed")) /\
                 outcome burn = Throw (new_Error (evm_error_message t "BEP-20 burning failed"))).
Proof.
  intros mint burn. subst mint burn. unfold mintBep20Tokens, burnBep20Tokens, getBep20Contract.
  destruct signer as [r |].
  2: { split; [left; reflexivity |]. split; [left; reflexivity |]. intros; discriminate. }
  run. destruct (new_Contract (BEP20_ADDRESS cfg) r) as [c | t0 | u0] eqn:Hc; run.
  2, 3: split; [left; reflexivity |]; split; [left; reflexivity |];
    intros r0 c0 t H; injection H as <-; congruence.
  destruct (parseEther amount) as [wei | t1 | u1] eqn:Hp; run.
  - split; [| split; [| intros; discriminate]].
    + unfold invoke. destruct (evm_mint c) as [f |]; cbn [option_map]; run;
        [| left; reflexivity].
      right. exists wei. split; [reflexivity |].
      destruct (f target wei); reflexivity.
    + destruct (evm_burnFrom c) as [f |]; run; [| left; reflexivity].
      right. exists wei. split; [reflexivity |].
      destruct (f target wei); reflexivity.
  - split; [left; reflexivity |]. split; [left; reflexivity |].
    intros r0 c0 t _ _ H. injection H as <-. split; reflexivity.
  - split; [left; reflexivity |]. split; [left; reflexivity |].
    intros; discriminate.
Qed.

(** ** Network switch, all paths *)

(** X20. A network switch makes no wallet request, or the switch request
    alone, or the switch request followed by one add-chain request; the
    add-chain request is made only for BSC_CHAIN_ID and carries the BNB
    Smart Chain parameters with the configured RPC URL. *)
Theorem requestNetworkSwitch_requests cfg BSC_CHAIN_ID provider_ chainId :
  let rq := requests (trace (requestNetworkSwitch cfg BSC_CHAIN_ID provider_ chainId)) in
  rq = [] \/
  (exists hex, rq = [switch_request hex]) \/
  (exists hex, chainId = BSC_CHAIN_ID /\ rq = [switch_request hex; add_request cfg hex]).
Proof.
  intros rq. subst rq. unfold requestNetworkSwitch.
  destruct (provider_ ?. send) as [send_ |]; [| left; reflexivity].
  destruct (BigInt_of_id chainId) as [n | t | u]; run;
    [| left; reflexivity | left; reflexivity].
  set (hex := "0x" ++ Z_toString16 n).
  destruct (send_ "wallet_switchEthereumChain" (SwitchChain hex)) as [[] | e | u]; run.
  - right; left. exists hex. reflexivity.
  - destruct (is_4902 (thrown_code e)); run.
    + destruct (strict_eq chainId BSC_CHAIN_ID) eqn:E; run.
      * apply strict_eq_spec in E. right; right. exists hex. split; [exact E |].
        destruct (send_ "wallet_addEthereumChain" (bscChainParams cfg hex))
          as [[] | e' | u']; reflexivity.
      * right; left. exists hex. reflexivity.
    + right; left. exists hex. reflexivity.
  - right; left. exists hex. reflexivity.
Qed.


(** ** EVM network check *)

Lemma checkBscNetwork_outcome BSC_CHAIN_ID Signer (provider_ : option (RpcProvider Signer)) :
  outcome (checkBscNetwork BSC_CHAIN_ID Signer provider_) =
  Return match provider_ with
         | Some p =>
             match getNetwork Signer p, BigInt_of_id BSC_CHAIN_ID with
             | Return network, Return expected => network_chainId network =? expected
             | _, _ => false
             end
         | None => false
         end.
Proof.
  unfold checkBscNetwork. destruct provider_ as [p |]; [| reflexivity].
  destruct (getNetwork Signer p) as [network | t | u]; run; [| reflexivity | reflexivity].
  destruct (BigInt_of_id BSC_CHAIN_ID) as [expected | t | u]; reflexivity.
Qed.

(** X18. The EVM network check never throws, and answers true exactly when
    the provider is present, reports a network, BSC_CHAIN_ID converts to a
    BigInt, and the two chain ids are equal. *)
Theorem checkBscNetwork_true_iff BSC_CHAIN_ID Signer (provider_ : option (RpcProvider Signer)) :
  (exists b, outcome (checkBscNetwork BSC_CHAIN_ID Signer provider_) = Return b) /\
  (outcome (checkBscNetwork BSC_CHAIN_ID Signer provider_) = Return true <->
   exists p network,
     provider_ = Some p /\ getNetwork Signer p = Return network /\
     BigInt_of_id BSC_CHAIN_ID = Return (network_chainId network)).
Proof.
  rewrite checkBscNetwork_outcome. split; [eauto |].
  destruct provider_ as [p |].
  2: { split; [discriminate | intros (p & net & H & _); discriminate]. }
  destruct (getNetwork Signer p) as [network | t | u] eqn:Hnet.
  2, 3: split; [discriminate | intros (p' & net & H1 & H2 & _)]; congruence.
  destruct (BigInt_of_id BSC_CHAIN_ID) as [expected | t | u] eqn:Hid.
  2, 3: split; [discriminate | intros (p' & net & _ & _ & H)]; discriminate.
  split.
  - intros H. injection H as H. apply Z.eqb_eq in H. exists p, network.
    repeat split; congruence.
  - intros (p' & net & H1 & H2 & H3).
    assert (net = network) by congruence. subst net.
    assert (expected = network_chainId network) by congruence. subst expected.
    now rewrite Z.eqb_refl.
Qed.

(** X22. Switching and checking agree on the chain: the hex chain id that a
    switch to BSC_CHAIN_ID sends to the wallet denotes the integer [n] that
    BSC_CHAIN_ID converts to, and the network check answers true exactly for
    a network whose chain id is [n]. *)
Theorem switch_request_matches_network_check
    cfg BSC_CHAIN_ID p send_ n Signer (rp : RpcProvider Signer) network :
  send p = Some send_ ->
  BigInt_of_id BSC_CHAIN_ID = Return n -> 0 <= n ->
  getNetwork Signer rp = Return network ->
  (exists hex rest,
      requests (trace (requestNetworkSwitch cfg BSC_CHAIN_ID (Some p) BSC_CHAIN_ID))
      = switch_request hex :: rest /\
      BigInt_of_string hex = Return n) /\
  (outcome (checkBscNetwork BSC_CHAIN_ID Signer (Some rp)) = Return true <->
   network_chainId network = n).
Proof.
  intros Hsend Hid Hn Hnet. split.
  - exists ("0x" ++ Z_toString16 n).
    unfold requestNetworkSwitch. simpl chain. rewrite Hsend, Hid. run.
    destruct (send_ "wallet_switchEthereumChain" _) as [[] | e | u]; run.
    + exists []. split; [reflexivity | exact (BigInt_of_hex_toString16 n Hn)].
    + destruct (is_4902 (thrown_code e)); run.
      * rewrite (proj2 (strict_eq_spec _ _) eq_refl). run.
        eexists. split; [| exact (BigInt_of_hex_toString16 n Hn)].
        destruct (send_ "wallet_addEthereumChain" _) as [[] | e' | u']; reflexivity.
      * exists []. split; [reflexivity | exact (BigInt_of_hex_toString16 n Hn)].
    + exists []. split; [reflexivity | exact (BigInt_of_hex_toString16 n Hn)].
  - rewrite checkBscNetwork_outcome, Hnet, Hid. split.
    + intros H. injection H as H. now apply Z.eqb_eq.
    + intros ->. now rewrite Z.eqb_refl.
Qed.

(** ** Provider and signer getters *)

(** X5. getEthersSigner never throws; it yields a signer exactly when a
    provider is given and its getSigner() resolves, and null otherwise. *)
Theorem getEthersSigner_result Signer (provider_ : option (RpcProvider Signer)) :
  (exists o, outcome (getEthersSigner Signer provider_) = Return o) /\
  (forall s, outcome (getEthersSigner Signer provider_) = Return (Some s) <->
             exists p, provider_ = Some p /\ getSigner Signer p = Return s).
Proof.
  unfold getEthersSigner. destruct provider_ as [p |].
  - destruct (getSigner Signer p) as [s0 | t | u] eqn:Hs; run; simpl.
    + split; [eauto |]. intros s. split.
      * intros H. injection H as <-. eauto.
      * intros (p' & H1 & H2). injection H1 as <-. congruence.
    + split; [eauto |]. intros s. split; [discriminate |].
      intros (p' & H1 & H2). injection H1 as <-. congruence.
    + split; [eauto |]. intros s. split; [discriminate |].
      intros (p' & H1 & H2). injection H1 as <-. congruence.
  - simpl. split; [eauto |]. intros s. split; [discriminate |].
    intros (p' & H1 & _). discriminate.
Qed.

(** X4. getEthersProvider yields nothing, silently, outside a browser; in a
    browser an external provider takes precedence over window.ethereum, and
    the result is null exactly when neither is there. *)
Theorem getEthersProvider_source
    Source Handle (new_BrowserProvider : Source -> Outcome Handle)
    (w : Window Source) (externalProvider : option Source) :
  getEthersProvider Source Handle new_BrowserProvider None externalProvider
  = ([], Return None) /\
  (forall e, externalProvider = Some e ->
             getEthersProvider Source Handle new_BrowserProvider (Some w) externalProvider
             = (p ← lift (new_BrowserProvider e); mret (Some p))) /\
  (outcome (getEthersProvider Source Handle new_BrowserProvider (Some w) externalProvider)
   = Return None <->
   externalProvider = None /\ ethereum Source w = None).
Proof.
  split; [reflexivity |]. split.
  - intros e ->. reflexivity.
  - unfold getEthersProvider.
    destruct externalProvider as [e |]; [| destruct (ethereum Source w) as [e |]]; cbv zeta.
    + destruct (new_BrowserProvider e); simpl; split;
        try discriminate; intros [H _]; discriminate.
    + destruct (new_BrowserProvider e); simpl; split;
        try discriminate; intros [_ H]; discriminate.
    + simpl. split; auto.
Qed.

(** X6. getTronLinkProvider never throws. It returns the injected object
    exactly when it exists, is ready, has a request method and carries a
    tronWeb instance; every other state in a browser gives null with one
    console message, and outside a browser null with none. *)
Theorem getTronLinkProvider_result Source (window : option (Window Source)) :
  let r := getTronLinkProvider Source window in
  (exists o, outcome r = Return o) /\
  (forall tl, outcome r = Return (Some tl) <->
              exists w, window = Some w /\ tronLink Source w = Some tl /\
                        ready tl = true /\ request tl <> None /\ tronWeb tl <> None) /\
  (outcome r = Return None ->
   match window with
   | None => trace r = []
   | Some _ => exists lvl msg, trace r = [Console lvl msg]
   end) /\
  (forall tl, outcome r = Return (Some tl) -> trace r = []).
Proof.
  intros r. subst r. unfold getTronLinkProvider.
  destruct window as [w |].
  2: { simpl. split; [eauto |]. split; [| split; [auto | discriminate]].
       intros tl. split; [discriminate | intros (w & H & _); discriminate]. }
  destruct (tronLink Source w) as [tl0 |] eqn:Ht.
  2: { simpl. split; [eauto |]. split; [| split; [eauto | discriminate]].
       intros tl. split; [discriminate | intros (w' & H1 & H2 & _)].
       injection H1 as <-. congruence. }
  destruct (ready tl0) eqn:Hr; cbn [negb].
  2: { simpl. split; [eauto |]. split; [| split; [eauto | discriminate]].
       intros tl. split; [discriminate | intros (w' & H1 & H2 & H3 & _)].
       injection H1 as <-. congruence. }
  destruct (request tl0) as [rq |] eqn:Hq.
  2: { simpl. split; [eauto |]. split; [| split; [eauto | discriminate]].
       intros tl. split; [discriminate | intros (w' & H1 & H2 & H3 & H4 & _)].
       injection H1 as <-. congruence. }
  destruct (tronWeb tl0) as [tw |] eqn:Hw.
  2: { simpl. split; [eauto |]. split; [| split; [eauto | discriminate]].
       intros tl. split; [discriminate | intros (w' & H1 & H2 & H3 & H4 & H5)].
       injection H1 as <-. congruence. }
  simpl. split; [eauto |]. split; [| split; [discriminate | reflexivity]].
  intros tl. split.
  - intros H. injection H as <-. exists w. repeat split; congruence.
  - intros (w' & H1 & H2 & _). injection H1 as <-. congruence.
Qed.

(** ** Module initialization, the successful runs *)

(** X1. Every configuration that initialization returns is well formed: its
    four required values are non-empty, three of them are the values of the
    environment, the hex address is what toHex gives for the base58
    address, the RPC URL is the environment's when that is non-empty and
    the built-in host otherwise, and nothing is logged. *)
Theorem initialize_config_well_formed address_toHex (env : gmap string string) c :
  outcome (initialize address_toHex env) = Return c ->
  trace (initialize address_toHex env) = [] /\
  truthy_str (NEXT_PUBLIC_BSC_RPC_URL c) = true /\
  NEXT_PUBLIC_BSC_RPC_URL c
  = or_default (env !! "NEXT_PUBLIC_BSC_RPC_URL") "bsc-testnet-rpc.publicnode.com" /\
  env !! "NEXT_PUBLIC_BEP20_CONTRACT_ADDRESS" = Some (BEP20_ADDRESS c) /\
  truthy_str (BEP20_ADDRESS c) = true /\
  env !! "NEXT_PUBLIC_TRON_RPC_URL" = Some (NEXT_PUBLIC_TRON_RPC_URL c) /\
  truthy_str (NEXT_PUBLIC_TRON_RPC_URL c) = true /\
  env !! "NEXT_PUBLIC_TRC20_CONTRACT_ADDRESS" = Some (TRC20_ADDRESS_BASE58 c) /\
  truthy_str (TRC20_ADDRESS_BASE58 c) = true /\
  address_toHex (TRC20_ADDRESS_BASE58 c) = Return (TRC20_ADDRESS_HEX c) /\
  NEXT_PUBLIC_TRONGRID_API_KEY c = env !! "NEXT_PUBLIC_TRONGRID_API_KEY".
Proof.
  unfold initialize. cbv zeta.
  pose proof (bsc_rpc_default_truthy (env !! "NEXT_PUBLIC_BSC_RPC_URL")) as Hb.
  rewrite (require_env_some _ _ Hb). run.
  destruct (env !! "NEXT_PUBLIC_BEP20_CONTRACT_ADDRESS") as [s1 |]; simpl; [| discriminate].
  destruct (truthy_str s1) eqn:T1; simpl; [| discriminate].
  destruct (env !! "NEXT_PUBLIC_TRON_RPC_URL") as [s2 |]; simpl; [| discriminate].
  destruct (truthy_str s2) eqn:T2; simpl; [| discriminate].
  destruct (env !! "NEXT_PUBLIC_TRC20_CONTRACT_ADDRESS") as [s3 |]; simpl; [| discriminate].
  destruct (truthy_str s3) eqn:T3; simpl; [| discriminate].
  destruct (address_toHex s3) as [h | |] eqn:Hx; simpl; [| discriminate | discriminate].
  intros H. injection H as <-. simpl. repeat split; auto.
Qed.

(** ** The component's effect and connect handler *)

Section ComponentFacts.
Import WalletConnectButton.
Variables BSC_CHAIN_ID ACTIVE_TRON_CHAIN_ID : ChainNetworkId.
Variable ProviderHandle : Type.
Variable truncateAddress : string -> string.

Lemma reportConnection_one_callback a (p : ProviderHandle) id sel :
  exists c w,
    host_callbacks (trace (reportConnection BSC_CHAIN_ID ACTIVE_TRON_CHAIN_ID
                             ProviderHandle a p id sel))
    = [OnConnected a p c w].
Proof.
  destruct (reportConnection_cases BSC_CHAIN_ID ACTIVE_TRON_CHAIN_ID ProviderHandle a p id sel)
    as [[_ ->] | [[_ [_ ->]] | [_ [_ ->]]]]; simpl; eauto.
Qed.
End ComponentFacts.

(** X23. One run of the connection effect never throws and calls the host
    page at most once. It calls onDisconnected exactly when the wallet is
    neither connected nor loading, and onConnected exactly when the wallet
    is connected with a non-empty account, a provider and a truthy chain
    id; onConnected then carries that account and that provider. *)
Theorem connectionEffect_callbacks
    (BSC_CHAIN_ID ACTIVE_TRON_CHAIN_ID : ChainNetworkId) (ProviderHandle : Type)
    (h : WalletConnectButton.HookState ProviderHandle) (sel : Chain) :
  let r := WalletConnectButton.connectionEffect BSC_CHAIN_ID ACTIVE_TRON_CHAIN_ID
             ProviderHandle h sel in
  let connected :=
    WalletConnectButton.isConnected ProviderHandle h = true /\
    exists a p id,
      WalletConnectButton.account ProviderHandle h = Some a /\ truthy_str a = true /\
      WalletConnectButton.provider ProviderHandle h = Some p /\
      WalletConnectButton.chainId ProviderHandle h = Some id /\ truthy_id id = true in
  outcome r = Return tt /\
  (host_callbacks (trace r) = [] \/
   host_callbacks (trace r) = [WalletConnectButton.OnDisconnected] \/
   exists a p c w,
     host_callbacks (trace r) = [WalletConnectButton.OnConnected a p c w] /\
     WalletConnectButton.account ProviderHandle h = Some a /\
     WalletConnectButton.provider ProviderHandle h = Some p) /\
  (host_callbacks (trace r) = [WalletConnectButton.OnDisconnected] <->
   WalletConnectButton.isConnected ProviderHandle h = false /\
   WalletConnectButton.isLoading ProviderHandle h = false) /\
  ((exists a p c w, host_callbacks (trace r) = [WalletConnectButton.OnConnected a p c w])
   <-> connected).
Proof.
  intros r connected. subst r connected.
  destruct h as [conn acct prov cid loading].
  unfold WalletConnectButton.connectionEffect. simpl.
  destruct conn.
  - destruct acct as [a |], prov as [p |], cid as [id |];
      try (simpl; split; [reflexivity |]; split; [left; reflexivity |];
           split; [split; [discriminate | intros [H _]; discriminate] |];
           split; [intros (? & ? & ? & ? & H); discriminate
                  | intros [_ (? & ? & ? & H1 & H2 & H3 & H4 & H5)]; discriminate]).
    destruct (truthy_str a) eqn:Ta; destruct (truthy_id id) eqn:Ti; simpl andb; cbv iota;
      try (simpl; split; [reflexivity |]; split; [left; reflexivity |];
           split; [split; [discriminate | intros [H _]; discriminate] |];
           split; [intros (? & ? & ? & ? & H); discriminate
                  | intros [_ (a' & p' & id' & H1 & H2 & H3 & H4 & H5)];
                    injection H1 as <-; injection H4 as <-; congruence]).
    destruct (reportConnection_one_callback BSC_CHAIN_ID ACTIVE_TRON_CHAIN_ID ProviderHandle
                a p id sel) as [c [w Hcb]].
    split.
    { destruct (reportConnection_cases BSC_CHAIN_ID ACTIVE_TRON_CHAIN_ID ProviderHandle
                  a p id sel) as [[_ ->] | [[_ [_ ->]] | [_ [_ ->]]]]; reflexivity. }
    rewrite Hcb. split; [right; right; exists a, p, c, w; auto |].
    split; [split; [discriminate | intros [H _]; discriminate] |].
    split; [intros _; split; [reflexivity | exists a, p, id; auto] | intros _; eauto].
  - destruct loading; simpl.
    + split; [reflexivity |]. split; [left; reflexivity |].
      split; [split; [discriminate | intros [_ H]; discriminate] |].
      split; [intros (? & ? & ? & ? & H); discriminate | intros [H _]; discriminate].
    + split; [reflexivity |]. split; [right; left; reflexivity |].
      split; [split; auto |].
      split; [intros (? & ? & ? & ? & H); discriminate | intros [H _]; discriminate].
Qed.

(** X24. The connect handler always settles, and always clears
    isConnecting once it has set it. With an address already connected it
    only clears the address and calls onDisconnected. Otherwise it sets
    isConnecting first and clears it last. When the account request is
    rejected with null or undefined, the handler's own catch block fails on
    [error.message]: the error is logged, no notification is shown, and
    the handler throws that TypeError. In every other case, and only then,
    the handler completes, having shown exactly one notification when no
    address was connected. *)
Theorem handleConnect_always_settles
    (ProviderHandle : Type) (truncateAddress : string -> string)
    (connectedAddress : option string)
    (ethereum : option (WalletConnectButton.Ethereum ProviderHandle)) (sel : Chain) :
  let r := WalletConnectButton.handleConnect ProviderHandle truncateAddress
             connectedAddress ethereum sel in
  let rejected u :=
    truthy_ostr connectedAddress = false /\
    exists handle, ethereum = Some (handle, ThrowNullish u) in
  (forall u, rejected u ->
             r = ([WalletConnectButton.SetIsConnecting true;
                   WalletConnectButton.ConsoleError "Error connecting wallet:";
                   WalletConnectButton.SetIsConnecting false],
                  Throw (cannot_read u "message"))) /\
  (outcome r = Return tt <-> ~ exists u, rejected u) /\
  (truthy_ostr connectedAddress = true ->
   trace r = [WalletConnectButton.SetConnectedAddress None;
              WalletConnectButton.OnDisconnected]) /\
  (truthy_ostr connectedAddress = false ->
   exists mid,
     trace r = (WalletConnectButton.SetIsConnecting true :: mid
                ++ [WalletConnectButton.SetIsConnecting false])%list /\
     (forall b, ~ In (WalletConnectButton.SetIsConnecting b) mid) /\
     ((~ exists u, rejected u) -> length (toasts mid) = 1%nat)).
Proof.
  intros r rejected. subst r rejected. cbv beta.
  unfold WalletConnectButton.handleConnect.
  destruct (truthy_ostr connectedAddress).
  - simpl. split; [intros u [H _]; discriminate H |].
    split; [split; [intros _ (u & H & _); discriminate H | reflexivity] |].
    split; [reflexivity | discriminate].
  - assert (Hno : forall (b : bool) (l : list (WalletConnectButton.UiEvent ProviderHandle)),
               forallb (fun e => match e with
                                 | WalletConnectButton.SetIsConnecting _ => false
                                 | _ => true
                                 end) l = true ->
               ~ In (WalletConnectButton.SetIsConnecting b) l).
    { intros b l Hl Hin. rewrite forallb_forall in Hl. specialize (Hl _ Hin). discriminate. }
    destruct ethereum as [[handle [accounts | t | u]] |]; simpl.
    + split; [intros u (_ & h & H); discriminate H |].
      destruct accounts as [| address rest]; simpl;
        (split; [split; [intros _ (u & _ & h & H); discriminate H | reflexivity] |]);
        (split; [discriminate |]); intros _;
        match goal with |- exists mid, _ :: ?l = _ /\ _ => exists (removelast l) end;
        (split; [reflexivity |]); (split; [intros b; apply Hno; reflexivity |]);
        reflexivity.
    + split; [intros u (_ & h & H); discriminate H |].
      split; [split; [intros _ (u & _ & h & H); discriminate H | reflexivity] |].
      split; [discriminate |]. intros _.
      match goal with |- exists mid, _ :: ?l = _ /\ _ => exists (removelast l) end.
      split; [reflexivity |]. split; [intros b; apply Hno; reflexivity |]. reflexivity.
    + split; [intros u' (_ & h & H); injection H as _ <-; reflexivity |].
      split; [split; [discriminate | intros H; exfalso; apply H; eauto] |].
      split; [discriminate |]. intros _.
      match goal with |- exists mid, _ :: ?l = _ /\ _ => exists (removelast l) end.
      split; [reflexivity |]. split; [intros b; apply Hno; reflexivity |].
      intros H. exfalso. apply H. eauto.
    + split; [intros u (_ & h & H); discriminate H |].
      split; [split; [intros _ (u & _ & h & H); discriminate H | reflexivity] |].
      split; [discriminate |]. intros _.
      match goal with |- exists mid, _ :: ?l = _ /\ _ => exists (removelast l) end.
      split; [reflexivity |]. split; [intros b; apply Hno; reflexivity |]. reflexivity.
Qed.

(** X25. The connect handler calls onConnected exactly when no address is
    connected yet, window.ethereum exists and the account request resolves
    to a non-empty list; it then records and reports the first account,
    with the window.ethereum handle. *)
Theorem handleConnect_reports_first_account
    (ProviderHandle : Type) (truncateAddress : string -> string)
    (connectedAddress : option string)
    (ethereum : option (WalletConnectButton.Ethereum ProviderHandle)) (sel : Chain) :
  let r := WalletConnectButton.handleConnect ProviderHandle truncateAddress
             connectedAddress ethereum sel in
  (host_callbacks (trace r) <> [] /\ truthy_ostr connectedAddress = false <->
   exists handle address rest,
     truthy_ostr connectedAddress = false /\
     ethereum = Some (handle, Return (address :: rest))) /\
  (forall handle address rest,
      truthy_ostr connectedAddress = false ->
      ethereum = Some (handle, Return (address :: rest)) ->
      host_callbacks (trace r) = [WalletConnectButton.OnConnected address handle sel false] /\
      In (WalletConnectButton.SetConnectedAddress (Some address)) (trace r)).
Proof.
  intros r. subst r. unfold WalletConnectButton.handleConnect.
  destruct (truthy_ostr connectedAddress).
  - split.
    + split; [intros [_ H]; discriminate | intros (? & ? & ? & H & _); discriminate].
    + intros; discriminate.
  - destruct ethereum as [[handle [accounts | t | u]] |]; simpl.
    + destruct accounts as [| address rest]; simpl.
      * split; [split; [intros [H _]; congruence
                       | intros (? & ? & ? & _ & H); discriminate] |].
        intros; discriminate.
      * split; [split; [intros _; eauto | intros _; split; [discriminate | reflexivity]] |].
        intros h0 a0 r0 _ H. injection H as <- <- <-. split; [reflexivity | auto].
    + split; [split; [intros [H _]; congruence
                     | intros (? & ? & ? & _ & H); discriminate] |].
      intros; discriminate.
    + split; [split; [intros [H _]; congruence
                     | intros (? & ? & ? & _ & H); discriminate] |].
      intros; discriminate.
    + split; [split; [intros [H _]; congruence
                     | intros (? & ? & ? & _ & H); discriminate] |].
      intros; discriminate.
Qed.

(** ** Tron network check: what surrounds a known host name *)

Lemma toLowerCase_ascii c r :
  is_ascii c = true -> toLowerCase (String c r) = String (lower_ascii c) (toLowerCase r).
Proof.
  destruct c as [[] [] [] [] [] [] [] []]; intros H;
    try (vm_compute in H; discriminate H); reflexivity.
Qed.

Lemma lower_ascii_is_ascii c : is_ascii (lower_ascii c) = is_ascii c.
Proof. destruct c as [[] [] [] [] [] [] [] []]; reflexivity. Qed.

Lemma is_ascii_not_trail c : is_ascii c = true -> is_trail_byte c = false.
Proof.
  destruct c as [[] [] [] [] [] [] [] []]; intros H;
    try (vm_compute in H; discriminate H); reflexivity.
Qed.

Lemma toLowerCase_step c r :
  toLowerCase (String c r) = String (lower_ascii c) (toLowerCase r) \/
  (exists r2, c = "226"%char /\ r = String "132" (String "170" r2)) \/
  (exists r1, c = "196"%char /\ r = String "176" r1).
Proof.
  destruct c as [[] [] [] [] [] [] [] []]; try (left; reflexivity);
    (destruct r as [| c1 r1]; [left; reflexivity |]);
    destruct c1 as [[] [] [] [] [] [] [] []]; try (left; reflexivity);
    try (right; right; eexists; split; reflexivity);
    (destruct r1 as [| c2 r2]; [left; reflexivity |]);
    destruct c2 as [[] [] [] [] [] [] [] []]; try (left; reflexivity);
    right; left; eexists; split; reflexivity.
Qed.

Lemma prefix_nil s : String.prefix EmptyString s = true.
Proof. destruct s; reflexivity. Qed.

Lemma prefix_cons n name c s :
  String.prefix (String n name) (String c s) = true <-> n = c /\ String.prefix name s = true.
Proof.
  cbn [String.prefix]. destruct (ascii_dec n c) as [E | E]; split.
  - auto.
  - intros [_ H]. exact H.
  - discriminate.
  - intros [H _]. congruence.
Qed.

Lemma includes_prefix hay needle : String.prefix needle hay = true -> includes hay needle = true.
Proof. intros H. destruct hay; cbn [includes]; rewrite H; reflexivity. Qed.

Lemma includes_cons_iff c hay needle :
  includes (String c hay) needle = true <->
  String.prefix needle (String c hay) = true \/ includes hay needle = true.
Proof. cbn [includes]. apply orb_true_iff. Qed.

Lemma includes_app_l pre hay needle :
  includes hay needle = true -> includes (pre ++ hay) needle = true.
Proof.
  intros H. induction pre as [| x pre IH]; [exact H |].
  rewrite string_app_cons. cbn [includes]. rewrite IH. apply orb_true_r.
Qed.

(** Lower-casing a text leaves the lower case of what follows a character
    boundary in it as it is. *)
Lemma toLowerCase_suffix a s :
  at_character s = true -> exists u, toLowerCase (a ++ s) = u ++ toLowerCase s.
Proof.
  intros Hs.
  assert (H : forall n a, (String.length a <= n)%nat ->
                          exists u, toLowerCase (a ++ s) = u ++ toLowerCase s).
  { induction n as [| n IH]; intros b Hb.
    - destruct b; [| simpl in Hb; lia]. exists EmptyString. reflexivity.
    - destruct b as [| c b]; [exists EmptyString; reflexivity |].
      rewrite string_app_cons.
      destruct (toLowerCase_step c (b ++ s)) as [E | [(r2 & -> & E) | (r1 & -> & E)]].
      + destruct (IH b ltac:(simpl in Hb; lia)) as [u Hu].
        exists (String (lower_ascii c) u). now rewrite E, Hu.
      + destruct b as [| x b].
        { rewrite string_app_nil_l in E. subst s. discriminate Hs. }
        destruct b as [| y b].
        { rewrite string_app_cons, string_app_nil_l in E. injection E as -> ->.
          discriminate Hs. }
        rewrite !string_app_cons in E. injection E as -> -> <-.
        destruct (IH b ltac:(simpl in Hb; lia)) as [u Hu].
        exists (String "k" u). rewrite !string_app_cons.
        change (toLowerCase (String "226" (String "132" (String "170" (b ++ s)))))
          with (String "k" (toLowerCase (b ++ s))).
        now rewrite Hu.
      + destruct b as [| x b].
        { rewrite string_app_nil_l in E. subst s. discriminate Hs. }
        rewrite !string_app_cons in E. injection E as -> <-.
        destruct (IH b ltac:(simpl in Hb; lia)) as [u Hu].
        exists (String "i" (String "204" (String "135" u))). rewrite !string_app_cons.
        change (toLowerCase (String "196" (String "176" (b ++ s))))
          with (String "i" (String "204" (String "135" (toLowerCase (b ++ s))))).
        now rewrite Hu. }
  exact (H (String.length a) a (le_n _)).
Qed.

(** An ASCII name found in a lower-cased text starts at a character of the
    text. *)
Lemma includes_toLowerCase_at n name s :
  is_ascii n = true ->
  includes (toLowerCase s) (String n name) = true ->
  exists a s', s = a ++ s' /\ at_character s' = true /\ s' <> EmptyString /\
               String.prefix (String n name) (toLowerCase s') = true.
Proof.
  intros Hn.
  assert (H : forall k s, (String.length s <= k)%nat ->
                          includes (toLowerCase s) (String n name) = true ->
                          exists a s', s = a ++ s' /\ at_character s' = true /\
                                       s' <> EmptyString /\
                                       String.prefix (String n name) (toLowerCase s') = true).
  { induction k as [| k IH]; intros t Ht Hi.
    - destruct t; [discriminate Hi | simpl in Ht; lia].
    - destruct t as [| c t]; [discriminate Hi |].
      assert (Hrec : forall r pre, (String.length r <= k)%nat ->
                       includes (toLowerCase r) (String n name) = true ->
                       String c t = pre ++ r ->
                       exists a s', String c t = a ++ s' /\ at_character s' = true /\
                                    s' <> EmptyString /\
                                    String.prefix (String n name) (toLowerCase s') = true).
      { intros r pre Hr Hir Heq. destruct (IH r Hr Hir) as (a & s' & -> & B & Ne & P).
        exists (pre ++ a), s'. rewrite string_app_assoc. auto. }
      destruct (toLowerCase_step c t) as [E | [(r2 & -> & ->) | (r1 & -> & ->)]].
      + rewrite E in Hi. apply includes_cons_iff in Hi. destruct Hi as [P | Hi].
        * exists EmptyString, (String c t). split; [reflexivity |].
          split; [| split; [discriminate | now rewrite E]].
          apply prefix_cons in P. destruct P as [Pn _].
          rewrite Pn, lower_ascii_is_ascii in Hn. cbn [at_character].
          now rewrite (is_ascii_not_trail c Hn).
        * apply (Hrec t (String c EmptyString)); [simpl in Ht; lia | exact Hi | reflexivity].
      + change (toLowerCase (String "226" (String "132" (String "170" r2))))
          with (String "k" (toLowerCase r2)) in Hi.
        apply includes_cons_iff in Hi. destruct Hi as [P | Hi].
        * exists EmptyString, (String "226" (String "132" (String "170" r2))).
          split; [reflexivity |]. split; [reflexivity |]. split; [discriminate | exact P].
        * apply (Hrec r2 (String "226" (String "132" (String "170" EmptyString))));
            [simpl in Ht; lia | exact Hi | reflexivity].
      + change (toLowerCase (String "196" (String "176" r1)))
          with (String "i" (String "204" (String "135" (toLowerCase r1)))) in Hi.
        apply includes_cons_iff in Hi. destruct Hi as [P | Hi].
        * exists EmptyString, (String "196" (String "176" r1)).
          split; [reflexivity |]. split; [reflexivity |]. split; [discriminate | exact P].
        * apply includes_cons_iff in Hi. destruct Hi as [P | Hi].
          { apply prefix_cons in P. destruct P as [-> _]. discriminate Hn. }
          apply includes_cons_iff in Hi. destruct Hi as [P | Hi].
          { apply prefix_cons in P. destruct P as [-> _]. discriminate Hn. }
          apply (Hrec r1 (String "196" (String "176" EmptyString)));
            [simpl in Ht; lia | exact Hi | reflexivity]. }
  exact (H (String.length s) s (le_n _)).
Qed.

(** An ASCII name that the lower case of a text starts with is still there
    when the text goes on. *)
Lemma prefix_toLowerCase_app name s post :
  all_ascii name = true ->
  String.prefix name (toLowerCase s) = true ->
  String.prefix name (toLowerCase (s ++ post)) = true.
Proof.
  revert s. induction name as [| n name IH]; intros s Ha P; [apply prefix_nil |].
  unfold all_ascii in Ha. cbn [list_ascii_of_string forallb] in Ha.
  apply andb_true_iff in Ha. destruct Ha as [Hn Ha].
  destruct s as [| c s]; [discriminate P |].
  rewrite string_app_cons.
  destruct (toLowerCase_step c s) as [E | [(r2 & -> & ->) | (r1 & -> & ->)]].
  - rewrite E in P. apply prefix_cons in P. destruct P as [-> P].
    rewrite lower_ascii_is_ascii in Hn.
    rewrite (toLowerCase_ascii c (s ++ post) Hn). apply prefix_cons.
    split; [reflexivity | exact (IH s Ha P)].
  - rewrite !string_app_cons.
    change (toLowerCase (String "226" (String "132" (String "170" (r2 ++ post)))))
      with (String "k" (toLowerCase (r2 ++ post))).
    change (toLowerCase (String "226" (String "132" (String "170" r2))))
      with (String "k" (toLowerCase r2)) in P.
    apply prefix_cons in P. destruct P as [-> P]. apply prefix_cons.
    split; [reflexivity | exact (IH r2 Ha P)].
  - rewrite !string_app_cons.
    change (toLowerCase (String "196" (String "176" (r1 ++ post))))
      with (String "i" (String "204" (String "135" (toLowerCase (r1 ++ post))))).
    change (toLowerCase (String "196" (String "176" r1)))
      with (String "i" (String "204" (String "135" (toLowerCase r1)))) in P.
    apply prefix_cons in P. destruct P as [-> P]. apply prefix_cons.
    split; [reflexivity |].
    destruct name as [| n2 name]; [reflexivity |].
    apply prefix_cons in P. destruct P as [-> _].
    unfold all_ascii in Ha. cbn [list_ascii_of_string forallb] in Ha.
    apply andb_true_iff in Ha. destruct Ha as [Hn2 _]. discriminate Hn2.
Qed.

(** The lower case of a text contains every ASCII name that the lower case
    of a part of the text contains. *)
Lemma includes_toLowerCase_surrounded name pre h post :
  all_ascii name = true ->
  includes (toLowerCase h) name = true ->
  includes (toLowerCase (pre ++ h ++ post)) name = true.
Proof.
  intros Ha Hi. destruct name as [| n name].
  { apply includes_prefix, prefix_nil. }
  assert (Hn : is_ascii n = true).
  { unfold all_ascii in Ha. cbn [list_ascii_of_string forallb] in Ha.
    apply andb_true_iff in Ha. tauto. }
  destruct (includes_toLowerCase_at n name h Hn Hi) as (a & s' & -> & B & Ne & P).
  replace (pre ++ (a ++ s') ++ post) with ((pre ++ a) ++ (s' ++ post))
    by now rewrite !string_app_assoc.
  assert (B' : at_character (s' ++ post) = true).
  { destruct s' as [| c s']; [congruence |]. exact B. }
  destruct (toLowerCase_suffix (pre ++ a) (s' ++ post) B') as [u ->].
  apply includes_app_l, includes_prefix.
  exact (prefix_toLowerCase_app _ s' post Ha P).
Qed.

Lemma ascii_skeleton_non_ascii c r :
  is_ascii c = false ->
  exists sk, ascii_skeleton (String c r) = None :: sk /\
             (ascii_skeleton r = sk \/ ascii_skeleton r = None :: sk).
Proof.
  intros H. cbn [ascii_skeleton]. rewrite H.
  destruct (ascii_skeleton r) as [| [x |] sk]; eauto.
Qed.

Lemma prefix_cons' n name c s :
  String.prefix (String n name) (String c s) = (Ascii.eqb n c && String.prefix name s)%bool.
Proof.
  cbn [String.prefix]. destruct (ascii_dec n c) as [-> | E].
  - now rewrite Ascii.eqb_refl.
  - apply Ascii.eqb_neq in E. now rewrite E.
Qed.

Lemma prefix_on_skeleton name s :
  all_ascii name = true -> String.prefix name s = prefix_skeleton name (ascii_skeleton s).
Proof.
  revert s. induction name as [| n name IH]; intros s Ha.
  - destruct s; reflexivity.
  - unfold all_ascii in Ha. cbn [list_ascii_of_string forallb] in Ha.
    apply andb_true_iff in Ha. destruct Ha as [Hn Ha].
    destruct s as [| c r]; [reflexivity |].
    rewrite prefix_cons'. destruct (is_ascii c) eqn:Hc.
    + cbn [ascii_skeleton]. rewrite Hc. cbn [prefix_skeleton]. now rewrite (IH r Ha).
    + destruct (ascii_skeleton_non_ascii c r Hc) as (sk & -> & _).
      cbn [prefix_skeleton].
      destruct (Ascii.eqb n c) eqn:E; [| reflexivity].
      apply Ascii.eqb_eq in E. congruence.
Qed.

Lemma includes_on_skeleton name s :
  all_ascii name = true -> name <> EmptyString ->
  includes s name = includes_skeleton (ascii_skeleton s) name.
Proof.
  intros Ha Hne. induction s as [| c r IH].
  - cbn [includes ascii_skeleton includes_skeleton]. now rewrite (prefix_on_skeleton name _ Ha).
  - cbn [includes]. rewrite (prefix_on_skeleton name _ Ha), IH.
    destruct (is_ascii c) eqn:Hc.
    + cbn [ascii_skeleton]. rewrite Hc. reflexivity.
    + destruct (ascii_skeleton_non_ascii c r Hc) as (sk & -> & [-> | ->]);
        cbn [includes_skeleton]; destruct name; try congruence; reflexivity.
Qed.

(** Whether a text contains an ASCII name depends on the skeleton of the
    text alone: not on which characters outside ASCII it has, only on where
    it has some. *)
Lemma includes_up_to_non_ascii name s s' :
  all_ascii name = true -> name <> EmptyString ->
  ascii_skeleton s = ascii_skeleton s' ->
  includes s name = includes s' name.
Proof.
  intros Ha Hne E. now rewrite !(includes_on_skeleton name _ Ha Hne), E.
Qed.

(** X19. The Tron network check accepts every host that contains an
    accepted host: if the check passes for a full-node host, it passes for
    that host with any text before and after it. *)
Theorem checkTronNetwork_accepts_surrounded_host
    ACTIVE_TRON_CHAIN_ID (inst inst' : option TronWebInstance) h pre post :
  inst ?. fullNode ?. host = Some h ->
  inst' ?. fullNode ?. host = Some (pre ++ h ++ post) ->
  outcome (checkTronNetwork ACTIVE_TRON_CHAIN_ID inst) = Return true ->
  outcome (checkTronNetwork ACTIVE_TRON_CHAIN_ID inst') = Return true.
Proof.
  intros Hh Hh'. rewrite !checkTronNetwork_outcome, Hh, Hh'.
  intros H. injection H as H. apply andb_true_iff in H. destruct H as [Ht Hm].
  f_equal. apply andb_true_iff. split.
  - unfold truthy_str in *. apply negb_true_iff in Ht. apply negb_true_iff.
    apply String.eqb_neq in Ht. apply String.eqb_neq.
    destruct pre; [| discriminate]. rewrite string_app_nil_l.
    destruct h; [congruence | discriminate].
  - revert Hm. unfold host_matches.
    assert (Hs : forall hosts,
               forallb all_ascii hosts = true ->
               some (fun known => includes (toLowerCase h) known) hosts = true ->
               some (fun known => includes (toLowerCase (pre ++ h ++ post)) known) hosts = true).
    { intros hosts Hall Hx. unfold some in *. apply existsb_exists in Hx.
      destruct Hx as [known [Hin Hk]]. apply existsb_exists. exists known.
      split; [exact Hin |]. rewrite forallb_forall in Hall.
      exact (includes_toLowerCase_surrounded known pre h post (Hall _ Hin) Hk). }
    destruct (strict_eq ACTIVE_TRON_CHAIN_ID (IdString "TRON_MAINNET"));
      [apply Hs; reflexivity |].
    destruct (strict_eq ACTIVE_TRON_CHAIN_ID (IdString "TRON_SHASTA"));
      [apply Hs; reflexivity |].
    auto.
Qed.

(** ** Text outside ASCII *)

(** The network check lower-cases U+212A KELVIN SIGN to k, as the code
    does: a host written with it is accepted as a main-net host. *)
Example checkTronNetwork_lower_cases_kelvin_sign :
  toLowerCase host_with_kelvin_sign = "api.tronstack.io" /\
  outcome (checkTronNetwork (IdString "TRON_MAINNET")
             (Some (instance_at host_with_kelvin_sign))) = Return true.
Proof. split; vm_compute; reflexivity. Qed.

(** The amount conversions skip white space outside ASCII, as the code
    does: a no-break space in front of a number is no part of it. *)
Example conversions_skip_no_break_space :
  parseFloat (no_break_space ++ "1.5") = parseFloat "1.5" /\
  toRawAmount (no_break_space ++ "1.5") = Return "1500000" /\
  BigInt_of_string (no_break_space ++ "1500000" ++ no_break_space) = Return 1500000.
Proof. repeat split; vm_compute; reflexivity. Qed.

(** ** Instances of the properties above *)

Lemma initialize_config_well_formed_witness :
  NEXT_PUBLIC_BSC_RPC_URL cfg_defaulted = "bsc-testnet-rpc.publicnode.com" /\
  toHex_sample (TRC20_ADDRESS_BASE58 cfg_defaulted) = Return (TRC20_ADDRESS_HEX cfg_defaulted).
Proof.
  pose proof (initialize_config_well_formed toHex_sample env_without_bsc_rpc cfg_defaulted
                ltac:(vm_compute; reflexivity)) as H.
  split; [exact (proj1 (proj2 (proj2 H))) |].
  exact (proj1 (proj2 (proj2 (proj2 (proj2 (proj2 (proj2 (proj2 (proj2 (proj2 H)))))))))).
Defined.

Lemma initialize_aborts_on_missing_input_witness :
  exists n, In n required_names /\
            initialize toHex_sample (delete "NEXT_PUBLIC_TRON_RPC_URL" env_without_bsc_rpc)
            = ([], Throw (missing n)).
Proof.
  apply (initialize_aborts_on_missing_input toHex_sample
           (delete "NEXT_PUBLIC_TRON_RPC_URL" env_without_bsc_rpc) "NEXT_PUBLIC_TRON_RPC_URL").
  - simpl. auto.
  - vm_compute. reflexivity.
Defined.

Lemma initialize_aborts_on_malformed_address_witness :
  initialize toHex_rejecting env_without_bsc_rpc =
    ([Console LError "Failed to convert TRC20 address to hex:"],
     Throw (new_Error ("Invalid NEXT_PUBLIC_TRC20_CONTRACT_ADDRESS format: "
                       ++ "TR7NHqjeKQxGTCi8q8ZY4pL8otSzgjLj6t"))).
Proof.
  apply (initialize_aborts_on_malformed_address toHex_rejecting env_without_bsc_rpc
           "0x55d398326f99059fF775485246999027B3197955" "https://api.shasta.trongrid.io"
           "TR7NHqjeKQxGTCi8q8ZY4pL8otSzgjLj6t" (new_Error "Invalid address provided"));
    vm_compute; reflexivity.
Defined.

Lemma tron_mint_burn_success_witness :
  exists tr tc m mint raw,
    getTrc20Contract cfg0 (Some (tron_instance (ledger "0"))) = (tr, Return tc) /\
    methods tc = Some m /\ trc_mint m = Some mint /\
    toRawAmount "1.5" = Return raw /\
    mint "TJRabPrwbZy45sbavfcjinPJC18kjpRTv8" raw sendOptions
    = Return (TxIdString "7c2d4206c03a883dd9066d620335dc1be272a8dc733cfa3f6d10308faa37facc") /\
    (60 <= String.length
             "7c2d4206c03a883dd9066d620335dc1be272a8dc733cfa3f6d10308faa37facc")%nat /\
    calls (trace (mintTrc20Tokens cfg0 (Some (tron_instance (ledger "0")))
                    "TJRabPrwbZy45sbavfcjinPJC18kjpRTv8" "1.5"))
    = [ContractCall "TRC20" "mint" ["TJRabPrwbZy45sbavfcjinPJC18kjpRTv8"; raw]].
Proof.
  apply (proj1 (tron_mint_burn_success cfg0 (Some (tron_instance (ledger "0")))
                  "TJRabPrwbZy45sbavfcjinPJC18kjpRTv8" "1.5"
                  "7c2d4206c03a883dd9066d620335dc1be272a8dc733cfa3f6d10308faa37facc")).
  vm_compute. reflexivity.
Defined.

Lemma tron_invalid_txid_after_send_witness :
  outcome (mintTrc20Tokens cfg0 (Some (tron_instance ledger_short_txid))
             "TJRabPrwbZy45sbavfcjinPJC18kjpRTv8" "1.5") = Throw invalid_txid /\
  calls (trace (mintTrc20Tokens cfg0 (Some (tron_instance ledger_short_txid))
                  "TJRabPrwbZy45sbavfcjinPJC18kjpRTv8" "1.5"))
  = [ContractCall "TRC20" "mint" ["TJRabPrwbZy45sbavfcjinPJC18kjpRTv8"; "1500000"]].
Proof.
  apply (proj1 (tron_invalid_txid_after_send cfg0 (tron_instance ledger_short_txid)
                  [ContractConstructed "TRC20" (TRC20_ADDRESS_HEX cfg0)]
                  {| methods := Some ledger_short_txid |} ledger_short_txid
                  (fun _ _ _ => Return (TxIdString "7c2d4206"))
                  "TJRabPrwbZy45sbavfcjinPJC18kjpRTv8" "1.5" "1500000"
                  (TxIdString "7c2d4206")
                  eq_refl eq_refl eq_refl
                  ltac:(vm_compute; reflexivity) eq_refl eq_refl)).
  reflexivity.
Defined.


Lemma tron_mint_burn_reject_non_numeric_witness :
  outcome (mintTrc20Tokens cfg0 (Some (tron_instance (ledger "0")))
             "TJRabPrwbZy45sbavfcjinPJC18kjpRTv8" EmptyString) = Throw nan_not_an_integer /\
  calls (trace (mintTrc20Tokens cfg0 (Some (tron_instance (ledger "0")))
                  "TJRabPrwbZy45sbavfcjinPJC18kjpRTv8" EmptyString)) = [] /\
  outcome (burnTrc20Tokens cfg0 (Some (tron_instance (ledger "0")))
             "TJRabPrwbZy45sbavfcjinPJC18kjpRTv8" EmptyString) = Throw nan_not_an_integer /\
  calls (trace (burnTrc20Tokens cfg0 (Some (tron_instance (ledger "0")))
                  "TJRabPrwbZy45sbavfcjinPJC18kjpRTv8" EmptyString)) = [].
Proof.
  apply (tron_mint_burn_reject_non_numeric cfg0 (tron_instance (ledger "0"))
           [ContractConstructed "TRC20" (TRC20_ADDRESS_HEX cfg0)]
           {| methods := Some (ledger "0") |}); reflexivity.
Defined.

Lemma tron_mint_burn_ignore_trailing_text_witness :
  mintTrc20Tokens cfg0 (Some (tron_instance (ledger "0")))
    "TJRabPrwbZy45sbavfcjinPJC18kjpRTv8" ("1" ++ ",000")
  = mintTrc20Tokens cfg0 (Some (tron_instance (ledger "0")))
      "TJRabPrwbZy45sbavfcjinPJC18kjpRTv8" "1" /\
  burnTrc20Tokens cfg0 (Some (tron_instance (ledger "0")))
    "TJRabPrwbZy45sbavfcjinPJC18kjpRTv8" ("1" ++ "." ++ "5" ++ " TRX")
  = burnTrc20Tokens cfg0 (Some (tron_instance (ledger "0")))
      "TJRabPrwbZy45sbavfcjinPJC18kjpRTv8" ("1" ++ "." ++ "5").
Proof.
  split.
  - apply (proj1 (tron_mint_burn_ignore_trailing_text cfg0
                    (Some (tron_instance (ledger "0"))) "TJRabPrwbZy45sbavfcjinPJC18kjpRTv8"
                    "1" "5" ",000" 1 5 ltac:(discriminate) eq_refl eq_refl) eq_refl).
  - apply (proj2 (tron_mint_burn_ignore_trailing_text cfg0
                    (Some (tron_instance (ledger "0"))) "TJRabPrwbZy45sbavfcjinPJC18kjpRTv8"
                    "1" "5" " TRX" 1 5 ltac:(discriminate) eq_refl eq_refl) eq_refl).
Defined.

Lemma getTrc20Balance_displays_balance_exactly_witness :
  outcome (getTrc20Balance cfg0 (Some (tron_instance (ledger (Z_toString 1500000))))
             "TJRabPrwbZy45sbavfcjinPJC18kjpRTv8")
  = Return (formatBalance 1500000 (10 ^ tokenDecimals)) /\
  spec_exactBaseUnits (formatBalance 1500000 (10 ^ tokenDecimals)) = Some 1500000.
Proof.
  apply (getTrc20Balance_displays_balance_exactly cfg0
           (tron_instance (ledger (Z_toString 1500000)))
           [ContractConstructed "TRC20" (TRC20_ADDRESS_HEX cfg0)]
           {| methods := Some (ledger (Z_toString 1500000)) |}
           (ledger (Z_toString 1500000)) (fun _ => Return (Some (Z_toString 1500000))));
    try reflexivity. lia.
Defined.

Lemma balance_display_round_trip_witness :
  spec_exactBaseUnits (formatBalance 123456789123456 (10 ^ tokenDecimals))
  = Some 123456789123456.
Proof.
  apply (proj1 (balance_display_round_trip 123456789123456 ltac:(lia))).
Defined.

Lemma formatBalance_shape_witness :
  exists f, formatBalance 1500000 (10 ^ tokenDecimals)
            = Z_toString (1500000 / 10 ^ tokenDecimals) ++ "." ++ f /\
            (1 <= String.length f <= 6)%nat /\
            forall p, f <> p ++ "0".
Proof.
  apply (proj2 (formatBalance_shape 1500000 ltac:(lia))). vm_compute. discriminate.
Defined.

Lemma checkTronNetwork_accepts_surrounded_host_witness :
  outcome (checkTronNetwork (IdString "TRON_MAINNET")
             (Some (instance_at ("https://" ++ "api.trongrid.io" ++ ".example.net"))))
  = Return true.
Proof.
  apply (checkTronNetwork_accepts_surrounded_host (IdString "TRON_MAINNET")
           (Some (instance_at "api.trongrid.io"))
           (Some (instance_at ("https://" ++ "api.trongrid.io" ++ ".example.net")))
           "api.trongrid.io" "https://" ".example.net"); reflexivity.
Defined.


Lemma switch_request_matches_network_check_witness :
  (exists hex rest,
      requests (trace (requestNetworkSwitch cfg0 (IdNumber 56) (Some wallet_accepting)
                         (IdNumber 56)))
      = switch_request hex :: rest /\
      BigInt_of_string hex = Return 56) /\
  (outcome (checkBscNetwork (IdNumber 56) unit (Some (rpc_on 56))) = Return true <->
   network_chainId {| network_chainId := 56 |} = 56).
Proof.
  apply (switch_request_matches_network_check cfg0 (IdNumber 56) wallet_accepting
           (fun _ _ => Return tt) 56 unit (rpc_on 56) {| network_chainId := 56 |});
    try reflexivity. lia.
Defined.

Lemma getBep20Balance_cases_witness :
  outcome (getBep20Balance cfg0 unit (fun _ _ => Return (evm_holding 1500000))
             formatEther_sample (Some {| provider := Some tt |})
             "0x8894E0a0c962CB723c1976a4421c95949bE2D4E3")
  = Return (formatEther_sample 1500000) /\
  outcome (getBep20Balance cfg0 unit (fun _ _ => Return evm_rejecting_undefined)
             formatEther_sample (Some {| provider := Some tt |})
             "0x8894E0a0c962CB723c1976a4421c95949bE2D4E3")
  = Throw (cannot_read Undefined "message") /\
  outcome (getBep20Balance cfg0 unit (fun _ _ => Return evm_no_methods)
             formatEther_sample (Some {| provider := None |})
             "0x8894E0a0c962CB723c1976a4421c95949bE2D4E3")
  = Return sentinel.
Proof.
  split; [| split].
  - exact (proj2 (getBep20Balance_cases cfg0 unit (fun _ _ => Return (evm_holding 1500000))
                    formatEther_sample (Some {| provider := Some tt |})
                    "0x8894E0a0c962CB723c1976a4421c95949bE2D4E3") tt eq_refl).
  - exact (proj2 (getBep20Balance_cases cfg0 unit (fun _ _ => Return evm_rejecting_undefined)
                    formatEther_sample (Some {| provider := Some tt |})
                    "0x8894E0a0c962CB723c1976a4421c95949bE2D4E3") tt eq_refl).
  - exact (proj1 (getBep20Balance_cases cfg0 unit (fun _ _ => Return evm_no_methods)
                    formatEther_sample (Some {| provider := None |})
                    "0x8894E0a0c962CB723c1976a4421c95949bE2D4E3") eq_refl).
Defined.

Lemma getTrc20Balance_sentinel_iff_failure_witness :
  (outcome (getTrc20Balance cfg0 (Some (tron_instance (ledger "1500000")))
              "TJRabPrwbZy45sbavfcjinPJC18kjpRTv8")
   = Return (formatBalance 1500000 (10 ^ tokenDecimals)) /\
   outcome (getTrc20Balance cfg0 (Some (tron_instance (ledger "1500000")))
              "TJRabPrwbZy45sbavfcjinPJC18kjpRTv8")
   <> Return sentinel) /\
  outcome (getTrc20Balance cfg0 (Some (tron_instance ledger_rejecting_null))
             "TJRabPrwbZy45sbavfcjinPJC18kjpRTv8")
  = Throw (cannot_read Null "message").
Proof.
  split.
  - apply (proj1 (getTrc20Balance_sentinel_iff_failure cfg0
                    (Some (tron_instance (ledger "1500000")))
                    "TJRabPrwbZy45sbavfcjinPJC18kjpRTv8") 1500000).
    exists [ContractConstructed "TRC20" (TRC20_ADDRESS_HEX cfg0)],
      {| methods := Some (ledger "1500000") |}, (ledger "1500000"),
      (fun _ => Return (Some "1500000")), "1500000".
    repeat split; vm_compute; reflexivity.
  - apply (proj2 (proj1 (proj2 (getTrc20Balance_sentinel_iff_failure cfg0
                                  (Some (tron_instance ledger_rejecting_null))
                                  "TJRabPrwbZy45sbavfcjinPJC18kjpRTv8")) Null)).
    right.
    exists [ContractConstructed "TRC20" (TRC20_ADDRESS_HEX cfg0)],
      {| methods := Some ledger_rejecting_null |}, ledger_rejecting_null,
      (fun _ => ThrowNullish Null).
    repeat split; reflexivity.
Defined.

Lemma handleConnect_always_settles_witness :
  WalletConnectButton.handleConnect nat (fun s => s) None
    (Some (7%nat, ThrowNullish Null)) TRON
  = ([WalletConnectButton.SetIsConnecting true;
      WalletConnectButton.ConsoleError "Error connecting wallet:";
      WalletConnectButton.SetIsConnecting false],
     Throw (cannot_read Null "message")) /\
  outcome (WalletConnectButton.handleConnect nat (fun s => s) None
             (Some (7%nat, Throw (new_Error "User rejected the request."))) TRON)
  = Return tt.
Proof.
  split.
  - apply (proj1 (handleConnect_always_settles nat (fun s => s) None
                    (Some (7%nat, ThrowNullish Null)) TRON) Null).
    split; [reflexivity | exists 7%nat; reflexivity].
  - apply (proj1 (proj2 (handleConnect_always_settles nat (fun s => s) None
                           (Some (7%nat, Throw (new_Error "User rejected the request.")))
                           TRON))).
    intros (u & _ & h & H). discriminate H.
Defined.
